(** * The Azure cost service of convergio-cli, embedded and verified

    Source: [src/backend/api/azure_costs.py] (with [models.py], [config.py]
    and the routes of [main.py]).

    The first part embeds the code, in the layout of the Python module:
    - [Py]: the built-ins the module calls ([int], [str], slicing, [round],
      float arithmetic, [list.sort]);
    - [Calendar]: [datetime.date] as far as the module uses it;
    - [CostByService], [DailyCost], [CostSummary], [CostForecast]: the
      pydantic models of [models.py];
    - [CostCache]: the TTL cache class;
    - [AzureCostService]: the service class, as state-passing code over an
      explicit world (token slot, cache, clock, billing API, credential);
    - [Config], [Credential], [Main]: the settings of [config.py], the
      choice of the credential in [AzureCostService.__init__], and the
      routes of [main.py].
    The second part proves facts about the built-ins, then the properties
    of the cache, the query executor, the aggregator and the forecast,
    then those of whole calls, of the rows, of the edges of the calendar
    and of the routes.

    Numbers are modelled as Python has them: [int] is [Z], [float] is
    IEEE-754 binary64 (the kernel's primitive floats). Strings are byte
    strings; characters outside ASCII are not interpreted. *)

From Stdlib Require Import ZArith List String Ascii Floats Lia.
From Stdlib Require Import Sorting.Sorted Sorting.Permutation.
From stdpp Require Import gmap strings list.
Import ListNotations.
Local Open Scope string_scope.
Local Open Scope Z_scope.

(** ** Python built-ins *)
Module Py.

(** The whitespace [int] skips around an ASCII literal: TAB, LF, VT, FF, CR
    and the space. *)
Definition is_space (c : ascii) : bool :=
  let n := Z.of_nat (nat_of_ascii c) in
  ((9 <=? n) && (n <=? 13)) || (n =? 32).

Definition digit_val (c : ascii) : option Z :=
  let n := Z.of_nat (nat_of_ascii c) in
  if (48 <=? n) && (n <=? 57) then Some (n - 48) else None.

Definition digit_char (d : Z) : ascii := ascii_of_nat (Z.to_nat (48 + d)).

Fixpoint lstrip (l : list ascii) : list ascii :=
  match l with
  | c :: r => if is_space c then lstrip r else l
  | [] => []
  end.

Definition strip (l : list ascii) : list ascii := rev (lstrip (rev (lstrip l))).

(** The digits of an integer literal: one or more decimal digits, where a
    single underscore may stand between two digits. [seen] tells whether
    the previous character was a digit. *)
Fixpoint parse_digits (acc : Z) (seen : bool) (l : list ascii) : option Z :=
  match l with
  | [] => if seen then Some acc else None
  | c :: r =>
      if Ascii.eqb c "_"
      then (if seen then parse_digits acc false r else None)
      else match digit_val c with
           | Some d => parse_digits (10 * acc + d) true r
           | None => None
           end
  end.

(** [int(s)] for a string [s], base ten: surrounding whitespace is dropped,
    one sign is allowed, then the digits. [None] is [ValueError]. *)
Definition py_int (s : string) : option Z :=
  match strip (list_ascii_of_string s) with
  | c :: r =>
      if Ascii.eqb c "-" then option_map Z.opp (parse_digits 0 false r)
      else if Ascii.eqb c "+" then parse_digits 0 false r
      else parse_digits 0 false (c :: r)
  | [] => None
  end.

(** The decimal digits of a non-negative integer, most significant first.
    [fuel] bounds the number of digits. *)
Fixpoint decimal_digits (fuel : nat) (n : Z) : list ascii :=
  match fuel with
  | O => []
  | S f =>
      if n <? 10 then [digit_char n]
      else decimal_digits f (n / 10) ++ [digit_char (n mod 10)]
  end.

Definition digits_fuel (n : Z) : nat := S (Z.to_nat (Z.log2 n)).

(** [str(n)] for an [int], also what an f-string writes for [{n}]. *)
Definition py_str (n : Z) : string :=
  if n <? 0
  then String "-" (string_of_list_ascii (decimal_digits (digits_fuel (- n)) (- n)))
  else string_of_list_ascii (decimal_digits (digits_fuel n) n).

(** [s[i:j]] for [0 <= i <= j]. *)
Definition slice (i j : nat) (s : string) : string :=
  string_of_list_ascii (take (j - i) (drop i (list_ascii_of_string s))).

(** [float(n)] for an [int]: the nearest binary64 value, ties to even;
    [None] is [OverflowError] (the integer is too large for a float). *)
Definition py_float (n : Z) : option float :=
  let x := SF2Prim (binary_normalize prec emax n 0 false) in
  if PrimFloat.is_infinity x then None else Some x.

(** [n / d] for two [int]s ([d] not zero): the quotient rounded once to the
    nearest binary64 value; [None] is [OverflowError]. *)
Definition int_truediv (n d : Z) : option float :=
  match n, d with
  | Z0, _ => Some (if d <? 0 then PrimFloat.neg_zero else PrimFloat.zero)
  | _, Z0 => None
  | _, _ =>
      let x := SF2Prim (SFdiv prec emax
                          (S754_finite (n <? 0) (Z.to_pos (Z.abs n)) 0)
                          (S754_finite (d <? 0) (Z.to_pos (Z.abs d)) 0)) in
      if PrimFloat.is_infinity x then None else Some x
  end.

(** Rounding of [n / d] ([d > 0], [n >= 0]) to the nearest integer, ties to
    the even one. *)
Definition div_half_even (n d : Z) : Z :=
  let q := n / d in
  let r := n mod d in
  match 2 * r ?= d with
  | Lt => q
  | Gt => q + 1
  | Eq => if Z.even q then q else q + 1
  end.

(** [round(x, 2)] for a float: the exact binary value is rounded to two
    decimals, ties to even, and the decimal result is converted back to the
    nearest float. Zeros, infinities and NaN are returned as they are. *)
Definition py_round2 (x : float) : float :=
  match Prim2SF x with
  | S754_finite s m e =>
      let k := if 0 <=? e then Zpos m * 100 * 2 ^ e
               else div_half_even (Zpos m * 100) (2 ^ (- e)) in
      match k with
      | Zpos p =>
          SF2Prim (SFdiv prec emax (S754_finite s p 0) (S754_finite false 100 0))
      | _ => if s then PrimFloat.neg_zero else PrimFloat.zero
      end
  | _ => x
  end.

(** [l.sort(key=key, reverse=reverse)]. Python's sort is stable and compares
    keys with [<] only. On keys that [<] orders consistently, the result of
    a stable sort is determined, and it is the one of the insertion sort
    below: an element moves left past the elements that are strictly
    greater and stops behind the first one that is not. With [reverse=True]
    the list is reversed, sorted, and reversed again, so equal keys keep
    their original order in both directions. *)
Section Sort.
Context {A K : Type} (lt : K -> K -> bool) (key : A -> K).

Fixpoint insert (x : A) (l : list A) : list A :=
  match l with
  | [] => [x]
  | y :: r => if lt (key y) (key x) then y :: insert x r else x :: y :: r
  end.

Definition sort_asc (l : list A) : list A := fold_right insert [] l.

Definition sort (reverse : bool) (l : list A) : list A :=
  if reverse then rev (sort_asc (rev l)) else sort_asc l.

End Sort.

End Py.

(** ** [datetime.date] *)
Module Calendar.

Record date : Type := mkdate { year : Z; month : Z; day : Z }.

Definition MINYEAR : Z := 1.
Definition MAXYEAR : Z := 9999.
Definition _MAXORDINAL : Z := 3652059.

Definition _DAYS_IN_MONTH : list Z :=
  [-1; 31; 28; 31; 30; 31; 30; 31; 31; 30; 31; 30; 31].
Definition _DAYS_BEFORE_MONTH : list Z :=
  [-1; 0; 31; 59; 90; 120; 151; 181; 212; 243; 273; 304; 334].

Definition _is_leap (y : Z) : bool :=
  (y mod 4 =? 0) && (negb (y mod 100 =? 0) || (y mod 400 =? 0)).

Definition _days_before_year (year : Z) : Z :=
  let y := year - 1 in y * 365 + y / 4 - y / 100 + y / 400.

Definition _days_in_month (y m : Z) : Z :=
  if (m =? 2) && _is_leap y then 29 else nth (Z.to_nat m) _DAYS_IN_MONTH 0.

Definition _days_before_month (y m : Z) : Z :=
  nth (Z.to_nat m) _DAYS_BEFORE_MONTH 0
  + (if (2 <? m) && _is_leap y then 1 else 0).

Definition _ymd2ord (y m d : Z) : Z :=
  _days_before_year y + _days_before_month y m + d.

Definition _DI400Y : Z := 146097.
Definition _DI100Y : Z := 36524.
Definition _DI4Y : Z := 1461.

Definition _ord2ymd (n0 : Z) : date :=
  let n := n0 - 1 in
  let n400 := n / _DI400Y in
  let n := n mod _DI400Y in
  let year := n400 * 400 + 1 in
  let n100 := n / _DI100Y in
  let n := n mod _DI100Y in
  let n4 := n / _DI4Y in
  let n := n mod _DI4Y in
  let n1 := n / 365 in
  let n := n mod 365 in
  let year := year + n100 * 100 + n4 * 4 + n1 in
  if (n1 =? 4) || (n100 =? 4) then mkdate (year - 1) 12 31
  else
    let leapyear := (n1 =? 3) && (negb (n4 =? 24) || (n100 =? 3)) in
    let month := Z.shiftr (n + 50) 5 in
    let preceding :=
      nth (Z.to_nat month) _DAYS_BEFORE_MONTH 0
      + (if (2 <? month) && leapyear then 1 else 0) in
    if n <? preceding then
      let month := month - 1 in
      let preceding :=
        preceding - (nth (Z.to_nat month) _DAYS_IN_MONTH 0
                     + (if (month =? 2) && leapyear then 1 else 0)) in
      mkdate year month (n - preceding + 1)
    else
      mkdate year month (n - preceding + 1).

(** What the constructor [date(y, m, d)] accepts. *)
Definition valid_ymd (y m d : Z) : bool :=
  (MINYEAR <=? y) && (y <=? MAXYEAR) && (1 <=? m) && (m <=? 12)
  && (1 <=? d) && (d <=? _days_in_month y m).

Definition valid (x : date) : bool := valid_ymd (year x) (month x) (day x).

(** [date(y, m, d)]; [None] is [ValueError]. *)
Definition new_date (y m d : Z) : option date :=
  if valid_ymd y m d then Some (mkdate y m d) else None.

(** [x.replace(day=d)]; [None] is [ValueError]. *)
Definition replace_day (x : date) (d : Z) : option date :=
  new_date (year x) (month x) d.

Definition toordinal (x : date) : Z := _ymd2ord (year x) (month x) (day x).

(** [x + timedelta(days=k)]; [None] is [OverflowError], from [timedelta]
    when [|k| > 999999999] and from the addition when the result leaves the
    range of [date]. *)
Definition add_days (x : date) (k : Z) : option date :=
  if Z.abs k <=? 999999999 then
    let o := toordinal x + k in
    if (0 <? o) && (o <=? _MAXORDINAL) then Some (_ord2ymd o) else None
  else None.

(** [x - timedelta(days=k)]. *)
Definition sub_days (x : date) (k : Z) : option date :=
  if Z.abs k <=? 999999999 then
    let o := toordinal x + - k in
    if (0 <? o) && (o <=? _MAXORDINAL) then Some (_ord2ymd o) else None
  else None.

(** [x < y] on dates: the order of the triples (year, month, day). *)
Definition ltb (x y : date) : bool :=
  (year x <? year y)
  || ((year x =? year y)
      && ((month x <? month y)
          || ((month x =? month y) && (day x <? day y)))).

(** ["%0*d"] for a non-negative integer: decimal, padded with zeros on the
    left to [width] characters. *)
Definition zero_padded (width : nat) (n : Z) : list ascii :=
  let ds := list_ascii_of_string (Py.py_str n) in
  repeat "0"%char (width - length ds) ++ ds.

(** [x.isoformat()]: YYYY-MM-DD. *)
Definition isoformat (x : date) : string :=
  string_of_list_ascii
    (zero_padded 4 (year x) ++ "-"%char :: zero_padded 2 (month x)
       ++ "-"%char :: zero_padded 2 (day x)).

(** A fixed-width field of ASCII digits. *)
Fixpoint parse_field (acc : Z) (l : list ascii) : option Z :=
  match l with
  | [] => Some acc
  | c :: r =>
      match Py.digit_val c with
      | Some d => parse_field (10 * acc + d) r
      | None => None
      end
  end.

(** [date.fromisoformat(s)] as Python 3.7 to 3.10 define it: exactly ten
    characters, YYYY-MM-DD, then the constructor's check. [None] is
    [ValueError]. (From Python 3.11 on, the basic and the week formats are
    accepted as well; on strings of the form YYYY-MM-DD all versions
    agree.) *)
Definition fromisoformat (s : string) : option date :=
  match list_ascii_of_string s with
  | [y1; y2; y3; y4; s1; m1; m2; s2; d1; d2] =>
      if Ascii.eqb s1 "-" && Ascii.eqb s2 "-" then
        match parse_field 0 [y1; y2; y3; y4],
              parse_field 0 [m1; m2], parse_field 0 [d1; d2] with
        | Some y, Some m, Some d => new_date y m d
        | _, _, _ => None
        end
      else None
  | _ => None
  end.

(** The clock is read in microseconds of local time since 0001-01-01
    00:00:00; [date.today()] is the day that instant falls in. *)
Definition US_PER_DAY : Z := 86400000000.

Definition date_of_timestamp (ts : Z) : date := _ord2ymd (ts / US_PER_DAY + 1).

End Calendar.

(** ** The response models of [models.py] *)
Module CostByService.
Record t : Type := mk { service_name : string; cost : float; currency : string }.
End CostByService.

Module DailyCost.
Record t : Type := mk { date : Calendar.date; cost : float; currency : string }.
End DailyCost.

Module CostSummary.
Record t : Type := mk {
  subscription_id : string;
  subscription_name : string;
  period_start : Calendar.date;
  period_end : Calendar.date;
  total_cost : float;
  currency : string;
  costs_by_service : list CostByService.t;
  daily_costs : list DailyCost.t
}.
End CostSummary.

Module CostForecast.
Record t : Type := mk {
  subscription_id : string;
  forecast_period_end : Calendar.date;
  estimated_total : float;
  currency : string
}.
End CostForecast.

(** The cache slot is untyped ([any]); the service stores its two kinds of
    result in it. Both are model objects, hence true in a Python [if]. *)
Inductive CachedValue : Type :=
| Summary (s : CostSummary.t)
| Forecast (f : CostForecast.t).

(** ** The billing API as the service sees it *)

(** A cell of a row: a JSON number, decoded by Python as [int] or as
    [float], or a JSON string. *)
Inductive Cell : Type :=
| CInt (n : Z)
| CFloat (x : float)
| CStr (s : string).

Definition Row : Type := list Cell.

(** The decoded JSON body, as far as the service reads it: the list under
    ["properties"]["rows"], when there is one. *)
Record JsonBody : Type := { properties_rows : option (list Row) }.

(** The empty dict [{}]. *)
Definition empty_dict : JsonBody := {| properties_rows := None |}.

(** [result.get("properties", {}).get("rows", [])] *)
Definition get_rows (result : JsonBody) : list Row :=
  match properties_rows result with
  | Some rows => rows
  | None => []
  end.

(** An HTTP response: its status, [headers.get("Retry-After")], and what
    [response.json()] gives ([None] when the body is not JSON). *)
Record Response : Type := {
  status_code : Z;
  retry_after : option string;
  json : option JsonBody
}.

(** The request body: the dict literals of the three queries. *)
Record QueryBody : Type := {
  q_type : string;
  q_timeframe : string;
  q_timePeriod : option (string * string);
  q_granularity : string;
  q_aggregation : string * (string * string);
  q_grouping : list (string * string)
}.

(** ** Exceptions and results *)
Inductive PyErr : Type :=
| ValueError
| OverflowError
| MalformedRow              (* IndexError, TypeError or pydantic's ValidationError *)
| JSONDecodeError
| TransportError            (* httpx: time-out or connection failure *)
| HTTPStatusError (response : Response)
| ClientAuthenticationError.

Inductive result (A : Type) : Type :=
| Ok (a : A)
| Raise (e : PyErr).
Arguments Ok {A} a.
Arguments Raise {A} e.

Definition bind_result {A B : Type} (r : result A) (k : A -> result B) : result B :=
  match r with
  | Ok a => k a
  | Raise e => Raise e
  end.

(** [or_raise e o]: the value of [o], or the exception [e]. *)
Definition or_raise {A : Type} (e : PyErr) (o : option A) : result A :=
  match o with
  | Some a => Ok a
  | None => Raise e
  end.

Declare Scope result_scope.
Delimit Scope result_scope with result.
Notation "x <- m ;; k" := (bind_result m (fun x => k))
  (at level 100, m at next level, right associativity) : result_scope.

(** ** [class CostCache] *)
Module CostCache.

(** [ttl] is in seconds; a timestamp is a clock reading in microseconds. *)
Record t : Type := mk { ttl : Z; _cache : gmap string (Z * CachedValue) }.

(** [CostCache(ttl_seconds)] *)
Definition __init__ (ttl_seconds : Z) : t := mk ttl_seconds ∅.

(** [(datetime.now() - timestamp).total_seconds() < self.ttl].
    The difference of two readings is a whole number of microseconds;
    [total_seconds()] divides it by 10^6, and the comparison of that float
    with the integer [ttl] is the comparison of the exact values as long as
    the quotient is exact to the microsecond (true below 2^33 seconds). *)
Definition fresh (self : t) (now timestamp : Z) : bool :=
  now - timestamp <? ttl self * 1000000.

(** [get(key)] when the clock reads [now]: the value ([None] for absent)
    and the cache afterwards. *)
Definition get (now : Z) (key : string) (self : t) : option CachedValue * t :=
  match _cache self !! key with
  | Some (timestamp, value) =>
      if fresh self now timestamp then (Some value, self)
      else (None, mk (ttl self) (delete key (_cache self)))
  | None => (None, self)
  end.

(** [set(key, value)] when the clock reads [now]. *)
Definition set (now : Z) (key : string) (value : CachedValue) (self : t) : t :=
  mk (ttl self) (<[key := (now, value)]> (_cache self)).

End CostCache.

(** ** [class AzureCostService] *)
Module AzureCostService.

(** *** The world around the service

    What the service cannot decide is given from outside: the settings, the
    readings of the clock, the answers of the billing API and of the
    credential, each in the order in which the service asks, and how
    pydantic reads a string where a float is expected ([None]: it does
    not). *)
Inductive PostOutcome : Type :=
| Responded (response : Response)
| Failed.

Record Env : Type := {
  azure_subscription_id : string;
  clock : nat -> Z;
  billing_api : nat -> PostOutcome;
  credential : nat -> option string;
  float_of_str : string -> option float
}.

Inductive Event : Type :=
| EvGetToken (scope : string)
| EvPost (url : string) (body : QueryBody) (bearer : string)
| EvSleep (seconds : Z).

(** The instance ([_token], [_cache]) and the counters of the world: how
    often the clock was read, how many requests were sent and how many
    tokens were asked for; [trace] lists the effects, oldest first. *)
Record State : Type := mkState {
  _token : option string;
  _cache : CostCache.t;
  clock_reads : nat;
  requests : nat;
  token_fetches : nat;
  trace : list Event
}.

(** [AzureCostService()] in a world where nothing has happened yet. *)
Definition __init__ : State :=
  mkState None (CostCache.__init__ 300) 0 0 0 [].

Definition M (A : Type) : Type := State -> result A * State.

Definition ret {A : Type} (a : A) : M A := fun s => (Ok a, s).

Definition raise {A : Type} (e : PyErr) : M A := fun s => (Raise e, s).

Definition bind {A B : Type} (m : M A) (k : A -> M B) : M B :=
  fun s =>
    match m s with
    | (Ok a, s') => k a s'
    | (Raise e, s') => (Raise e, s')
    end.

Definition lift {A : Type} (r : result A) : M A := fun s => (r, s).

Declare Scope service_scope.
Delimit Scope service_scope with service.
Notation "x <- m ;; k" := (bind m (fun x => k))
  (at level 100, m at next level, right associativity) : service_scope.
Notation "m ;;; k" := (bind m (fun _ => k))
  (at level 100, right associativity) : service_scope.
Local Open Scope service_scope.

Section Service.
Variable env : Env.

(** [datetime.now()] *)
Definition now : M Z := fun s =>
  (Ok (clock env (clock_reads s)),
   mkState (_token s) (_cache s) (S (clock_reads s)) (requests s)
     (token_fetches s) (trace s)).

(** [date.today()] *)
Definition today : M Calendar.date :=
  ts <- now ;; ret (Calendar.date_of_timestamp ts).

(** [await asyncio.sleep(seconds)] *)
Definition sleep (seconds : Z) : M unit := fun s =>
  (Ok tt,
   mkState (_token s) (_cache s) (clock_reads s) (requests s)
     (token_fetches s) (trace s ++ [EvSleep seconds])).

(** [await client.post(url, json=body, headers={"Authorization": ...},
    timeout=30.0)] on a fresh client. *)
Definition post (url : string) (body : QueryBody) (bearer : string) : M Response :=
  fun s =>
    let s' := mkState (_token s) (_cache s) (clock_reads s) (S (requests s))
                (token_fetches s) (trace s ++ [EvPost url body bearer]) in
    match billing_api env (requests s) with
    | Responded response => (Ok response, s')
    | Failed => (Raise TransportError, s')
    end.

(** [self.credential.get_token(scope).token] *)
Definition credential_get_token (scope : string) : M string := fun s =>
  let s' := mkState (_token s) (_cache s) (clock_reads s) (requests s)
              (S (token_fetches s)) (trace s ++ [EvGetToken scope]) in
  match credential env (token_fetches s) with
  | Some token => (Ok token, s')
  | None => (Raise ClientAuthenticationError, s')
  end.

Definition set_token (token : string) : M unit := fun s =>
  (Ok tt,
   mkState (Some token) (_cache s) (clock_reads s) (requests s)
     (token_fetches s) (trace s)).

Definition put_cache (c : CostCache.t) : M unit := fun s =>
  (Ok tt,
   mkState (_token s) c (clock_reads s) (requests s) (token_fetches s) (trace s)).

(** [self._cache.get(key)]: the clock is read only when the key is there. *)
Definition cache_get (key : string) : M (option CachedValue) := fun s =>
  match CostCache._cache (_cache s) !! key with
  | Some _ =>
      (ts <- now ;;
       fun s1 =>
         let (value, c) := CostCache.get ts key (_cache s1) in
         (put_cache c ;;; ret value) s1) s
  | None => (Ok None, s)
  end.

(** [self._cache.set(key, value)] *)
Definition cache_set (key : string) (value : CachedValue) : M unit :=
  ts <- now ;;
  fun s => put_cache (CostCache.set ts key value (_cache s)) s.

(** *** [_get_token] *)
Definition _get_token : M string := fun s =>
  match _token s with
  | None =>
      (token <- credential_get_token "https://management.azure.com/.default" ;;
       set_token token ;;;
       ret token) s
  | Some token => (Ok token, s)
  end.

(** *** [_query_costs] *)

(** [response.raise_for_status()]: httpx raises for every status outside
    200..299. *)
Definition is_success (response : Response) : bool :=
  (200 <=? status_code response) && (status_code response <=? 299).

Definition raise_for_status (response : Response) : M unit :=
  if is_success response then ret tt else raise (HTTPStatusError response).

(** [response.json()] *)
Definition response_json (response : Response) : M JsonBody :=
  lift (or_raise JSONDecodeError (json response)).

(** [int(response.headers.get("Retry-After", 60))] *)
Definition parse_retry_after (response : Response) : M Z :=
  match retry_after response with
  | Some value => lift (or_raise ValueError (Py.py_int value))
  | None => ret 60
  end.

Definition query_url : string :=
  "https://management.azure.com/subscriptions/" ++ azure_subscription_id env
  ++ "/providers/Microsoft.CostManagement/query?api-version=2023-11-01".

(** The loop [for attempt in range(max_retries)], from iteration [attempt]
    on, with [remaining] iterations to go; falling out of the loop returns
    the empty dict. *)
Fixpoint query_loop (query_body : QueryBody) (max_retries : Z) (token : string)
    (remaining : nat) (attempt : Z) : M JsonBody :=
  match remaining with
  | O => ret empty_dict
  | S remaining' =>
      response <- post query_url query_body token ;;
      if status_code response =? 429 then
        retry_after <- parse_retry_after response ;;
        if attempt <? max_retries - 1 then
          sleep retry_after ;;;
          query_loop query_body max_retries token remaining' (attempt + 1)
        else
          raise_for_status response ;;;
          response_json response
      else
        raise_for_status response ;;;
        response_json response
  end.

Definition _query_costs (query_body : QueryBody) (max_retries : Z) : M JsonBody :=
  token <- _get_token ;;
  query_loop query_body max_retries token (Z.to_nat max_retries) 0.

(** *** [get_cost_summary] *)

Definition service_query (start_date end_date : Calendar.date) : QueryBody :=
  {| q_type := "ActualCost";
     q_timeframe := "Custom";
     q_timePeriod := Some (Calendar.isoformat start_date, Calendar.isoformat end_date);
     q_granularity := "None";
     q_aggregation := ("totalCost", ("Cost", "Sum"));
     q_grouping := [("Dimension", "ServiceName")] |}.

Definition daily_query (start_date end_date : Calendar.date) : QueryBody :=
  {| q_type := "ActualCost";
     q_timeframe := "Custom";
     q_timePeriod := Some (Calendar.isoformat start_date, Calendar.isoformat end_date);
     q_granularity := "Daily";
     q_aggregation := ("totalCost", ("Cost", "Sum"));
     q_grouping := [] |}.

Local Open Scope result_scope.

(** [row[i]] *)
Definition row_get (row : Row) (i : nat) : result Cell :=
  or_raise MalformedRow (row !! i).

(** A service cost: pydantic takes a number where a [float] is expected,
    and so does [+=] on a float. (A string that pydantic would read as a
    number is refused by [+=].) *)
Definition as_float (c : Cell) : result float :=
  match c with
  | CFloat x => Ok x
  | CInt n => or_raise OverflowError (Py.py_float n)
  | CStr _ => Raise MalformedRow
  end.

(** A cell where a [str] is expected. *)
Definition as_str (c : Cell) : result string :=
  match c with
  | CStr s => Ok s
  | _ => Raise MalformedRow
  end.

(** The body of the loop "Parse service costs" for one row: the entry it
    appends. Its [cost] is the float that [total_cost += cost] adds. *)
Definition service_entry (row : Row) : result CostByService.t :=
  cost <- row_get row 0 ;;
  service_name <- row_get row 1 ;;
  currency <- (if (2 <? length row)%nat then row_get row 2 else Ok (CStr "USD")) ;;
  cost' <- as_float cost ;;
  service_name' <- as_str service_name ;;
  currency' <- as_str currency ;;
  Ok (CostByService.mk service_name' cost' currency').

(** The loop "Parse service costs"; the accumulators are the list built by
    [append] and the running [total_cost]. *)
Fixpoint parse_service_costs (rows : list Row)
    (costs_by_service : list CostByService.t) (total_cost : float)
    : result (list CostByService.t * float) :=
  match rows with
  | [] => Ok (costs_by_service, total_cost)
  | row :: rest =>
      entry <- service_entry row ;;
      parse_service_costs rest (costs_by_service ++ [entry])
        (total_cost + CostByService.cost entry)%float
  end.

(** The date of a daily row: an [int] is read as YYYYMMDD through its
    decimal digits, anything else through the first ten characters of its
    [str]. The [str] of a float has a point, an exponent, [inf] or [nan],
    and is never an ISO date. *)
Definition decode_date (date_val : Cell) : result Calendar.date :=
  match date_val with
  | CInt n =>
      let date_str := Py.py_str n in
      y <- or_raise ValueError (Py.py_int (Py.slice 0 4 date_str)) ;;
      m <- or_raise ValueError (Py.py_int (Py.slice 4 6 date_str)) ;;
      d <- or_raise ValueError (Py.py_int (Py.slice 6 8 date_str)) ;;
      or_raise ValueError (Calendar.new_date y m d)
  | CStr s => or_raise ValueError (Calendar.fromisoformat (Py.slice 0 10 s))
  | CFloat _ => Raise ValueError
  end.

(** A daily cost: pydantic takes a number where a [float] is expected, and
    a string when it reads as one. *)
Definition validate_float (c : Cell) : result float :=
  match c with
  | CFloat x => Ok x
  | CInt n => or_raise OverflowError (Py.py_float n)
  | CStr s => or_raise MalformedRow (float_of_str env s)
  end.

(** The body of the loop "Parse daily costs" for one row. *)
Definition daily_entry (row : Row) : result DailyCost.t :=
  cost <- row_get row 0 ;;
  date_val <- row_get row 1 ;;
  day_date <- decode_date date_val ;;
  cost' <- validate_float cost ;;
  Ok (DailyCost.mk day_date cost' "USD").

(** The loop "Parse daily costs". *)
Fixpoint parse_daily_costs (rows : list Row) (daily_costs : list DailyCost.t)
    : result (list DailyCost.t) :=
  match rows with
  | [] => Ok daily_costs
  | row :: rest =>
      entry <- daily_entry row ;;
      parse_daily_costs rest (daily_costs ++ [entry])
  end.

(** Lines 117 to 156: from the two query results to the summary. *)
Definition build_summary (start_date end_date : Calendar.date)
    (service_result daily_result : JsonBody) : result CostSummary.t :=
  parsed <- parse_service_costs (get_rows service_result) [] 0%float ;;
  daily_costs <- parse_daily_costs (get_rows daily_result) [] ;;
  let costs_by_service :=
    Py.sort PrimFloat.ltb CostByService.cost true (fst parsed) in
  let daily_costs := Py.sort Calendar.ltb DailyCost.date false daily_costs in
  Ok (CostSummary.mk (azure_subscription_id env) "virtual-bpm-prod"
        start_date end_date (snd parsed) "USD" costs_by_service daily_costs).

Local Close Scope result_scope.

Definition summary_key (days : Z) : string := "costs_" ++ Py.py_str days.

Definition get_cost_summary (days : Z) : M CachedValue :=
  let cache_key := summary_key days in
  cached <- cache_get cache_key ;;
  match cached with
  | Some value => ret value
  | None =>
      end_date <- today ;;
      start_date <- lift (or_raise OverflowError (Calendar.sub_days end_date days)) ;;
      service_result <- _query_costs (service_query start_date end_date) 3 ;;
      daily_result <- _query_costs (daily_query start_date end_date) 3 ;;
      result <- lift (build_summary start_date end_date service_result daily_result) ;;
      cache_set cache_key (Summary result) ;;;
      ret (Summary result)
  end.

(** *** [get_forecast] *)

Definition forecast_key : string := "forecast".

Definition forecast_query : QueryBody :=
  {| q_type := "ActualCost";
     q_timeframe := "MonthToDate";
     q_timePeriod := None;
     q_granularity := "None";
     q_aggregation := ("totalCost", ("Cost", "Sum"));
     q_grouping := [] |}.

Local Open Scope result_scope.

(** [date.today().replace(day=28) + timedelta(days=4)], then
    [.replace(day=1) - timedelta(days=1)] *)
Definition end_of_month (today : Calendar.date) : result Calendar.date :=
  d28 <- or_raise ValueError (Calendar.replace_day today 28) ;;
  next <- or_raise OverflowError (Calendar.add_days d28 4) ;;
  first <- or_raise ValueError (Calendar.replace_day next 1) ;;
  or_raise OverflowError (Calendar.sub_days first 1).

(** [rows[0][0] if rows else 0.0] *)
Definition current_cost (rows : list Row) : result Cell :=
  match rows with
  | [] => Ok (CFloat 0%float)
  | row :: _ => row_get row 0
  end.

(** [float(d)] for a small integer (exact). *)
Definition float_of_int (d : Z) : float :=
  SF2Prim (binary_normalize prec emax d 0 false).

(** [current_cost / days_elapsed] *)
Definition truediv (current_cost : Cell) (days_elapsed : Z) : result float :=
  match current_cost with
  | CFloat x => Ok (x / float_of_int days_elapsed)%float
  | CInt n => or_raise OverflowError (Py.int_truediv n days_elapsed)
  | CStr _ => Raise MalformedRow
  end.

(** [(current_cost / days_elapsed) * days_in_month if days_elapsed > 0
    else 0]; the [0] of the second branch reaches the model as [0.0]. *)
Definition linear_forecast (current_cost : Cell) (days_elapsed days_in_month : Z)
    : result float :=
  if 0 <? days_elapsed then
    q <- truediv current_cost days_elapsed ;;
    Ok (q * float_of_int days_in_month)%float
  else Ok 0%float.

Local Close Scope result_scope.

Definition get_forecast : M CachedValue :=
  let cache_key := forecast_key in
  cached <- cache_get cache_key ;;
  match cached with
  | Some value => ret value
  | None =>
      today1 <- today ;;
      end_of_month' <- lift (end_of_month today1) ;;
      result <- _query_costs forecast_query 3 ;;
      current_cost' <- lift (current_cost (get_rows result)) ;;
      today2 <- today ;;
      let days_elapsed := Calendar.day today2 in
      let days_in_month := Calendar.day end_of_month' in
      estimated_total <- lift (linear_forecast current_cost' days_elapsed days_in_month) ;;
      let forecast :=
        CostForecast.mk (azure_subscription_id env) end_of_month'
          (Py.py_round2 estimated_total) "USD" in
      cache_set cache_key (Forecast forecast) ;;;
      ret (Forecast forecast)
  end.

End Service.

End AzureCostService.

(** ** [config.py] *)
Module Config.

(** [class Settings]: the three credential values are [str | None]. *)
Record Settings : Type := {
  azure_tenant_id : option string;
  azure_client_id : option string;
  azure_client_secret : option string;
  azure_subscription_id : string;
  api_title : string;
  api_version : string;
  cors_origins : list string
}.

(** The truth value of a [str | None]: [None] and the empty string are
    false. *)
Definition truthy (v : option string) : bool :=
  match v with
  | Some (String _ _) => true
  | _ => false
  end.

(** The property [use_service_principal]:
    [all([self.azure_tenant_id, self.azure_client_id, self.azure_client_secret])] *)
Definition use_service_principal (self : Settings) : bool :=
  forallb truthy
    [azure_tenant_id self; azure_client_id self; azure_client_secret self].

End Config.

(** ** The credential of [AzureCostService.__init__] *)
Module Credential.

(** The two credential classes, with the arguments of the constructor. *)
Inductive t : Type :=
| ClientSecretCredential (tenant_id client_id client_secret : option string)
| AzureCliCredential.

(** Lines 34 to 42 of [__init__]. *)
Definition of_settings (settings : Config.Settings) : t :=
  if Config.use_service_principal settings then
    ClientSecretCredential (Config.azure_tenant_id settings)
      (Config.azure_client_id settings) (Config.azure_client_secret settings)
  else AzureCliCredential.

End Credential.

(** ** The routes of [main.py] *)
Module HealthCheck.
Record t : Type := mk { status : string; version : string }.
End HealthCheck.

Module Main.

(** What a request ends in: the handler returns a body (status 200), it
    raises [HTTPException], the framework refuses a parameter (422) or the
    returned value (it does not fit [response_model]; 500), or an exception
    leaves the handler. *)
Inductive Outcome (A : Type) : Type :=
| Returned (body : A)
| HTTPException (status_code : Z) (detail : string)
| RequestValidationError
| ResponseValidationError
| Unhandled (e : PyErr).
Arguments Returned {A} body.
Arguments HTTPException {A} status_code detail.
Arguments RequestValidationError {A}.
Arguments ResponseValidationError {A}.
Arguments Unhandled {A} e.

Definition Handler (A : Type) : Type :=
  AzureCostService.State -> Outcome A * AzureCostService.State.

Section Routes.
Variable env : AzureCostService.Env.
Variable settings : Config.Settings.
(** [str(e)] for an exception. *)
Variable str : PyErr -> string.

(** [lifespan]: [app.state.cost_service = AzureCostService()] *)
Definition lifespan : AzureCostService.State := AzureCostService.__init__.

(** [try: return await call / except Exception as e: raise
    HTTPException(status_code=500, detail=str(e))] *)
Definition try_call {A : Type} (call : AzureCostService.M A) : Handler A :=
  fun s =>
    match call s with
    | (Ok a, s') => (Returned a, s')
    | (Raise e, s') => (HTTPException 500 (str e), s')
    end.

(** [response_model=CostSummary] and [response_model=CostForecast]: the
    returned object has to be of the model. *)
Definition cost_summary_model (o : Outcome CachedValue) : Outcome CostSummary.t :=
  match o with
  | Returned (Summary summary) => Returned summary
  | Returned (Forecast _) => ResponseValidationError
  | HTTPException status_code detail => HTTPException status_code detail
  | RequestValidationError => RequestValidationError
  | ResponseValidationError => ResponseValidationError
  | Unhandled e => Unhandled e
  end.

Definition cost_forecast_model (o : Outcome CachedValue) : Outcome CostForecast.t :=
  match o with
  | Returned (Forecast forecast) => Returned forecast
  | Returned (Summary _) => ResponseValidationError
  | HTTPException status_code detail => HTTPException status_code detail
  | RequestValidationError => RequestValidationError
  | ResponseValidationError => ResponseValidationError
  | Unhandled e => Unhandled e
  end.

(** [GET /health] *)
Definition health_check : Handler HealthCheck.t :=
  fun s => (Returned (HealthCheck.mk "healthy" (Config.api_version settings)), s).

(** [GET /api/v1/costs], [days: int = Query(default=30, ge=1, le=365)];
    [days] is the integer of the request, [None] when the request has
    none. *)
Definition get_costs (days : option Z) : Handler CostSummary.t :=
  fun s =>
    let days := match days with Some d => d | None => 30 end in
    if (1 <=? days) && (days <=? 365) then
      let (o, s') := try_call (AzureCostService.get_cost_summary env days) s in
      (cost_summary_model o, s')
    else (RequestValidationError, s).

(** [GET /api/v1/costs/forecast] *)
Definition get_forecast : Handler CostForecast.t :=
  fun s =>
    let (o, s') := try_call (AzureCostService.get_forecast env) s in
    (cost_forecast_model o, s').

(** [GET /api/v1/costs/current-month] *)
Definition get_current_month_costs : Handler CostSummary.t :=
  fun s =>
    match AzureCostService.today env s with
    | (Ok today, s1) =>
        let days_in_month := Calendar.day today in
        let (o, s2) :=
          try_call (AzureCostService.get_cost_summary env days_in_month) s1 in
        (cost_summary_model o, s2)
    | (Raise e, s1) => (Unhandled e, s1)
    end.

End Routes.

End Main.

Local Open Scope list_scope.
(** * Facts about the built-ins *)

(** ** The order of binary64 values *)
Module FloatOrder.















End FloatOrder.

(** ** [list.sort] *)
Module SortFacts.
Section Generic.
Context {A K : Type} (lt : K -> K -> bool) (key : A -> K).

(** [asc a b]: [b] may follow [a] in ascending order, that is, [b] is not
    smaller; [desc] likewise for descending order. *)
Definition asc (a b : A) : Prop := lt (key b) (key a) = false.
Definition desc (a b : A) : Prop := lt (key a) (key b) = false.

Lemma insert_perm (x : A) (l : list A) :
  Permutation (Py.insert lt key x l) (x :: l).
Proof.
  induction l as [|y r IH]; simpl.
  - apply Permutation_refl.
  - destruct (lt (key y) (key x)).
    + eapply perm_trans; [apply perm_skip, IH | apply perm_swap].
    + apply Permutation_refl.
Qed.

Lemma sort_asc_perm (l : list A) : Permutation (Py.sort_asc lt key l) l.
Proof.
  induction l as [|x r IH]; simpl.
  - apply perm_nil.
  - eapply perm_trans; [apply insert_perm | apply perm_skip, IH].
Qed.

Lemma sort_perm (reverse : bool) (l : list A) :
  Permutation (Py.sort lt key reverse l) l.
Proof.
  unfold Py.sort. destruct reverse.
  - eapply perm_trans; [symmetry; apply Permutation_rev|].
    eapply perm_trans; [apply sort_asc_perm|].
    symmetry. apply Permutation_rev.
  - apply sort_asc_perm.
Qed.

(** Stability: a class of elements none of which is smaller than another
    keeps its order. *)
Section Stable.
Variable p : A -> bool.
Hypothesis p_flat :
  forall a b, p a = true -> p b = true -> lt (key b) (key a) = false.

Lemma insert_filter (x : A) (l : list A) :
  List.filter p (Py.insert lt key x l)
  = if p x then x :: List.filter p l else List.filter p l.
Proof.
  induction l as [|y r IH]; simpl.
  - destruct (p x); reflexivity.
  - destruct (lt (key y) (key x)) eqn:E; simpl.
    + rewrite IH. destruct (p y) eqn:Py, (p x) eqn:Px; try reflexivity.
      rewrite (p_flat x y Px Py) in E. discriminate E.
    + destruct (p x); reflexivity.
Qed.

Lemma sort_asc_stable (l : list A) :
  List.filter p (Py.sort_asc lt key l) = List.filter p l.
Proof.
  induction l as [|x r IH]; simpl; [reflexivity|].
  rewrite insert_filter, IH. reflexivity.
Qed.

Lemma filter_rev (l : list A) : List.filter p (rev l) = rev (List.filter p l).
Proof.
  induction l as [|x r IH]; simpl; [reflexivity|].
  rewrite List.filter_app, IH. simpl. destruct (p x); simpl.
  - reflexivity.
  - apply app_nil_r.
Qed.

Lemma sort_stable (reverse : bool) (l : list A) :
  List.filter p (Py.sort lt key reverse l) = List.filter p l.
Proof.
  unfold Py.sort. destruct reverse.
  - rewrite filter_rev, sort_asc_stable, filter_rev. apply rev_involutive.
  - apply sort_asc_stable.
Qed.
End Stable.

(** Sortedness, for keys on which [lt] is a strict weak order. *)
Section Sorted.
Variable ok : K -> Prop.
Hypothesis lt_asym :
  forall a b, ok a -> ok b -> lt a b = true -> lt b a = false.
Hypothesis lt_negtrans :
  forall a b c, ok a -> ok b -> ok c ->
    lt a b = false -> lt b c = false -> lt a c = false.

Lemma insert_sorted (x : A) (l : list A) :
  ok (key x) -> Forall (fun a => ok (key a)) l ->
  StronglySorted asc l -> StronglySorted asc (Py.insert lt key x l).
Proof.
  intros Hx Hl Hs. induction Hs as [|y r Hs IH Hy]; simpl.
  - constructor; constructor.
  - inversion Hl as [|? ? Oy Or]; subst.
    destruct (lt (key y) (key x)) eqn:E.
    + constructor; [apply IH, Or|].
      eapply Permutation_Forall; [symmetry; apply insert_perm|].
      constructor; [|exact Hy].
      unfold asc. apply lt_asym; assumption.
    + constructor; [constructor; assumption|].
      constructor; [exact E|].
      rewrite List.Forall_forall in *. intros z Hz.
      unfold asc in *. apply (lt_negtrans _ (key y)); auto.
Qed.

Lemma sort_asc_sorted (l : list A) :
  Forall (fun a => ok (key a)) l -> StronglySorted asc (Py.sort_asc lt key l).
Proof.
  induction 1 as [|x r Hx Hr IH]; simpl.
  - constructor.
  - apply insert_sorted; [exact Hx | | exact IH].
    eapply Permutation_Forall; [symmetry; apply sort_asc_perm | exact Hr].
Qed.
End Sorted.



End Generic.
End SortFacts.

(** ** [int] and [str] on decimal digits *)
Module DigitFacts.
Import Py.

Definition is_digit_value (v : Z) : Prop := 0 <= v < 10.

(** The value of a sequence of digits read after [acc]. *)
Definition digits_value (vs : list Z) (acc : Z) : Z :=
  fold_left (fun a v => 10 * a + v) vs acc.

(** The [S k] low decimal digits of [n], most significant first. *)
Fixpoint place_values (k : nat) (n : Z) : list Z :=
  match k with
  | O => [n mod 10]
  | S k' => place_values k' (n / 10) ++ [n mod 10]
  end.

Ltac each_digit v H :=
  let E := fresh in
  assert (v = 0 \/ v = 1 \/ v = 2 \/ v = 3 \/ v = 4 \/ v = 5 \/ v = 6
          \/ v = 7 \/ v = 8 \/ v = 9) as E by (unfold is_digit_value in H; lia);
  repeat (destruct E as [E|E]); subst v.

Lemma digit_val_char (v : Z) : is_digit_value v -> digit_val (digit_char v) = Some v.
Proof. intros H. each_digit v H; reflexivity. Qed.

Lemma digit_char_plain (v : Z) :
  is_digit_value v ->
  is_space (digit_char v) = false
  /\ Ascii.eqb (digit_char v) "_" = false
  /\ Ascii.eqb (digit_char v) "-" = false
  /\ Ascii.eqb (digit_char v) "+" = false.
Proof. intros H. each_digit v H; repeat split; reflexivity. Qed.

Lemma parse_digits_digits (vs : list Z) (acc : Z) (seen : bool) :
  Forall is_digit_value vs -> seen = true \/ vs <> [] ->
  parse_digits acc seen (map digit_char vs) = Some (digits_value vs acc).
Proof.
  intros Hvs. revert acc seen.
  induction Hvs as [|v r Hv Hr IH]; intros acc seen Hne; simpl.
  - destruct Hne as [->|Hne]; [reflexivity | congruence].
  - destruct (digit_char_plain v Hv) as (_ & -> & _ & _).
    rewrite (digit_val_char v Hv). apply IH. left. reflexivity.
Qed.

Lemma parse_field_digits (vs : list Z) (acc : Z) :
  Forall is_digit_value vs ->
  Calendar.parse_field acc (map digit_char vs) = Some (digits_value vs acc).
Proof.
  intros Hvs. revert acc.
  induction Hvs as [|v r Hv Hr IH]; intros acc; simpl; [reflexivity|].
  rewrite (digit_val_char v Hv). apply IH.
Qed.

Lemma lstrip_digits (vs : list Z) (tail : list ascii) :
  Forall is_digit_value vs -> vs <> [] ->
  lstrip (map digit_char vs ++ tail) = map digit_char vs ++ tail.
Proof.
  intros Hvs Hne. destruct Hvs as [|v r Hv Hr]; [congruence|]. simpl.
  destruct (digit_char_plain v Hv) as (-> & _). reflexivity.
Qed.

Lemma strip_signed_digits (sign : list ascii) (vs : list Z) :
  Forall is_digit_value vs -> vs <> [] -> sign = [] \/ sign = ["-"%char] ->
  strip (sign ++ map digit_char vs) = sign ++ map digit_char vs.
Proof.
  intros Hvs Hne Hsign. unfold strip.
  assert (lstrip (sign ++ map digit_char vs) = sign ++ map digit_char vs) as ->.
  { destruct Hsign as [->| ->]; [|reflexivity].
    simpl. rewrite <- (app_nil_r (map digit_char vs)).
    apply (lstrip_digits vs [] Hvs Hne). }
  rewrite rev_app_distr, <- map_rev.
  rewrite lstrip_digits.
  - rewrite map_rev, <- rev_app_distr. apply rev_involutive.
  - apply Forall_rev. exact Hvs.
  - intros E. apply (f_equal (@rev Z)) in E. rewrite rev_involutive in E.
    simpl in E. congruence.
Qed.

Lemma py_int_digits (vs : list Z) :
  Forall is_digit_value vs -> vs <> [] ->
  py_int (string_of_list_ascii (map digit_char vs)) = Some (digits_value vs 0).
Proof.
  intros Hvs Hne. unfold py_int.
  rewrite list_ascii_of_string_of_list_ascii.
  pose proof (strip_signed_digits [] vs Hvs Hne (or_introl eq_refl)) as E.
  simpl in E. rewrite E. clear E.
  destruct Hvs as [|v r Hv Hr]; [congruence|].
  change (map digit_char (v :: r)) with (digit_char v :: map digit_char r).
  destruct (digit_char_plain v Hv) as (_ & _ & -> & ->).
  apply (parse_digits_digits (v :: r)); [constructor; assumption | right; congruence].
Qed.

Lemma py_int_minus_digits (vs : list Z) :
  Forall is_digit_value vs -> vs <> [] ->
  py_int (String "-" (string_of_list_ascii (map digit_char vs)))
  = Some (- digits_value vs 0).
Proof.
  intros Hvs Hne. unfold py_int. simpl list_ascii_of_string.
  rewrite list_ascii_of_string_of_list_ascii.
  change ("-"%char :: map digit_char vs) with (["-"%char] ++ map digit_char vs).
  rewrite (strip_signed_digits ["-"%char] vs Hvs Hne) by (right; reflexivity).
  simpl. rewrite (parse_digits_digits vs 0 false Hvs) by (right; exact Hne).
  reflexivity.
Qed.

Lemma digits_value_snoc (vs : list Z) (v acc : Z) :
  digits_value (vs ++ [v]) acc = 10 * digits_value vs acc + v.
Proof. unfold digits_value. rewrite fold_left_app. reflexivity. Qed.

(** The digits [str] writes for a non-negative integer are its decimal
    digits: they are digits and they have its value. *)
Lemma decimal_digits_value (fuel : nat) (n : Z) :
  0 <= n < 2 ^ Z.of_nat (S fuel) ->
  exists vs, decimal_digits (S fuel) n = map digit_char vs
    /\ vs <> [] /\ Forall is_digit_value vs /\ digits_value vs 0 = n.
Proof.
  revert n. induction fuel as [|f IH]; intros n Hn.
  - change (2 ^ Z.of_nat 1) with 2 in Hn. exists [n]. simpl.
    destruct (Z.ltb_spec n 10); [|lia].
    split; [reflexivity|]. split; [congruence|].
    split; [constructor; [unfold is_digit_value; lia | constructor] | lia].
  - change (decimal_digits (S (S f)) n)
      with (if n <? 10 then [digit_char n]
            else decimal_digits (S f) (n / 10) ++ [digit_char (n mod 10)]).
    destruct (Z.ltb_spec n 10) as [Hlt|Hge].
    + exists [n]. simpl.
      split; [reflexivity|]. split; [congruence|].
      split; [constructor; [unfold is_digit_value; lia | constructor] | lia].
    + destruct (IH (n / 10)) as (vs & E & Hne & Hvs & Hval).
      { rewrite Nat2Z.inj_succ, Z.pow_succ_r in Hn by lia.
        split; [apply Z.div_pos; lia|].
        apply Z.div_lt_upper_bound; lia. }
      exists (vs ++ [n mod 10]). rewrite E, map_app. simpl.
      split; [reflexivity|]. split; [|split].
      * destruct vs; simpl; congruence.
      * apply Forall_app. split; [exact Hvs|].
        constructor; [|constructor]. unfold is_digit_value. apply Z.mod_pos_bound. lia.
      * rewrite digits_value_snoc, Hval. symmetry. apply Z.div_mod. lia.
Qed.

Lemma digits_fuel_enough (n : Z) : 0 <= n -> 0 <= n < 2 ^ Z.of_nat (digits_fuel n).
Proof.
  intros Hn. split; [exact Hn|]. unfold digits_fuel.
  rewrite Nat2Z.inj_succ, Z2Nat.id by apply Z.log2_nonneg.
  destruct (Z.eq_dec n 0) as [->|Hne]; [reflexivity|].
  apply Z.log2_spec. lia.
Qed.



(** The digits of a number with exactly [S k] digits. *)
Lemma decimal_digits_place_values (k fuel : nat) (n : Z) :
  10 ^ Z.of_nat k <= n < 10 ^ Z.of_nat (S k) -> (k < fuel)%nat ->
  decimal_digits fuel n = map digit_char (place_values k n).
Proof.
  revert fuel n. induction k as [|k IH]; intros fuel n Hn Hf.
  - destruct fuel as [|f]; [lia|]. simpl in *.
    change (10 ^ 1) with 10 in Hn. change (10 ^ 0) with 1 in Hn.
    destruct (Z.ltb_spec n 10); [|lia].
    rewrite Z.mod_small by lia. reflexivity.
  - destruct fuel as [|f]; [lia|].
    rewrite !Nat2Z.inj_succ, !Z.pow_succ_r in Hn by lia.
    change (decimal_digits (S f) n)
      with (if n <? 10 then [digit_char n]
            else decimal_digits f (n / 10) ++ [digit_char (n mod 10)]).
    assert (0 < 10 ^ Z.of_nat k) by (apply Z.pow_pos_nonneg; lia).
    destruct (Z.ltb_spec n 10); [lia|].
    simpl place_values. rewrite map_app. simpl. f_equal.
    apply IH; [|lia].
    rewrite Nat2Z.inj_succ, Z.pow_succ_r by lia.
    split; [apply Z.div_le_lower_bound; lia | apply Z.div_lt_upper_bound; lia].
Qed.

Lemma place_values_digits (k : nat) (n : Z) : Forall is_digit_value (place_values k n).
Proof.
  revert n. induction k as [|k IH]; intros n; simpl.
  - constructor; [|constructor]. apply Z.mod_pos_bound. lia.
  - apply Forall_app. split; [apply IH|].
    constructor; [|constructor]. apply Z.mod_pos_bound. lia.
Qed.

End DigitFacts.

(** ** Checking a property on a range of integers by evaluation *)
Module Range.

(** [P] on the [n] integers from [i] on. *)
Fixpoint forall_from (n : nat) (i : Z) (P : Z -> bool) : bool :=
  match n with
  | O => true
  | S k => P i && forall_from k (i + 1) P
  end.

Lemma forall_from_spec (n : nat) (i : Z) (P : Z -> bool) :
  forall_from n i P = true -> forall j, i <= j < i + Z.of_nat n -> P j = true.
Proof.
  revert i. induction n as [|k IH]; intros i H j Hj; [lia|].
  simpl in H. apply andb_prop in H. destruct H as [Hi Hr].
  destruct (Z.eq_dec j i) as [->|Hne]; [exact Hi|].
  apply (IH (i + 1)); [exact Hr | lia].
Qed.

End Range.

(** ** Dates *)
Module CalendarFacts.
Import Calendar DigitFacts.

(** Linear arithmetic with quotients and remainders by constants. *)
Ltac div_lia := Z.to_euclidean_division_equations; lia.

Lemma valid_bounds (x : date) :
  valid x = true ->
  1 <= year x <= 9999 /\ 1 <= month x <= 12 /\ 1 <= day x <= 31
  /\ day x <= _days_in_month (year x) (month x).
Proof.
  unfold valid, valid_ymd, MINYEAR, MAXYEAR. intros H.
  repeat (apply andb_prop in H; destruct H as [H ?]).
  repeat match goal with
         | E : (_ <=? _) = true |- _ => apply Z.leb_le in E
         end.
  assert (_days_in_month (year x) (month x) <= 31).
  { unfold _days_in_month. destruct ((month x =? 2) && _is_leap (year x)); [lia|].
    assert (month x = 1 \/ month x = 2 \/ month x = 3 \/ month x = 4
            \/ month x = 5 \/ month x = 6 \/ month x = 7 \/ month x = 8
            \/ month x = 9 \/ month x = 10 \/ month x = 11 \/ month x = 12) as E by lia.
    repeat (destruct E as [E|E]); rewrite E; simpl; lia. }
  lia.
Qed.

(** The order of dates is a strict total order. *)
Lemma date_ltb_spec (x y : date) :
  ltb x y = true <->
  year x < year y
  \/ (year x = year y
      /\ (month x < month y \/ (month x = month y /\ day x < day y))).
Proof.
  unfold ltb.
  rewrite !orb_true_iff, !andb_true_iff, !orb_true_iff, !andb_true_iff.
  rewrite !Z.ltb_lt, !Z.eqb_eq. reflexivity.
Qed.

Lemma date_ltb_asym (x y : date) : ltb x y = true -> ltb y x = false.
Proof.
  intros H. apply not_true_is_false. intros H'.
  apply date_ltb_spec in H. apply date_ltb_spec in H'. lia.
Qed.

Lemma date_ltb_negtrans (x y z : date) :
  ltb x y = false -> ltb y z = false -> ltb x z = false.
Proof.
  intros H1 H2. apply not_true_is_false. intros H3.
  apply not_true_iff_false in H1. apply not_true_iff_false in H2.
  rewrite date_ltb_spec in *. lia.
Qed.

(** Zero padding of a number with [S k] digits. *)
Lemma length_place_values (k : nat) (n : Z) : length (place_values k n) = S k.
Proof.
  revert n. induction k as [|k IH]; intros n; simpl; [reflexivity|].
  rewrite length_app, IH. simpl. lia.
Qed.

Lemma zero_padded_digits (w k : nat) (y : Z) :
  10 ^ Z.of_nat k <= y < 10 ^ Z.of_nat (S k) ->
  zero_padded w y
  = repeat "0"%char (w - S k) ++ map Py.digit_char (place_values k y).
Proof.
  intros Hy.
  assert (0 < 10 ^ Z.of_nat k) as Hpos by (apply Z.pow_pos_nonneg; lia).
  unfold zero_padded, Py.py_str.
  destruct (Z.ltb_spec y 0) as [Hneg|_]; [lia|].
  rewrite list_ascii_of_string_of_list_ascii.
  rewrite (decimal_digits_place_values k); [|exact Hy|].
  - rewrite length_map, length_place_values. reflexivity.
  - unfold Py.digits_fuel.
    assert (Z.of_nat k <= Z.log2 y).
    { apply Z.log2_le_pow2; [lia|].
      apply Z.le_trans with (10 ^ Z.of_nat k); [|lia].
      apply Z.pow_le_mono_l. lia. }
    lia.
Qed.

Lemma zero_padded_4 (y : Z) :
  0 <= y < 10000 -> zero_padded 4 y = map Py.digit_char (place_values 3 y).
Proof.
  intros Hy.
  assert (y = 0 \/ 1 <= y < 10 \/ 10 <= y < 100 \/ 100 <= y < 1000
          \/ 1000 <= y < 10000) as [->|[H|[H|[H|H]]]] by lia.
  - reflexivity.
  - rewrite (zero_padded_digits 4 0) by exact H. simpl.
    replace (y / 10 / 10 / 10 mod 10) with 0 by div_lia.
    replace (y / 10 / 10 mod 10) with 0 by div_lia.
    replace (y / 10 mod 10) with 0 by div_lia. reflexivity.
  - rewrite (zero_padded_digits 4 1) by exact H. simpl.
    replace (y / 10 / 10 / 10 mod 10) with 0 by div_lia.
    replace (y / 10 / 10 mod 10) with 0 by div_lia. reflexivity.
  - rewrite (zero_padded_digits 4 2) by exact H. simpl.
    replace (y / 10 / 10 / 10 mod 10) with 0 by div_lia. reflexivity.
  - rewrite (zero_padded_digits 4 3) by exact H. reflexivity.
Qed.

Lemma zero_padded_2 (m : Z) :
  0 <= m < 100 -> zero_padded 2 m = map Py.digit_char (place_values 1 m).
Proof.
  intros Hm.
  assert (m = 0 \/ 1 <= m < 10 \/ 10 <= m < 100) as [->|[H|H]] by lia.
  - reflexivity.
  - rewrite (zero_padded_digits 2 0) by exact H. simpl.
    replace (m / 10 mod 10) with 0 by div_lia. reflexivity.
  - rewrite (zero_padded_digits 2 1) by exact H. reflexivity.
Qed.

Lemma list_ascii_of_string_app (s1 s2 : string) :
  list_ascii_of_string (s1 ++ s2)%string
  = list_ascii_of_string s1 ++ list_ascii_of_string s2.
Proof. induction s1 as [|c s IH]; simpl; [reflexivity | rewrite IH; reflexivity]. Qed.

(** [fromisoformat] reads back what [isoformat] writes, whatever follows
    the first ten characters. *)
Lemma fromisoformat_isoformat (x : date) (rest : string) :
  valid x = true ->
  fromisoformat (Py.slice 0 10 (isoformat x ++ rest)%string) = Some x.
Proof.
  intros Hv. destruct (valid_bounds x Hv) as (Hy & Hm & Hd & _).
  unfold isoformat.
  rewrite zero_padded_4, !zero_padded_2 by lia.
  unfold Py.slice. simpl place_values. simpl map.
  rewrite list_ascii_of_string_app, list_ascii_of_string_of_list_ascii. simpl.
  unfold fromisoformat. simpl.
  rewrite !digit_val_char by (apply Z.mod_pos_bound; lia).
  unfold new_date.
  replace (10 * (10 * (10 * (10 * 0 + year x / 10 / 10 / 10 mod 10)
                        + year x / 10 / 10 mod 10)
                 + year x / 10 mod 10) + year x mod 10) with (year x) by div_lia.
  replace (10 * (10 * 0 + month x / 10 mod 10) + month x mod 10) with (month x) by div_lia.
  replace (10 * (10 * 0 + day x / 10 mod 10) + day x mod 10) with (day x) by div_lia.
  unfold valid in Hv. rewrite Hv. destruct x; reflexivity.
Qed.

Lemma slice_digits (i j : nat) (vs : list Z) :
  Py.slice i j (string_of_list_ascii (map Py.digit_char vs))
  = string_of_list_ascii (map Py.digit_char (take (j - i) (drop i vs))).
Proof.
  unfold Py.slice. rewrite list_ascii_of_string_of_list_ascii.
  rewrite skipn_map, firstn_map. reflexivity.
Qed.

(** An 8-digit integer YYYYMMDD of a date the constructor accepts is read
    back as that date. *)
Lemma decode_date_int (y m d : Z) :
  valid_ymd y m d = true -> 1000 <= y ->
  AzureCostService.decode_date (CInt (y * 10000 + m * 100 + d)) = Ok (mkdate y m d).
Proof.
  intros Hv Hy.
  destruct (valid_bounds (mkdate y m d) Hv) as (Hy' & Hm & Hd & _). simpl in *.
  set (n := y * 10000 + m * 100 + d).
  assert (10 ^ Z.of_nat 7 <= n < 10 ^ Z.of_nat 8) as Hn.
  { change (10 ^ Z.of_nat 7) with 10000000. change (10 ^ Z.of_nat 8) with 100000000.
    unfold n. lia. }
  assert (Py.py_str n = string_of_list_ascii (map Py.digit_char (place_values 7 n))) as E.
  { unfold Py.py_str. destruct (Z.ltb_spec n 0) as [Hneg|_].
    - change (10 ^ Z.of_nat 7) with 10000000 in Hn. lia.
    - f_equal. apply decimal_digits_place_values; [exact Hn|].
      unfold Py.digits_fuel.
      assert (23 <= Z.log2 n).
      { change 23 with (Z.log2 (2 ^ 23)). apply Z.log2_le_mono.
        change (10 ^ Z.of_nat 7) with 10000000 in Hn. change (2 ^ 23) with 8388608. lia. }
      lia. }
  unfold AzureCostService.decode_date. rewrite E, !slice_digits.
  pose proof (place_values_digits 7 n) as Hvs.
  simpl place_values in *. simpl take.
  rewrite !py_int_digits;
    try discriminate;
    try (repeat constructor; apply Z.mod_pos_bound; lia).
  unfold digits_value, or_raise, bind_result. simpl fold_left.
  unfold new_date.
  match goal with
  | |- context [valid_ymd ?a ?b ?c] =>
      replace a with y by (unfold n; div_lia);
      replace b with m by (unfold n; div_lia);
      replace c with d by (unfold n; div_lia)
  end.
  rewrite Hv. reflexivity.
Qed.

(** ** The calendar repeats every 400 years, that is, every 146097 days *)

Definition shift_years (k : Z) (x : date) : date :=
  mkdate (year x + k) (month x) (day x).

Lemma _days_before_year_shift (y k : Z) :
  _days_before_year (y + 400 * k) = _days_before_year y + 146097 * k.
Proof. unfold _days_before_year. div_lia. Qed.

Lemma _is_leap_shift (y k : Z) : _is_leap (y + 400 * k) = _is_leap y.
Proof.
  unfold _is_leap.
  replace ((y + 400 * k) mod 4) with (y mod 4) by div_lia.
  replace ((y + 400 * k) mod 100) with (y mod 100) by div_lia.
  replace ((y + 400 * k) mod 400) with (y mod 400) by div_lia.
  reflexivity.
Qed.

Lemma _days_in_month_shift (y m k : Z) :
  _days_in_month (y + 400 * k) m = _days_in_month y m.
Proof. unfold _days_in_month. rewrite _is_leap_shift. reflexivity. Qed.

Lemma _ymd2ord_shift (y m d k : Z) :
  _ymd2ord (y + 400 * k) m d = _ymd2ord y m d + 146097 * k.
Proof.
  unfold _ymd2ord, _days_before_month.
  rewrite _days_before_year_shift, _is_leap_shift. lia.
Qed.

Lemma _ord2ymd_shift (n k : Z) :
  _ord2ymd (n + 146097 * k) = shift_years (400 * k) (_ord2ymd n).
Proof.
  unfold _ord2ymd, _DI400Y.
  replace ((n + 146097 * k - 1) / 146097) with ((n - 1) / 146097 + k) by div_lia.
  replace ((n + 146097 * k - 1) mod 146097) with ((n - 1) mod 146097) by div_lia.
  cbv zeta.
  repeat match goal with
         | |- context [if ?c then _ else _] => destruct c
         end;
    unfold shift_years; simpl; f_equal; lia.
Qed.

Lemma year_shift (k : Z) (x : date) : year (shift_years k x) = year x + k.
Proof. reflexivity. Qed.

Lemma month_shift (k : Z) (x : date) : month (shift_years k x) = month x.
Proof. reflexivity. Qed.

Lemma day_shift (k : Z) (x : date) : day (shift_years k x) = day x.
Proof. reflexivity. Qed.

(** The two steps of [end_of_month] on ordinals, without the range checks:
    the date four days after the 28th is in the next month, and the day
    before the first of that month is the last day of this month. *)
Definition next_month (y m : Z) : Z * Z :=
  if m =? 12 then (y + 1, 1) else (y, m + 1).

Definition steps_hold (y m : Z) : Prop :=
  exists y' m',
    next_month y m = (y', m')
    /\ year (_ord2ymd (_ymd2ord y m 28 + 4)) = y'
    /\ month (_ord2ymd (_ymd2ord y m 28 + 4)) = m'
    /\ year (_ord2ymd (_ymd2ord y' m' 1 - 1)) = y
    /\ month (_ord2ymd (_ymd2ord y' m' 1 - 1)) = m
    /\ day (_ord2ymd (_ymd2ord y' m' 1 - 1)) = _days_in_month y m.

(** The same as a test that can be evaluated. *)
Definition end_of_month_steps (y m : Z) : bool :=
  let next := _ord2ymd (_ymd2ord y m 28 + 4) in
  let last := _ord2ymd (_ymd2ord (fst (next_month y m)) (snd (next_month y m)) 1 - 1) in
  (year next =? fst (next_month y m)) && (month next =? snd (next_month y m))
  && (year last =? y) && (month last =? m) && (day last =? _days_in_month y m).

Lemma end_of_month_steps_hold (y m : Z) :
  end_of_month_steps y m = true -> steps_hold y m.
Proof.
  unfold end_of_month_steps. cbv zeta. intros H.
  repeat (apply andb_prop in H; destruct H as [H ?]).
  repeat match goal with
         | E : (_ =? _) = true |- _ => apply Z.eqb_eq in E
         end.
  exists (fst (next_month y m)), (snd (next_month y m)).
  split; [destruct (next_month y m); reflexivity|].
  repeat split; assumption.
Qed.

Lemma steps_hold_shift (y m k : Z) : steps_hold y m -> steps_hold (y + 400 * k) m.
Proof.
  intros (y' & m' & En & H1 & H2 & H3 & H4 & H5).
  exists (y' + 400 * k), m'.
  split.
  { unfold next_month in *. destruct (m =? 12); inversion En; f_equal; lia. }
  rewrite !_ymd2ord_shift, _days_in_month_shift.
  replace (_ymd2ord y m 28 + 146097 * k + 4)
    with (_ymd2ord y m 28 + 4 + 146097 * k) by lia.
  replace (_ymd2ord y' m' 1 + 146097 * k - 1)
    with (_ymd2ord y' m' 1 - 1 + 146097 * k) by lia.
  rewrite !_ord2ymd_shift, !year_shift, !month_shift, !day_shift.
  rewrite H1, H2, H3, H4, H5. repeat split; reflexivity.
Qed.

(** One period of 400 years is checked by evaluation. *)
Lemma first_period_ok :
  Range.forall_from 400 1 (fun y => Range.forall_from 12 1 (end_of_month_steps y))
  = true.
Proof. vm_cast_no_check (eq_refl true). Qed.

Lemma steps_hold_always (y m : Z) : 1 <= y -> 1 <= m <= 12 -> steps_hold y m.
Proof.
  intros Hy Hm.
  assert (exists y0 k, y = y0 + 400 * k /\ 1 <= y0 < 1 + 400) as (y0 & k & -> & R).
  { exists ((y - 1) mod 400 + 1), ((y - 1) / 400). div_lia. }
  apply steps_hold_shift, end_of_month_steps_hold.
  pose proof (Range.forall_from_spec _ _ _ first_period_ok y0 R) as Hy0.
  apply (Range.forall_from_spec _ _ _ Hy0). lia.
Qed.

Lemma each_month (m : Z) :
  1 <= m <= 12 ->
  m = 1 \/ m = 2 \/ m = 3 \/ m = 4 \/ m = 5 \/ m = 6 \/ m = 7 \/ m = 8
  \/ m = 9 \/ m = 10 \/ m = 11 \/ m = 12.
Proof. lia. Qed.

Lemma _days_in_month_bounds (y m : Z) :
  1 <= m <= 12 -> 28 <= _days_in_month y m <= 31.
Proof.
  intros Hm. unfold _days_in_month.
  destruct ((m =? 2) && _is_leap y); [lia|].
  destruct (each_month m Hm) as [E|[E|[E|[E|[E|[E|[E|[E|[E|[E|[E|E]]]]]]]]]]];
    rewrite E; simpl; lia.
Qed.

Lemma _ymd2ord_bounds (y m d : Z) :
  1 <= y <= 9999 -> 1 <= m <= 12 -> 1 <= d <= 31 ->
  0 < _ymd2ord y m d
  /\ (y <= 9998 \/ m <= 11 -> _ymd2ord y m d + 4 <= _MAXORDINAL)
  /\ _ymd2ord y m d - d < _MAXORDINAL.
Proof.
  intros Hy Hm Hd. unfold _ymd2ord, _days_before_year, _days_before_month, _MAXORDINAL.
  destruct ((2 <? m) && _is_leap y);
    destruct (each_month m Hm) as [E|[E|[E|[E|[E|[E|[E|[E|[E|[E|[E|E]]]]]]]]]]];
    rewrite E; simpl; div_lia.
Qed.

Lemma valid_ymd_intro (y m d : Z) :
  1 <= y <= 9999 -> 1 <= m <= 12 -> 1 <= d <= _days_in_month y m ->
  valid_ymd y m d = true.
Proof.
  intros Hy Hm Hd. unfold valid_ymd, MINYEAR, MAXYEAR.
  repeat (apply andb_true_intro; split); apply Z.leb_le; lia.
Qed.

Lemma new_date_valid (y m d : Z) :
  valid_ymd y m d = true -> new_date y m d = Some (mkdate y m d).
Proof. unfold new_date. intros ->. reflexivity. Qed.

Lemma add_days_in_range (x : date) (k : Z) :
  Z.abs k <= 999999999 -> 0 < toordinal x + k <= _MAXORDINAL ->
  add_days x k = Some (_ord2ymd (toordinal x + k)).
Proof.
  intros Hk Ho. unfold add_days.
  destruct (Z.leb_spec (Z.abs k) 999999999); [|lia].
  destruct (Z.ltb_spec 0 (toordinal x + k)); [|lia].
  destruct (Z.leb_spec (toordinal x + k) _MAXORDINAL); [|lia].
  reflexivity.
Qed.

Lemma sub_days_in_range (x : date) (k : Z) :
  Z.abs k <= 999999999 -> 0 < toordinal x + - k <= _MAXORDINAL ->
  sub_days x k = Some (_ord2ymd (toordinal x + - k)).
Proof.
  intros Hk Ho. unfold sub_days.
  destruct (Z.leb_spec (Z.abs k) 999999999); [|lia].
  destruct (Z.ltb_spec 0 (toordinal x + - k)); [|lia].
  destruct (Z.leb_spec (toordinal x + - k) _MAXORDINAL); [|lia].
  reflexivity.
Qed.

Lemma date_eta (x : date) : x = mkdate (year x) (month x) (day x).
Proof. destruct x. reflexivity. Qed.

(** The last day of the month of [today], as [get_forecast] finds it. *)
Lemma end_of_month_correct (today : date) :
  valid today = true -> ~ (year today = 9999 /\ month today = 12) ->
  AzureCostService.end_of_month today
  = Ok (mkdate (year today) (month today)
          (_days_in_month (year today) (month today))).
Proof.
  intros Hv Hlast. destruct (valid_bounds today Hv) as (Hy & Hm & _).
  destruct today as [y m d]. cbn [year month day] in *.
  destruct (steps_hold_always y m ltac:(lia) Hm)
    as (y' & m' & En & H1 & H2 & H3 & H4 & H5).
  assert ((m = 12 /\ y' = y + 1 /\ m' = 1) \/ (m <> 12 /\ y' = y /\ m' = m + 1))
    as Hnext.
  { unfold next_month in En. destruct (Z.eqb_spec m 12); inversion En; lia. }
  clear En.
  assert (1 <= y' <= 9999 /\ 1 <= m' <= 12) as [Hy' Hm'] by lia.
  pose proof (_days_in_month_bounds y m Hm) as Hdim.
  pose proof (_days_in_month_bounds y' m' Hm') as Hdim'.
  destruct (_ymd2ord_bounds y m 28 Hy Hm ltac:(lia)) as (Hlo & Hhi & _).
  specialize (Hhi ltac:(lia)).
  assert (1 < _ymd2ord y' m' 1 /\ _ymd2ord y' m' 1 - 1 <= _MAXORDINAL) as [Hlo' Hhi'].
  { destruct Hnext as [(E & -> & ->)|(E & -> & ->)].
    - unfold _ymd2ord, _days_before_year, _days_before_month, _MAXORDINAL.
      simpl. div_lia.
    - destruct (_ymd2ord_bounds y (m + 1) 1 Hy ltac:(lia) ltac:(lia)) as (_ & _ & B).
      split; [|lia].
      unfold _ymd2ord, _days_before_year, _days_before_month.
      destruct ((2 <? m + 1) && _is_leap y);
        destruct (each_month m Hm) as [F|[F|[F|[F|[F|[F|[F|[F|[F|[F|[F|F]]]]]]]]]]];
        try lia; rewrite F; simpl; div_lia. }
  clear Hnext.
  unfold AzureCostService.end_of_month, replace_day. cbn [year month day].
  rewrite (new_date_valid y m 28) by (apply valid_ymd_intro; lia).
  cbn [or_raise bind_result].
  rewrite add_days_in_range by (unfold toordinal; cbn [year month day]; lia).
  cbn [or_raise bind_result]. unfold toordinal. cbn [year month day].
  rewrite H1, H2.
  rewrite (new_date_valid y' m' 1) by (apply valid_ymd_intro; lia).
  cbn [or_raise bind_result].
  rewrite sub_days_in_range by (unfold toordinal; cbn [year month day]; lia).
  cbn [or_raise]. unfold toordinal. cbn [year month day].
  replace (_ymd2ord y' m' 1 + - (1)) with (_ymd2ord y' m' 1 - 1) by lia.
  rewrite (date_eta (_ord2ymd (_ymd2ord y' m' 1 - 1))), H3, H4, H5.
  reflexivity.
Qed.

End CalendarFacts.

(** * The TTL cache *)
Module CostCacheFacts.
Import CostCache.


End CostCacheFacts.

(** * The service *)
Module ServiceFacts.
Import AzureCostService.
Local Open Scope service_scope.

(** ** Running monadic code *)
Lemma bind_ok {A B : Type} (m : M A) (k : A -> M B) (s s1 : State) (a : A) :
  m s = (Ok a, s1) -> bind m k s = k a s1.
Proof. unfold bind. intros ->. reflexivity. Qed.

Lemma bind_raise {A B : Type} (m : M A) (k : A -> M B) (s s1 : State) (e : PyErr) :
  m s = (Raise e, s1) -> bind m k s = (Raise e, s1).
Proof. unfold bind. intros ->. reflexivity. Qed.

Lemma bind_ok_inv {A B : Type} (m : M A) (k : A -> M B) (s s' : State) (b : B) :
  bind m k s = (Ok b, s') ->
  exists a s1, m s = (Ok a, s1) /\ k a s1 = (Ok b, s').
Proof.
  unfold bind. destruct (m s) as [[a|e] s1]; intros H.
  - exists a, s1. split; [reflexivity | exact H].
  - discriminate H.
Qed.

Lemma lift_ok_inv {A : Type} (r : result A) (s s' : State) (a : A) :
  lift r s = (Ok a, s') -> r = Ok a /\ s' = s.
Proof. unfold lift. intros H. inversion H. split; reflexivity. Qed.

Lemma ret_ok_inv {A : Type} (x a : A) (s s' : State) :
  ret x s = (Ok a, s') -> x = a /\ s' = s.
Proof. unfold ret. intros H. inversion H. split; reflexivity. Qed.

(** ** Properties of the state that a piece of code keeps *)
Definition preserves {A : Type} (I : State -> Prop) (m : M A) : Prop :=
  forall s, I s -> I (snd (m s)).

Lemma preserves_ret {A : Type} (I : State -> Prop) (a : A) : preserves I (ret a).
Proof. intros s H. exact H. Qed.

Lemma preserves_raise {A : Type} (I : State -> Prop) (e : PyErr) :
  preserves I (@raise A e).
Proof. intros s H. exact H. Qed.

Lemma preserves_lift {A : Type} (I : State -> Prop) (r : result A) :
  preserves I (lift r).
Proof. intros s H. exact H. Qed.

Lemma preserves_bind {A B : Type} (I : State -> Prop) (m : M A) (k : A -> M B) :
  preserves I m -> (forall a, preserves I (k a)) -> preserves I (bind m k).
Proof.
  intros Hm Hk s H. unfold bind. specialize (Hm s H).
  destruct (m s) as [[a|e] s1]; simpl in *.
  - apply Hk. exact Hm.
  - exact Hm.
Qed.

(** ** The token *)

(** The token slot holds [token] and the credential has been asked [n]
    times. *)
Definition token_is (token : string) (n : nat) (s : State) : Prop :=
  _token s = Some token /\ token_fetches s = n.

Section Token.
Variable env : Env.
Variables (token : string) (n : nat).

Ltac keep := intros s [H1 H2]; split; simpl; assumption.

Lemma now_keeps_token : preserves (token_is token n) (now env).
Proof. keep. Qed.

Lemma today_keeps_token : preserves (token_is token n) (today env).
Proof.
  apply preserves_bind; [apply now_keeps_token | intros; apply preserves_ret].
Qed.

Lemma sleep_keeps_token (seconds : Z) : preserves (token_is token n) (sleep seconds).
Proof. keep. Qed.

Lemma post_keeps_token (url : string) (body : QueryBody) (bearer : string) :
  preserves (token_is token n) (post env url body bearer).
Proof.
  intros s [H1 H2]. unfold post.
  destruct (billing_api env (requests s)); split; simpl; assumption.
Qed.

Lemma put_cache_keeps_token (c : CostCache.t) :
  preserves (token_is token n) (put_cache c).
Proof. keep. Qed.

Lemma cache_get_keeps_token (key : string) :
  preserves (token_is token n) (cache_get env key).
Proof.
  intros s H. unfold cache_get.
  destruct (CostCache._cache (_cache s) !! key); [|exact H].
  revert s H. apply preserves_bind; [apply now_keeps_token|].
  intros ts s H.
  destruct (CostCache.get ts key (_cache s)) as [value c].
  revert s H. apply preserves_bind; [apply put_cache_keeps_token|].
  intros; apply preserves_ret.
Qed.

Lemma cache_set_keeps_token (key : string) (value : CachedValue) :
  preserves (token_is token n) (cache_set env key value).
Proof.
  apply preserves_bind; [apply now_keeps_token|].
  intros ts s H. apply put_cache_keeps_token. exact H.
Qed.

(** Once the slot is filled, [_get_token] returns its content and touches
    nothing. *)
Lemma _get_token_cached (s : State) :
  _token s = Some token -> _get_token env s = (Ok token, s).
Proof. unfold _get_token. intros ->. reflexivity. Qed.

Lemma _get_token_keeps_token : preserves (token_is token n) (_get_token env).
Proof.
  intros s H. rewrite (_get_token_cached s (proj1 H)). exact H.
Qed.

(** A token that [_get_token] returns is the content of the slot. *)
Lemma _get_token_stores (s s' : State) (t : string) :
  _get_token env s = (Ok t, s') -> _token s' = Some t.
Proof.
  unfold _get_token. destruct (_token s) as [t0|] eqn:E.
  - intros H. inversion H. subst. exact E.
  - unfold bind, credential_get_token, set_token, ret.
    destruct (credential env (token_fetches s)); intros H; inversion H.
    reflexivity.
Qed.

Lemma query_loop_keeps_token (body : QueryBody) (max_retries : Z) (bearer : string)
    (remaining : nat) (attempt : Z) :
  preserves (token_is token n)
    (query_loop env body max_retries bearer remaining attempt).
Proof.
  revert attempt. induction remaining as [|k IH]; intros attempt; simpl.
  - apply preserves_ret.
  - apply preserves_bind; [apply post_keeps_token|]. intros response.
    assert (preserves (token_is token n)
              (raise_for_status response ;;; response_json response)) as Hfin.
    { apply preserves_bind.
      - unfold raise_for_status. destruct (is_success response);
          [apply preserves_ret | apply preserves_raise].
      - intros _. apply preserves_lift. }
    destruct (status_code response =? 429); [|exact Hfin].
    apply preserves_bind.
    + unfold parse_retry_after. destruct (retry_after response);
        [apply preserves_lift | apply preserves_ret].
    + intros delay. destruct (attempt <? max_retries - 1); [|exact Hfin].
      apply preserves_bind; [apply sleep_keeps_token | intros _; apply IH].
Qed.

Lemma _query_costs_keeps_token (body : QueryBody) (max_retries : Z) :
  preserves (token_is token n) (_query_costs env body max_retries).
Proof.
  apply preserves_bind; [apply _get_token_keeps_token|].
  intros bearer. apply query_loop_keeps_token.
Qed.

Lemma get_cost_summary_keeps_token (days : Z) :
  preserves (token_is token n) (get_cost_summary env days).
Proof.
  unfold get_cost_summary.
  apply preserves_bind; [apply cache_get_keeps_token|].
  intros [value|]; [apply preserves_ret|].
  apply preserves_bind; [apply today_keeps_token|]. intros end_date.
  apply preserves_bind; [apply preserves_lift|]. intros start_date.
  apply preserves_bind; [apply _query_costs_keeps_token|]. intros service_result.
  apply preserves_bind; [apply _query_costs_keeps_token|]. intros daily_result.
  apply preserves_bind; [apply preserves_lift|]. intros result.
  apply preserves_bind; [apply cache_set_keeps_token|]. intros _.
  apply preserves_ret.
Qed.

Lemma get_forecast_keeps_token : preserves (token_is token n) (get_forecast env).
Proof.
  unfold get_forecast.
  apply preserves_bind; [apply cache_get_keeps_token|].
  intros [value|]; [apply preserves_ret|].
  apply preserves_bind; [apply today_keeps_token|]. intros today1.
  apply preserves_bind; [apply preserves_lift|]. intros eom.
  apply preserves_bind; [apply _query_costs_keeps_token|]. intros result.
  apply preserves_bind; [apply preserves_lift|]. intros c.
  apply preserves_bind; [apply today_keeps_token|]. intros today2.
  apply preserves_bind; [apply preserves_lift|]. intros est.
  apply preserves_bind; [apply cache_set_keeps_token|]. intros _.
  apply preserves_ret.
Qed.

End Token.

(** ** The lifetime of a service instance: any sequence of calls *)
Inductive Call : Type :=
| CallGetToken
| CallQueryCosts (query_body : QueryBody) (max_retries : Z)
| CallGetCostSummary (days : Z)
| CallGetForecast.

Definition run_call (env : Env) (c : Call) (s : State) : State :=
  match c with
  | CallGetToken => snd (_get_token env s)
  | CallQueryCosts query_body max_retries => snd (_query_costs env query_body max_retries s)
  | CallGetCostSummary days => snd (get_cost_summary env days s)
  | CallGetForecast => snd (get_forecast env s)
  end.

Definition run_calls (env : Env) (calls : list Call) (s : State) : State :=
  fold_left (fun s c => run_call env c s) calls s.

Lemma run_calls_keep_token (env : Env) (token : string) (n : nat)
    (calls : list Call) (s : State) :
  token_is token n s -> token_is token n (run_calls env calls s).
Proof.
  revert s. induction calls as [|c rest IH]; intros s H; simpl; [exact H|].
  apply IH. destruct c; simpl.
  - apply _get_token_keeps_token. exact H.
  - apply _query_costs_keeps_token. exact H.
  - apply get_cost_summary_keeps_token. exact H.
  - apply get_forecast_keeps_token. exact H.
Qed.

(** C8. Once [_get_token] has returned a token, the slot holds it, and
    after any sequence of further calls on the service [_get_token] still
    returns that same token, leaves the state as it is, and the credential
    has not been asked again. *)
Theorem token_fetched_once (env : Env) (s0 s1 : State) (token : string)
    (calls : list Call) :
  _get_token env s0 = (Ok token, s1) ->
  let s2 := run_calls env calls s1 in
  _token s1 = Some token
  /\ _token s2 = Some token
  /\ _get_token env s2 = (Ok token, s2)
  /\ token_fetches s2 = token_fetches s1.
Proof.
  intros H s2. pose proof (_get_token_stores env s0 s1 token H) as H1.
  destruct (run_calls_keep_token env token (token_fetches s1) calls s1) as [H2 H3];
    [split; [exact H1 | reflexivity]|].
  split; [exact H1|]. split; [exact H2|].
  split; [apply _get_token_cached; exact H2 | exact H3].
Qed.

(** ** The retry loop *)

(** What [int(response.headers.get("Retry-After", 60))] evaluates to;
    [None] when [int] raises. *)
Definition retry_delay (r : Response) : option Z :=
  match retry_after r with
  | Some value => Py.py_int value
  | None => Some 60
  end.

Section Loop.
Variable env : Env.
Variables (query_body : QueryBody) (max_retries : Z) (bearer : string).

(** The state after one request. *)
Definition after_post (s : State) : State :=
  mkState (_token s) (_cache s) (clock_reads s) (S (requests s))
    (token_fetches s) (trace s ++ [EvPost (query_url env) query_body bearer]).

(** The state after an attempt that was answered 429 and slept. *)
Definition after_retry (s : State) (delay : Z) : State :=
  mkState (_token s) (_cache s) (clock_reads s) (S (requests s))
    (token_fetches s)
    ((trace s ++ [EvPost (query_url env) query_body bearer]) ++ [EvSleep delay]).




Lemma parse_retry_after_delay (r : Response) (s : State) :
  parse_retry_after r s
  = (or_raise ValueError (retry_delay r), s).
Proof. unfold parse_retry_after, retry_delay. destruct (retry_after r); reflexivity. Qed.

Local Abbreviation loop := (query_loop env query_body max_retries bearer).

(** What the last two statements of the loop body do with a response. *)
Definition conclude (r : Response) : result JsonBody :=
  if is_success r then or_raise JSONDecodeError (json r)
  else Raise (HTTPStatusError r).

Lemma conclude_run (r : Response) (s : State) :
  (raise_for_status r ;;; response_json r) s = (conclude r, s).
Proof.
  unfold bind, raise_for_status, response_json, conclude, lift, ret, raise.
  destruct (is_success r); reflexivity.
Qed.

(** One iteration that is answered 429 before the last attempt. *)
Lemma loop_retry (remaining : nat) (attempt : Z) (s : State) (r : Response) (d : Z) :
  billing_api env (requests s) = Responded r ->
  status_code r = 429 -> retry_delay r = Some d ->
  attempt < max_retries - 1 ->
  loop (S remaining) attempt s = loop remaining (attempt + 1) (after_retry s d).
Proof.
  intros Hr H429 Hd Hlt. simpl. unfold bind at 1. unfold post. rewrite Hr.
  rewrite H429. simpl. unfold bind at 1. rewrite parse_retry_after_delay, Hd. simpl.
  destruct (Z.ltb_spec attempt (max_retries - 1)); [|lia].
  reflexivity.
Qed.


(** The iteration that ends the loop: any answer other than 429. *)
Lemma loop_conclude (remaining : nat) (attempt : Z) (s : State) (r : Response) :
  billing_api env (requests s) = Responded r ->
  status_code r <> 429 ->
  loop (S remaining) attempt s = (conclude r, after_post s).
Proof.
  intros Hr Hne. simpl. unfold bind at 1. unfold post. rewrite Hr.
  destruct (Z.eqb_spec (status_code r) 429); [contradiction|].
  apply conclude_run.
Qed.

(** A 429 on the last attempt. *)
Lemma loop_last_429 (remaining : nat) (attempt : Z) (s : State) (r : Response) (d : Z) :
  billing_api env (requests s) = Responded r ->
  status_code r = 429 -> retry_delay r = Some d ->
  max_retries - 1 <= attempt ->
  loop (S remaining) attempt s = (Raise (HTTPStatusError r), after_post s).
Proof.
  intros Hr H429 Hd Hge. simpl. unfold bind at 1. unfold post. rewrite Hr.
  rewrite H429. simpl. unfold bind at 1. rewrite parse_retry_after_delay, Hd. simpl.
  destruct (Z.ltb_spec attempt (max_retries - 1)); [lia|].
  rewrite conclude_run. unfold conclude, is_success. rewrite H429. reflexivity.
Qed.

(** A 429 whose Retry-After value [int] does not accept. *)
Lemma loop_bad_header (remaining : nat) (attempt : Z) (s : State) (r : Response) :
  billing_api env (requests s) = Responded r ->
  status_code r = 429 -> retry_delay r = None ->
  loop (S remaining) attempt s = (Raise ValueError, after_post s).
Proof.
  intros Hr H429 Hd. simpl. unfold bind at 1. unfold post. rewrite Hr.
  rewrite H429. simpl. unfold bind at 1. rewrite parse_retry_after_delay, Hd.
  reflexivity.
Qed.


End Loop.



(** The empty dict is what the executor returns when no attempt is
    allowed at all; no request is sent then. *)
Lemma no_attempt_returns_empty (env : Env) (query_body : QueryBody)
    (max_retries : Z) (bearer : string) (s s0 : State) :
  _get_token env s = (Ok bearer, s0) -> max_retries <= 0 ->
  _query_costs env query_body max_retries s = (Ok empty_dict, s0).
Proof.
  intros Ht Hle. unfold _query_costs. rewrite (bind_ok _ _ _ _ _ Ht).
  replace (Z.to_nat max_retries) with 0%nat by lia. reflexivity.
Qed.

(** An error of the executor is the error of the caller: [get_forecast]
    and [get_cost_summary] pass on what [_query_costs] raises. *)
Lemma get_forecast_propagates (env : Env) (s s1 s2 s3 : State)
    (today1 end_of_month' : Calendar.date) (e : PyErr) :
  cache_get env forecast_key s = (Ok None, s1) ->
  today env s1 = (Ok today1, s2) ->
  end_of_month today1 = Ok end_of_month' ->
  _query_costs env forecast_query 3 s2 = (Raise e, s3) ->
  get_forecast env s = (Raise e, s3).
Proof.
  intros Hc Ht He Hq. unfold get_forecast.
  rewrite (bind_ok _ _ _ _ _ Hc). rewrite (bind_ok _ _ _ _ _ Ht).
  rewrite He. unfold lift at 1. unfold bind at 1.
  apply bind_raise. exact Hq.
Qed.

Lemma get_cost_summary_propagates (env : Env) (days : Z) (s s1 s2 s3 : State)
    (end_date start_date : Calendar.date) (e : PyErr) :
  cache_get env (summary_key days) s = (Ok None, s1) ->
  today env s1 = (Ok end_date, s2) ->
  Calendar.sub_days end_date days = Some start_date ->
  _query_costs env (service_query start_date end_date) 3 s2 = (Raise e, s3) ->
  get_cost_summary env days s = (Raise e, s3).
Proof.
  intros Hc Ht He Hq. unfold get_cost_summary.
  rewrite (bind_ok _ _ _ _ _ Hc). rewrite (bind_ok _ _ _ _ _ Ht).
  rewrite He. unfold lift at 1. unfold bind at 1. simpl or_raise.
  apply bind_raise. exact Hq.
Qed.


End ServiceFacts.

(** * Cache keys *)
Module CacheKeyFacts.
Import AzureCostService ServiceFacts.
Local Open Scope service_scope.


Lemma summary_key_not_forecast (d : Z) : summary_key d <> forecast_key.
Proof. unfold summary_key, forecast_key. simpl. discriminate. Qed.



Section Ignores.
Variable env : Env.
Variable key : string.
















End Ignores.

(** What a look-up does: a miss on an absent key leaves the state alone; a
    present key costs one reading of the clock, and is a hit when the entry
    is fresh and a miss that drops the entry when it is not. *)
Definition tick (c : CostCache.t) (s : State) : State :=
  mkState (_token s) c (S (clock_reads s)) (requests s) (token_fetches s) (trace s).

Lemma cache_get_cases (env : Env) (key : string) (s : State) :
  (CostCache._cache (_cache s) !! key = None
   /\ cache_get env key s = (Ok None, s))
  \/ (exists ts0 v,
        CostCache._cache (_cache s) !! key = Some (ts0, v)
        /\ cache_get env key s = (Ok (Some v), tick (_cache s) s))
  \/ (exists ts0 v,
        CostCache._cache (_cache s) !! key = Some (ts0, v)
        /\ cache_get env key s
           = (Ok None,
              tick (CostCache.mk (CostCache.ttl (_cache s))
                      (delete key (CostCache._cache (_cache s)))) s)).
Proof.
  unfold cache_get.
  destruct (CostCache._cache (_cache s) !! key) as [[ts0 v]|] eqn:E.
  - right. unfold bind, now, CostCache.get. simpl. rewrite E.
    destruct (CostCache.fresh (_cache s) (clock env (clock_reads s)) ts0).
    + left. exists ts0, v. split; reflexivity.
    + right. exists ts0, v. split; reflexivity.
  - left. split; reflexivity.
Qed.



End CacheKeyFacts.

(** * The aggregator *)
Module AggregatorFacts.
Import AzureCostService ServiceFacts CacheKeyFacts.

Lemma bind_result_ok_inv {A B : Type} (r : result A) (k : A -> result B) (b : B) :
  bind_result r k = Ok b -> exists a, r = Ok a /\ k a = Ok b.
Proof. destruct r as [a|e]; simpl; [eauto | discriminate]. Qed.

(** The running sum of the loop: float addition, left to right. *)
Definition running_sum (costs : list float) (start : float) : float :=
  fold_left PrimFloat.add costs start.

Lemma parse_service_costs_inv (rows : list Row) (acc entries : list CostByService.t)
    (total total' : float) :
  parse_service_costs rows acc total = Ok (entries, total') ->
  exists new,
    Forall2 (fun row e => service_entry row = Ok e) rows new
    /\ entries = acc ++ new
    /\ total' = running_sum (map CostByService.cost new) total.
Proof.
  revert acc total. induction rows as [|row rest IH]; intros acc total H; simpl in H.
  - inversion H. subst. exists []. rewrite app_nil_r.
    split; [constructor | split; reflexivity].
  - apply bind_result_ok_inv in H. destruct H as (e & He & H).
    destruct (IH _ _ H) as (new & Hf & -> & ->).
    exists (e :: new). split; [constructor; assumption|].
    split; [rewrite <- app_assoc; reflexivity | reflexivity].
Qed.

Lemma parse_daily_costs_inv (env : Env) (rows : list Row)
    (acc entries : list DailyCost.t) :
  parse_daily_costs env rows acc = Ok entries ->
  exists new,
    Forall2 (fun row e => daily_entry env row = Ok e) rows new
    /\ entries = acc ++ new.
Proof.
  revert acc. induction rows as [|row rest IH]; intros acc H; simpl in H.
  - inversion H. subst. exists []. rewrite app_nil_r.
    split; [constructor | reflexivity].
  - apply bind_result_ok_inv in H. destruct H as (e & He & H).
    destruct (IH _ H) as (new & Hf & ->).
    exists (e :: new). split; [constructor; assumption|].
    rewrite <- app_assoc. reflexivity.
Qed.

(** The summary that lines 117 to 156 build, in terms of the entries of the
    rows in the order of the rows. *)
Lemma build_summary_inv (env : Env) (start_date end_date : Calendar.date)
    (service_result daily_result : JsonBody) (summary : CostSummary.t) :
  build_summary env start_date end_date service_result daily_result = Ok summary ->
  exists entries days,
    Forall2 (fun row e => service_entry row = Ok e) (get_rows service_result) entries
    /\ Forall2 (fun row e => daily_entry env row = Ok e) (get_rows daily_result) days
    /\ summary
       = CostSummary.mk (azure_subscription_id env) "virtual-bpm-prod"
           start_date end_date
           (running_sum (map CostByService.cost entries) 0%float) "USD"
           (Py.sort PrimFloat.ltb CostByService.cost true entries)
           (Py.sort Calendar.ltb DailyCost.date false days).
Proof.
  unfold build_summary. intros H.
  apply bind_result_ok_inv in H. destruct H as ([entries total] & Hs & H).
  apply bind_result_ok_inv in H. destruct H as (days & Hd & H).
  apply parse_service_costs_inv in Hs. destruct Hs as (new & Hf & -> & ->).
  apply parse_daily_costs_inv in Hd. destruct Hd as (dnew & Hdf & ->).
  exists new, dnew. inversion H. simpl. split; [exact Hf|]. split; [exact Hdf|].
  reflexivity.
Qed.

(** [body] is what the billing API returned to [_query_costs] for some
    query during a call. *)
Definition fetched (env : Env) (body : JsonBody) : Prop :=
  exists query sa sb, _query_costs env query 3 sa = (Ok body, sb).

(** A summary that [get_cost_summary] computes (rather than serves from the
    cache) is built from the results of its two queries. *)
Lemma get_cost_summary_computes (env : Env) (days : Z) (s s' : State) (v : CachedValue) :
  get_cost_summary env days s = (Ok v, s') ->
  fst (cache_get env (summary_key days) s) = Ok None ->
  exists start_date end_date service_result daily_result summary,
    v = Summary summary
    /\ fetched env service_result /\ fetched env daily_result
    /\ build_summary env start_date end_date service_result daily_result = Ok summary.
Proof.
  unfold get_cost_summary. intros H Hmiss.
  apply bind_ok_inv in H. destruct H as (cached & s1 & Hget & H).
  rewrite Hget in Hmiss. simpl in Hmiss. inversion Hmiss. subst cached.
  apply bind_ok_inv in H. destruct H as (end_date & s2 & _ & H).
  apply bind_ok_inv in H. destruct H as (start_date & s3 & _ & H).
  apply bind_ok_inv in H. destruct H as (service_result & s4 & Hq1 & H).
  apply bind_ok_inv in H. destruct H as (daily_result & s5 & Hq2 & H).
  apply bind_ok_inv in H. destruct H as (summary & s6 & Hb & H).
  apply bind_ok_inv in H. destruct H as ([] & s7 & _ & H).
  apply ret_ok_inv in H. destruct H as [<- _].
  apply lift_ok_inv in Hb. destruct Hb as [Hb _].
  exists start_date, end_date, service_result, daily_result, summary.
  split; [reflexivity|].
  split; [eexists _, _, _; exact Hq1|].
  split; [eexists _, _, _; exact Hq2|]. exact Hb.
Qed.


(** ** Service costs *)

(** C4, as the code has it. The [total_cost] of a summary that
    [get_cost_summary] computes is the running float sum, from 0.0 and in
    the order of the rows, of the costs of the service rows the API
    returned; [costs_by_service] holds the same entries in another order;
    nothing of the daily rows enters [total_cost]. *)
Theorem total_cost_is_running_sum (env : Env) (days : Z) (s s' : State)
    (v : CachedValue) :
  get_cost_summary env days s = (Ok v, s') ->
  fst (cache_get env (summary_key days) s) = Ok None ->
  exists summary service_result entries,
    v = Summary summary
    /\ fetched env service_result
    /\ Forall2 (fun row e => service_entry row = Ok e) (get_rows service_result) entries
    /\ CostSummary.total_cost summary
       = running_sum (map CostByService.cost entries) 0%float
    /\ Permutation (CostSummary.costs_by_service summary) entries.
Proof.
  intros H Hmiss.
  destruct (get_cost_summary_computes env days s s' v H Hmiss)
    as (start_date & end_date & service_result & daily_result & summary
        & -> & Hf1 & _ & Hb).
  destruct (build_summary_inv _ _ _ _ _ _ Hb) as (entries & dentries & He & _ & ->).
  eexists. exists service_result, entries.
  split; [reflexivity|].
  cbn [CostSummary.total_cost CostSummary.costs_by_service CostSummary.daily_costs].
  split; [exact Hf1|]. split; [exact He|].
  split; [reflexivity|]. apply SortFacts.sort_perm.
Qed.


(** ** Daily costs *)

(** The date cell [date_val] stands for the calendar date [x]: as the
    8-digit integer YYYYMMDD, or as a string that starts with the ISO form
    YYYY-MM-DD of [x] (a date or a date-time). *)
Definition represents (date_val : Cell) (x : Calendar.date) : Prop :=
  Calendar.valid x = true
  /\ ((1000 <= Calendar.year x
       /\ date_val = CInt (Calendar.year x * 10000 + Calendar.month x * 100
                           + Calendar.day x))
      \/ exists rest, date_val = CStr (Calendar.isoformat x ++ rest)%string).

Lemma decode_date_represents (date_val : Cell) (x : Calendar.date) :
  represents date_val x -> decode_date date_val = Ok x.
Proof.
  intros [Hv [[Hy ->]|[rest ->]]].
  - destruct x as [y m d]. apply CalendarFacts.decode_date_int; assumption.
  - simpl. rewrite CalendarFacts.fromisoformat_isoformat by exact Hv. reflexivity.
Qed.

Lemma daily_entry_inv (env : Env) (row : Row) (e : DailyCost.t) :
  daily_entry env row = Ok e ->
  exists cost date_val,
    row !! 0%nat = Some cost /\ row !! 1%nat = Some date_val
    /\ decode_date date_val = Ok (DailyCost.date e)
    /\ validate_float env cost = Ok (DailyCost.cost e).
Proof.
  unfold daily_entry, row_get. intros H.
  apply bind_result_ok_inv in H. destruct H as (cost & Hc & H).
  apply bind_result_ok_inv in H. destruct H as (date_val & Hd & H).
  apply bind_result_ok_inv in H. destruct H as (day_date & Hdd & H).
  apply bind_result_ok_inv in H. destruct H as (cost' & Hc' & H).
  inversion H. subst e. simpl.
  destruct (row !! 0%nat) as [c0|]; [|discriminate Hc].
  destruct (row !! 1%nat) as [d0|]; [|discriminate Hd].
  inversion Hc. inversion Hd. subst.
  exists cost, date_val. repeat split; assumption.
Qed.

(** C6. A date cell that stands for a calendar date, as an 8-digit
    integer or as an ISO string, is decoded to that date. In a summary that
    [get_cost_summary] computes, [daily_costs] holds the entries of the
    daily rows, each dated with the date its row stands for, in ascending
    order of date: no entry is followed by one with an earlier date. *)
Theorem daily_costs_normalized_sorted (env : Env) (days : Z) (s s' : State)
    (v : CachedValue) :
  get_cost_summary env days s = (Ok v, s') ->
  fst (cache_get env (summary_key days) s) = Ok None ->
  (forall date_val x, represents date_val x -> decode_date date_val = Ok x)
  /\ exists summary daily_result entries,
       v = Summary summary
       /\ fetched env daily_result
       /\ Forall2 (fun row e => daily_entry env row = Ok e) (get_rows daily_result) entries
       /\ Forall2 (fun row e =>
                     forall date_val x,
                       row !! 1%nat = Some date_val -> represents date_val x ->
                       DailyCost.date e = x)
            (get_rows daily_result) entries
       /\ Permutation (CostSummary.daily_costs summary) entries
       /\ StronglySorted
            (fun a b => Calendar.ltb (DailyCost.date b) (DailyCost.date a) = false)
            (CostSummary.daily_costs summary).
Proof.
  intros H Hmiss. split; [exact decode_date_represents|].
  destruct (get_cost_summary_computes env days s s' v H Hmiss)
    as (start_date & end_date & service_result & daily_result & summary
        & -> & _ & Hf2 & Hb).
  destruct (build_summary_inv _ _ _ _ _ _ Hb) as (entries & dentries & _ & Hd & ->).
  eexists. exists daily_result, dentries.
  split; [reflexivity|].
  cbn [CostSummary.total_cost CostSummary.costs_by_service CostSummary.daily_costs].
  split; [exact Hf2|]. split; [exact Hd|].
  split.
  - eapply Forall2_impl; [exact Hd|].
    intros row e He date_val x Hrow Hrep.
    destruct (daily_entry_inv env row e He) as (c & dv & _ & Hdv & Hdec & _).
    rewrite Hrow in Hdv. inversion Hdv. subst dv.
    rewrite (decode_date_represents _ _ Hrep) in Hdec. congruence.
  - split; [apply SortFacts.sort_perm|].
    apply (SortFacts.sort_asc_sorted Calendar.ltb DailyCost.date (fun _ => True)).
    + intros a b _ _. apply CalendarFacts.date_ltb_asym.
    + intros a b c _ _ _. apply CalendarFacts.date_ltb_negtrans.
    + apply Forall_forall. intros; exact I.
Qed.

End AggregatorFacts.

(** * The forecast *)
Module ForecastFacts.
Import AzureCostService ServiceFacts CacheKeyFacts AggregatorFacts.

Lemma today_reads_clock (env : Env) (s s' : State) (d : Calendar.date) :
  today env s = (Ok d, s') ->
  d = Calendar.date_of_timestamp (clock env (clock_reads s)).
Proof. unfold today, bind, now, ret. intros H. inversion H. reflexivity. Qed.

(** [x] is the date [date.today()] gives at some reading of the clock. *)
Definition is_today (env : Env) (x : Calendar.date) : Prop :=
  exists n, x = Calendar.date_of_timestamp (clock env n).

(** A forecast that [get_forecast] computes (rather than serves from the
    cache), in terms of its two readings of the date and of the result of
    its query. *)
Lemma get_forecast_computes (env : Env) (s s' : State) (v : CachedValue) :
  get_forecast env s = (Ok v, s') ->
  fst (cache_get env forecast_key s) = Ok None ->
  exists today1 today2 result cost end_of_month' estimated,
    is_today env today1 /\ is_today env today2 /\ fetched env result
    /\ end_of_month today1 = Ok end_of_month'
    /\ current_cost (get_rows result) = Ok cost
    /\ linear_forecast cost (Calendar.day today2) (Calendar.day end_of_month')
       = Ok estimated
    /\ v = Forecast (CostForecast.mk (azure_subscription_id env) end_of_month'
                       (Py.py_round2 estimated) "USD").
Proof.
  unfold get_forecast. intros H Hmiss.
  apply bind_ok_inv in H. destruct H as (cached & s1 & Hget & H).
  rewrite Hget in Hmiss. simpl in Hmiss. inversion Hmiss. subst cached.
  apply bind_ok_inv in H. destruct H as (today1 & s2 & Ht1 & H).
  apply bind_ok_inv in H. destruct H as (eom & s3 & He & H).
  apply bind_ok_inv in H. destruct H as (result & s4 & Hq & H).
  apply bind_ok_inv in H. destruct H as (cost & s5 & Hc & H).
  apply bind_ok_inv in H. destruct H as (today2 & s6 & Ht2 & H).
  apply bind_ok_inv in H. destruct H as (est & s7 & Hl & H).
  apply bind_ok_inv in H. destruct H as ([] & s8 & _ & H).
  apply ret_ok_inv in H. destruct H as [<- _].
  apply lift_ok_inv in He, Hc, Hl. destruct He as [He _], Hc as [Hc _], Hl as [Hl _].
  exists today1, today2, result, cost, eom, est.
  split; [eexists; apply (today_reads_clock _ _ _ _ Ht1)|].
  split; [eexists; apply (today_reads_clock _ _ _ _ Ht2)|].
  split; [eexists _, _, _; exact Hq|].
  repeat (split; [assumption|]). reflexivity.
Qed.


End ForecastFacts.

(** * Ordinals and dates *)
Module OrdinalFacts.
Import Calendar CalendarFacts.

(** The last step of [_ord2ymd]: the month and the day of the day number
    [n] (from 0) of a year. *)
Definition month_day (year : Z) (leapyear : bool) (n : Z) : date :=
  let month := Z.shiftr (n + 50) 5 in
  let preceding :=
    nth (Z.to_nat month) _DAYS_BEFORE_MONTH 0
    + (if (2 <? month) && leapyear then 1 else 0) in
  if n <? preceding then
    let month := month - 1 in
    let preceding :=
      preceding - (nth (Z.to_nat month) _DAYS_IN_MONTH 0
                   + (if (month =? 2) && leapyear then 1 else 0)) in
    mkdate year month (n - preceding + 1)
  else
    mkdate year month (n - preceding + 1).

Lemma _ord2ymd_parts (n0 : Z) :
  _ord2ymd n0
  = let n := (n0 - 1) mod 146097 in
    let n100 := n / 36524 in
    let n4 := n mod 36524 / 1461 in
    let n1 := n mod 36524 mod 1461 / 365 in
    let year := (n0 - 1) / 146097 * 400 + 1 + n100 * 100 + n4 * 4 + n1 in
    if (n1 =? 4) || (n100 =? 4) then mkdate (year - 1) 12 31
    else month_day year ((n1 =? 3) && (negb (n4 =? 24) || (n100 =? 3)))
           (n mod 36524 mod 1461 mod 365).
Proof. reflexivity. Qed.

(** The days of a month and before a month, given whether the year is a
    leap year. *)
Definition days_in (leap : bool) (m : Z) : Z :=
  if (m =? 2) && leap then 29 else nth (Z.to_nat m) _DAYS_IN_MONTH 0.

Definition days_before (leap : bool) (m : Z) : Z :=
  nth (Z.to_nat m) _DAYS_BEFORE_MONTH 0 + (if (2 <? m) && leap then 1 else 0).

Definition month_day_checked (leap : bool) (n : Z) : bool :=
  let x := month_day 0 leap n in
  (1 <=? month x) && (month x <=? 12) && (1 <=? day x)
  && (day x <=? days_in leap (month x))
  && (days_before leap (month x) + day x =? n + 1).

Lemma month_day_common_year :
  Range.forall_from 365 0 (month_day_checked false) = true.
Proof. vm_cast_no_check (eq_refl true). Qed.

Lemma month_day_leap_year :
  Range.forall_from 366 0 (month_day_checked true) = true.
Proof. vm_cast_no_check (eq_refl true). Qed.

Lemma month_day_year (y : Z) (leap : bool) (n : Z) :
  month_day y leap n = mkdate y (month (month_day 0 leap n)) (day (month_day 0 leap n)).
Proof. unfold month_day. cbv zeta. destruct (n <? _); reflexivity. Qed.

Lemma month_day_spec (y : Z) (leap : bool) (n : Z) :
  0 <= n < 365 + (if leap then 1 else 0) ->
  let x := month_day y leap n in
  year x = y /\ 1 <= month x <= 12 /\ 1 <= day x <= days_in leap (month x)
  /\ days_before leap (month x) + day x = n + 1.
Proof.
  intros Hn. cbv zeta. rewrite month_day_year. cbn [year month day].
  assert (month_day_checked leap n = true) as H.
  { destruct leap.
    - apply (Range.forall_from_spec _ _ _ month_day_leap_year). lia.
    - apply (Range.forall_from_spec _ _ _ month_day_common_year). lia. }
  unfold month_day_checked in H. cbv zeta in H.
  repeat (apply andb_prop in H; destruct H as [H ?]).
  repeat match goal with
         | E : (_ <=? _) = true |- _ => apply Z.leb_le in E
         | E : (_ =? _) = true |- _ => apply Z.eqb_eq in E
         end.
  repeat split; assumption.
Qed.

(** The year that [_ord2ymd] finds, from the numbers of whole 100-year,
    4-year and 1-year cycles before it. *)
Lemma year_of_cycles (n100 n4 n1 : Z) :
  0 <= n100 <= 3 -> 0 <= n4 <= 24 -> 0 <= n1 <= 3 ->
  let y := 1 + n100 * 100 + n4 * 4 + n1 in
  _days_before_year y = 36524 * n100 + 1461 * n4 + 365 * n1
  /\ _is_leap y = (n1 =? 3) && (negb (n4 =? 24) || (n100 =? 3)).
Proof.
  intros H100 H4 H1. cbv zeta. split.
  - unfold _days_before_year. div_lia.
  - unfold _is_leap.
    destruct (Z.eqb_spec n1 3) as [E1|E1];
      destruct (Z.eqb_spec n4 24) as [E4|E4];
      destruct (Z.eqb_spec n100 3) as [E100|E100]; simpl;
      repeat match goal with
             | |- context [?a mod ?b =? 0] => destruct (Z.eqb_spec (a mod b) 0)
             end; simpl; try reflexivity; exfalso; div_lia.
Qed.

Lemma _ymd2ord_days (y m d : Z) :
  _ymd2ord y m d = _days_before_year y + days_before (_is_leap y) m + d.
Proof. reflexivity. Qed.

Lemma _days_in_month_days (y m : Z) : _days_in_month y m = days_in (_is_leap y) m.
Proof. reflexivity. Qed.

(** [_ord2ymd] on the first 400 years. *)
Lemma _ord2ymd_first_period (r : Z) :
  1 <= r <= 146097 ->
  let x := _ord2ymd r in
  1 <= year x <= 400 /\ 1 <= month x <= 12
  /\ 1 <= day x <= _days_in_month (year x) (month x)
  /\ _ymd2ord (year x) (month x) (day x) = r.
Proof.
  intros Hr. cbv zeta. rewrite _ord2ymd_parts.
  replace ((r - 1) / 146097) with 0 by div_lia.
  replace ((r - 1) mod 146097) with (r - 1) by div_lia.
  cbv zeta.
  remember ((r - 1) / 36524) as n100 eqn:E100.
  remember ((r - 1) mod 36524) as r100 eqn:F100.
  remember (r100 / 1461) as n4 eqn:E4.
  remember (r100 mod 1461) as r4 eqn:F4.
  remember (r4 / 365) as n1 eqn:E1.
  remember (r4 mod 365) as r1 eqn:F1.
  assert (r - 1 = 36524 * n100 + r100 /\ 0 <= r100 < 36524 /\ 0 <= n100 <= 4
          /\ r100 = 1461 * n4 + r4 /\ 0 <= r4 < 1461 /\ 0 <= n4 <= 24
          /\ r4 = 365 * n1 + r1 /\ 0 <= r1 < 365 /\ 0 <= n1 <= 4)
    as (D100 & B100 & R100 & D4 & B4 & R4 & D1 & B1 & R1) by div_lia.
  clear E100 F100 E4 F4 E1 F1.
  destruct (Z.eqb_spec n100 4) as [->|N100].
  { assert (r = 146097) as -> by lia. assert (n1 = 0) as -> by lia.
    assert (n4 = 0) as -> by lia.
    simpl. repeat split; try lia; reflexivity. }
  destruct (Z.eqb_spec n1 4) as [->|N1].
  { simpl orb. cbv iota. cbn [year month day].
    assert (n4 <= 23) as R4' by lia.
    destruct (year_of_cycles n100 n4 3 ltac:(lia) ltac:(lia) ltac:(lia)) as [Hdays Hleap].
    cbv zeta in Hdays, Hleap.
    replace (0 * 400 + 1 + n100 * 100 + n4 * 4 + 4 - 1)
      with (1 + n100 * 100 + n4 * 4 + 3) by lia.
    rewrite _ymd2ord_days, _days_in_month_days, Hdays, Hleap.
    destruct (Z.eqb_spec n4 24) as [?|_]; [lia|]. simpl.
    change (days_in true 12) with 31. change (days_before true 12) with 335.
    repeat split; lia. }
  simpl orb. cbv iota.
  destruct (year_of_cycles n100 n4 n1 ltac:(lia) ltac:(lia) ltac:(lia)) as [Hdays Hleap].
  cbv zeta in Hdays, Hleap.
  replace (0 * 400 + 1 + n100 * 100 + n4 * 4 + n1)
    with (1 + n100 * 100 + n4 * 4 + n1) by lia.
  rewrite <- Hleap.
  set (y := 1 + n100 * 100 + n4 * 4 + n1) in *.
  destruct (month_day_spec y (_is_leap y) r1) as (Hy & Hm & Hd & Hsum).
  { destruct (_is_leap y); lia. }
  cbv zeta in Hy, Hm, Hd, Hsum.
  rewrite _ymd2ord_days, _days_in_month_days, Hy, Hdays.
  repeat split; lia.
Qed.

(** [_ord2ymd] gives a date of the calendar, and [toordinal] is its
    inverse. *)
Lemma _ord2ymd_spec (n : Z) :
  1 <= n ->
  let x := _ord2ymd n in
  1 <= year x /\ 1 <= month x <= 12
  /\ 1 <= day x <= _days_in_month (year x) (month x)
  /\ toordinal x = n.
Proof.
  intros Hn. cbv zeta.
  assert (exists r k, n = r + 146097 * k /\ 1 <= r <= 146097 /\ 0 <= k)
    as (r & k & -> & Hr & Hk).
  { exists ((n - 1) mod 146097 + 1), ((n - 1) / 146097). div_lia. }
  destruct (_ord2ymd_first_period r Hr) as (Hy & Hm & Hd & Ho).
  cbv zeta in Hy, Hm, Hd, Ho.
  rewrite _ord2ymd_shift. unfold toordinal.
  rewrite year_shift, month_shift, day_shift.
  rewrite _days_in_month_shift, _ymd2ord_shift, Ho.
  repeat split; lia.
Qed.

Lemma _days_before_year_mono (y1 y2 : Z) :
  y1 <= y2 -> _days_before_year y1 <= _days_before_year y2.
Proof. unfold _days_before_year. intros H. div_lia. Qed.

Lemma days_before_bounds (leap : bool) (m : Z) :
  1 <= m <= 12 -> 0 <= days_before leap m <= 335.
Proof.
  intros Hm. unfold days_before.
  destruct (each_month m Hm) as [E|[E|[E|[E|[E|[E|[E|[E|[E|[E|[E|E]]]]]]]]]]];
    rewrite E; destruct leap; simpl; lia.
Qed.

(** Up to the last ordinal the year is at most 9999: the date is one that
    the constructor accepts. *)
Lemma _ord2ymd_valid (n : Z) :
  1 <= n <= _MAXORDINAL -> valid (_ord2ymd n) = true.
Proof.
  intros Hn. destruct (_ord2ymd_spec n ltac:(lia)) as (Hy & Hm & Hd & Ho).
  cbv zeta in Hy, Hm, Hd, Ho.
  generalize dependent (_ord2ymd n). intros x Hy Hm Hd Ho.
  unfold valid. apply valid_ymd_intro; [|exact Hm|exact Hd].
  split; [exact Hy|].
  destruct (Z.le_gt_cases (year x) 9999) as [H|H]; [exact H|exfalso].
  unfold toordinal in Ho. rewrite _ymd2ord_days in Ho.
  pose proof (_days_before_year_mono 10000 (year x) ltac:(lia)) as Hmono.
  assert (_days_before_year 10000 = 3652059) as E by reflexivity.
  pose proof (days_before_bounds (_is_leap (year x)) _ Hm).
  unfold _MAXORDINAL in Hn. lia.
Qed.

(** [toordinal] is strictly increasing along the order of dates, hence
    one-to-one on the dates of the calendar. *)
Lemma days_before_next (leap : bool) (m : Z) :
  1 <= m <= 11 -> days_before leap (m + 1) = days_before leap m + days_in leap m.
Proof.
  intros Hm. unfold days_before, days_in.
  assert (m = 1 \/ m = 2 \/ m = 3 \/ m = 4 \/ m = 5 \/ m = 6 \/ m = 7 \/ m = 8
          \/ m = 9 \/ m = 10 \/ m = 11) as E by lia.
  repeat (destruct E as [E|E]); rewrite E; destruct leap; reflexivity.
Qed.

Lemma days_in_bounds (leap : bool) (m : Z) : 1 <= m <= 12 -> 28 <= days_in leap m <= 31.
Proof.
  intros Hm. unfold days_in.
  destruct (each_month m Hm) as [E|[E|[E|[E|[E|[E|[E|[E|[E|[E|[E|E]]]]]]]]]]];
    rewrite E; destruct leap; simpl; lia.
Qed.

Lemma days_before_mono (leap : bool) (m1 m2 : Z) :
  1 <= m1 -> m1 < m2 -> m2 <= 12 ->
  days_before leap m1 + days_in leap m1 <= days_before leap m2.
Proof.
  intros H1 Hlt H2.
  assert (exists k, m2 = m1 + 1 + Z.of_nat k) as [k ->]
    by (exists (Z.to_nat (m2 - m1 - 1)); lia).
  clear Hlt. induction k as [|k IH].
  - rewrite Z.add_0_r, days_before_next by lia. lia.
  - replace (m1 + 1 + Z.of_nat (S k)) with (m1 + 1 + Z.of_nat k + 1) in * by lia.
    rewrite days_before_next by lia.
    pose proof (days_in_bounds leap (m1 + 1 + Z.of_nat k) ltac:(lia)).
    specialize (IH ltac:(lia)). lia.
Qed.

Lemma days_before_december (leap : bool) :
  days_before leap 12 + days_in leap 12 = 365 + (if leap then 1 else 0).
Proof. destruct leap; reflexivity. Qed.

Lemma _days_before_year_next (y : Z) :
  _days_before_year (y + 1) = _days_before_year y + 365 + (if _is_leap y then 1 else 0).
Proof.
  unfold _days_before_year, _is_leap.
  repeat match goal with
         | |- context [?a mod ?b =? 0] => destruct (Z.eqb_spec (a mod b) 0)
         end; simpl; div_lia.
Qed.

Lemma toordinal_mono (x1 x2 : date) :
  valid x1 = true -> valid x2 = true -> ltb x1 x2 = true ->
  toordinal x1 < toordinal x2.
Proof.
  intros V1 V2 Hlt. apply date_ltb_spec in Hlt.
  destruct (valid_bounds x1 V1) as (Hy1 & Hm1 & _ & Hd1).
  destruct (valid_bounds x2 V2) as (Hy2 & Hm2 & _ & Hd2).
  assert (1 <= day x1 /\ 1 <= day x2) as [L1 L2].
  { destruct (valid_bounds x1 V1) as (_ & _ & ? & _).
    destruct (valid_bounds x2 V2) as (_ & _ & ? & _). lia. }
  unfold toordinal. rewrite !_ymd2ord_days.
  rewrite _days_in_month_days in Hd1, Hd2.
  destruct x1 as [y1 m1 d1], x2 as [y2 m2 d2]. cbn [year month day] in *.
  destruct Hlt as [Hy|[-> [Hm|[-> Hd]]]].
  - pose proof (_days_before_year_mono (y1 + 1) y2 ltac:(lia)) as Hmono.
    rewrite _days_before_year_next in Hmono.
    pose proof (days_before_bounds (_is_leap y2) m2 Hm2).
    pose proof (days_before_december (_is_leap y1)).
    assert (days_before (_is_leap y1) m1 + days_in (_is_leap y1) m1
            <= days_before (_is_leap y1) 12 + days_in (_is_leap y1) 12).
    { destruct (Z.eq_dec m1 12) as [->|]; [lia|].
      pose proof (days_before_mono (_is_leap y1) m1 12 ltac:(lia) ltac:(lia) ltac:(lia)).
      pose proof (days_in_bounds (_is_leap y1) 12 ltac:(lia)). lia. }
    lia.
  - pose proof (days_before_mono (_is_leap y2) m1 m2 ltac:(lia) Hm ltac:(lia)). lia.
  - lia.
Qed.

Lemma date_ltb_total (x1 x2 : date) : x1 = x2 \/ ltb x1 x2 = true \/ ltb x2 x1 = true.
Proof.
  rewrite !date_ltb_spec. destruct x1 as [y1 m1 d1], x2 as [y2 m2 d2].
  cbn [year month day].
  destruct (Z.lt_total y1 y2) as [?|[->|?]]; [tauto| |tauto].
  destruct (Z.lt_total m1 m2) as [?|[->|?]]; [tauto| |tauto].
  destruct (Z.lt_total d1 d2) as [?|[->|?]]; tauto.
Qed.

Lemma toordinal_inj (x1 x2 : date) :
  valid x1 = true -> valid x2 = true -> toordinal x1 = toordinal x2 -> x1 = x2.
Proof.
  intros V1 V2 E.
  destruct (date_ltb_total x1 x2) as [H|[H|H]]; [exact H| |].
  - pose proof (toordinal_mono x1 x2 V1 V2 H). lia.
  - pose proof (toordinal_mono x2 x1 V2 V1 H). lia.
Qed.

Lemma toordinal_bounds (x : date) : valid x = true -> 1 <= toordinal x <= _MAXORDINAL.
Proof.
  intros V. destruct (valid_bounds x V) as (Hy & Hm & Hd & Hdim).
  assert (1 <= day x) as L.
  { unfold valid, valid_ymd in V.
    repeat (apply andb_prop in V; destruct V as [V ?]).
    repeat match goal with
           | E : (_ <=? _) = true |- _ => apply Z.leb_le in E
           end. lia. }
  unfold toordinal. rewrite _ymd2ord_days. rewrite _days_in_month_days in Hdim.
  pose proof (_days_before_year_mono 1 (year x) ltac:(lia)) as M1.
  change (_days_before_year 1) with 0 in M1.
  pose proof (_days_before_year_mono (year x + 1) 10000 ltac:(lia)) as M2.
  change (_days_before_year 10000) with 3652059 in M2.
  rewrite _days_before_year_next in M2.
  pose proof (days_before_bounds (_is_leap (year x)) _ Hm).
  pose proof (days_before_december (_is_leap (year x))).
  assert (days_before (_is_leap (year x)) (month x) + days_in (_is_leap (year x)) (month x)
          <= days_before (_is_leap (year x)) 12 + days_in (_is_leap (year x)) 12).
  { destruct (Z.eq_dec (month x) 12) as [->|]; [lia|].
    pose proof (days_before_mono (_is_leap (year x)) (month x) 12
                  ltac:(lia) ltac:(lia) ltac:(lia)).
    pose proof (days_in_bounds (_is_leap (year x)) 12 ltac:(lia)). lia. }
  unfold _MAXORDINAL. lia.
Qed.

(** [date.fromordinal(x.toordinal()) == x] *)
Lemma _ord2ymd_toordinal (x : date) : valid x = true -> _ord2ymd (toordinal x) = x.
Proof.
  intros V. pose proof (toordinal_bounds x V) as B.
  pose proof (_ord2ymd_valid _ B) as V'.
  destruct (_ord2ymd_spec (toordinal x) ltac:(lia)) as (_ & _ & _ & H).
  cbv zeta in H. generalize dependent (_ord2ymd (toordinal x)). intros x' V' H.
  apply toordinal_inj; assumption.
Qed.


End OrdinalFacts.

(** * The life of a cache entry *)
Module CacheLifetime.
Import CostCache.


Lemma get_hit_unchanged (now : Z) (key : string) (c : t) (v : CachedValue) :
  fst (get now key c) = Some v -> snd (get now key c) = c.
Proof.
  unfold get. destruct (_cache c !! key) as [[ts v0]|]; [|discriminate].
  destruct (fresh c now ts); [reflexivity | discriminate].
Qed.

Lemma get_miss_absent (now : Z) (key : string) (c : t) :
  fst (get now key c) = None -> _cache (snd (get now key c)) !! key = None.
Proof.
  unfold get. destruct (_cache c !! key) as [[ts v0]|] eqn:E; [|intros _; exact E].
  destruct (fresh c now ts); [discriminate|].
  intros _. apply lookup_delete_eq.
Qed.

Lemma get_absent (now : Z) (key : string) (c : t) :
  _cache c !! key = None -> get now key c = (None, c).
Proof. unfold get. intros ->. reflexivity. Qed.


(** X2. A look-up that finds nothing settles it: whether the key was absent
    or its entry had expired, the key is absent afterwards, and every later
    look-up, at whatever time the clock then shows, finds nothing and
    changes nothing. *)
Theorem miss_is_final (now later : Z) (key : string) (c : t) :
  fst (get now key c) = None ->
  _cache (snd (get now key c)) !! key = None
  /\ get later key (snd (get now key c)) = (None, snd (get now key c)).
Proof.
  intros H. pose proof (get_miss_absent now key c H) as E.
  split; [exact E | apply get_absent, E].
Qed.


End CacheLifetime.

(** * The effects of the query executor *)
Module ExecutorFacts.
Import AzureCostService ServiceFacts.
Local Open Scope service_scope.

Definition token_scope : string := "https://management.azure.com/.default".

(** The events of attempts that were answered 429 and slept: a request,
    then the sleep, for each of [delays]. *)
Fixpoint retried (url : string) (body : QueryBody) (bearer : string)
    (delays : list Z) : list Event :=
  match delays with
  | [] => []
  | d :: rest => EvPost url body bearer :: EvSleep d :: retried url body bearer rest
  end.

Section Effects.
Variable env : Env.
Variables (query_body : QueryBody) (max_retries : Z).

(** What a run of the loop, from [s] to [s'], has done: [delays] attempts
    that slept, then the requests of [final] (none or one); nothing else of
    the state has changed. *)
Definition loop_effects (bearer : string) (delays : list Z) (final : list Event)
    (s s' : State) : Prop :=
  trace s' = trace s ++ retried (query_url env) query_body bearer delays ++ final
  /\ (final = [] \/ final = [EvPost (query_url env) query_body bearer])
  /\ requests s' = (requests s + length delays + length final)%nat
  /\ _token s' = _token s /\ _cache s' = _cache s
  /\ clock_reads s' = clock_reads s /\ token_fetches s' = token_fetches s.

(** A request that fails in transport ends the loop at once. *)
Lemma loop_failed (bearer : string) (remaining : nat) (attempt : Z) (s : State) :
  billing_api env (requests s) = Failed ->
  query_loop env query_body max_retries bearer (S remaining) attempt s
  = (Raise TransportError, after_post env query_body bearer s).
Proof. intros Hf. simpl. unfold bind at 1. unfold post. rewrite Hf. reflexivity. Qed.

Lemma last_post_effects (bearer : string) (s : State) :
  loop_effects bearer [] [EvPost (query_url env) query_body bearer] s
    (after_post env query_body bearer s).
Proof.
  unfold loop_effects, after_post. simpl.
  repeat split; try reflexivity; try lia. right. reflexivity.
Qed.

(** Every iteration either ends the loop after its request or is a retry. *)
Lemma loop_step (bearer : string) (remaining : nat) (attempt : Z) (s : State) :
  (exists r, query_loop env query_body max_retries bearer (S remaining) attempt s
             = (r, after_post env query_body bearer s))
  \/ (exists d, attempt < max_retries - 1
        /\ query_loop env query_body max_retries bearer (S remaining) attempt s
           = query_loop env query_body max_retries bearer remaining (attempt + 1)
               (after_retry env query_body bearer s d)).
Proof.
  destruct (billing_api env (requests s)) as [r|] eqn:Hr.
  - destruct (Z.eq_dec (status_code r) 429) as [H429|Hne].
    + destruct (retry_delay r) as [d|] eqn:Hd.
      * destruct (Z.lt_ge_cases attempt (max_retries - 1)) as [Hlt|Hge].
        -- right. exists d. split; [exact Hlt|].
           apply (loop_retry _ _ _ _ _ _ _ r d); assumption.
        -- left. eexists.
           apply (loop_last_429 _ _ _ _ _ _ _ r d); assumption.
      * left. eexists. apply loop_bad_header with (r := r); assumption.
    + left. eexists. apply loop_conclude; eassumption.
  - left. eexists. apply loop_failed. exact Hr.
Qed.

Lemma query_loop_effects (bearer : string) (remaining : nat) (attempt : Z) (s : State) :
  exists delays final,
    loop_effects bearer delays final s
      (snd (query_loop env query_body max_retries bearer remaining attempt s))
    /\ (length delays + length final <= remaining)%nat
    /\ (remaining = 0%nat \/ Z.of_nat (length delays) < max_retries - attempt
        \/ delays = []).
Proof.
  revert attempt s. induction remaining as [|k IH]; intros attempt s.
  - exists [], []. simpl. unfold loop_effects. simpl.
    rewrite !app_nil_r. repeat split; try reflexivity; try lia. left. reflexivity.
  - destruct (loop_step bearer k attempt s) as [[r ->]|(d & Hlt & ->)].
    + exists [], [EvPost (query_url env) query_body bearer].
      split; [apply last_post_effects | simpl; split; [lia | right; right; reflexivity]].
    + destruct (IH (attempt + 1) (after_retry env query_body bearer s d))
        as (delays & final & (Ht & Hf & Hr & Hk & Hc & Hn & Hq) & Hlen & Hb).
      simpl in Ht, Hr, Hk, Hc, Hn, Hq.
      exists (d :: delays), final. split.
      * unfold loop_effects.
        split; [rewrite Ht; simpl; rewrite <- !app_assoc; reflexivity|].
        split; [exact Hf|]. split; [simpl; lia|].
        repeat split; assumption.
      * split; [simpl; lia|]. right. left.
        destruct Hb as [->|[Hb| ->]].
        -- assert (delays = []) as -> by (destruct delays; [reflexivity | simpl in Hlen; lia]).
           simpl. lia.
        -- simpl length. lia.
        -- simpl. lia.
Qed.

(** In [_query_costs] the loop runs [max_retries - attempt] more
    iterations: then it ends with a request whenever it sends one, and it
    sleeps fewer times than it has iterations. *)
Lemma query_loop_shape (bearer : string) (remaining : nat) (attempt : Z) (s : State) :
  remaining = Z.to_nat (max_retries - attempt) ->
  exists delays final,
    loop_effects bearer delays final s
      (snd (query_loop env query_body max_retries bearer remaining attempt s))
    /\ ((remaining = 0%nat /\ delays = [] /\ final = [])
        \/ (final = [EvPost (query_url env) query_body bearer]
            /\ Z.of_nat (length delays) < max_retries - attempt)).
Proof.
  revert attempt s. induction remaining as [|k IH]; intros attempt s Hrem.
  - exists [], []. simpl. unfold loop_effects. simpl.
    rewrite !app_nil_r. split; [|left; repeat split].
    repeat split; try reflexivity; try lia. left. reflexivity.
  - destruct (loop_step bearer k attempt s) as [[r ->]|(d & Hlt & ->)].
    + exists [], [EvPost (query_url env) query_body bearer].
      split; [apply last_post_effects|]. right. split; [reflexivity | simpl; lia].
    + destruct (IH (attempt + 1) (after_retry env query_body bearer s d) ltac:(lia))
        as (delays & final & (Ht & Hf & Hr & Hk & Hc & Hn & Hq) & Hshape).
      simpl in Ht, Hr, Hk, Hc, Hn, Hq.
      exists (d :: delays), final. split.
      * unfold loop_effects.
        split; [rewrite Ht; simpl; rewrite <- !app_assoc; reflexivity|].
        split; [exact Hf|]. split; [simpl; lia|].
        repeat split; assumption.
      * right. destruct Hshape as [(Hz & _ & _)|[Hfinal Hlen]]; [lia|].
        split; [exact Hfinal | simpl length; lia].
Qed.

End Effects.

(** The state after the credential was asked, with the token it gave
    ([None]: it raised). *)
Definition after_fetch (token : option string) (s : State) : State :=
  mkState (match token with Some _ => token | None => _token s end) (_cache s)
    (clock_reads s) (requests s) (S (token_fetches s))
    (trace s ++ [EvGetToken token_scope]).

Lemma _get_token_cases (env : Env) (s : State) :
  (exists token, _token s = Some token /\ _get_token env s = (Ok token, s))
  \/ (exists token,
        _token s = None /\ credential env (token_fetches s) = Some token
        /\ _get_token env s = (Ok token, after_fetch (Some token) s))
  \/ (_token s = None /\ credential env (token_fetches s) = None
      /\ _get_token env s = (Raise ClientAuthenticationError, after_fetch None s)).
Proof.
  unfold _get_token. destruct (_token s) as [token|] eqn:Et.
  - left. exists token. split; reflexivity.
  - right. unfold bind, credential_get_token, set_token, ret, after_fetch.
    rewrite Et.
    destruct (credential env (token_fetches s)) as [token|].
    + left. exists token. repeat split; reflexivity.
    + right. repeat split; reflexivity.
Qed.

(** What the callers of [_query_costs] rely on: the events it adds are
    its own requests, sleeps and at most a token fetch; the cache is as it
    was; at most [max_retries] requests were sent. *)
Definition own_event (env : Env) (query_body : QueryBody) (ev : Event) : Prop :=
  match ev with
  | EvPost url body _ => url = query_url env /\ body = query_body
  | _ => True
  end.

Lemma retried_own (env : Env) (query_body : QueryBody) (bearer : string)
    (delays : list Z) :
  Forall (own_event env query_body) (retried (query_url env) query_body bearer delays).
Proof.
  induction delays as [|d rest IH]; simpl; [constructor|].
  constructor; [split; reflexivity|]. constructor; [exact I | exact IH].
Qed.

Lemma _query_costs_sends (env : Env) (query_body : QueryBody) (max_retries : Z)
    (s : State) :
  exists new,
    trace (snd (_query_costs env query_body max_retries s)) = trace s ++ new
    /\ Forall (own_event env query_body) new
    /\ _cache (snd (_query_costs env query_body max_retries s)) = _cache s
    /\ (requests s <= requests (snd (_query_costs env query_body max_retries s))
        <= requests s + Z.to_nat max_retries)%nat.
Proof.
  unfold _query_costs.
  destruct (_get_token_cases env s)
    as [(token & _ & Hg)|[(token & _ & _ & Hg)|(_ & _ & Hg)]].
  - rewrite (bind_ok _ _ _ _ _ Hg).
    destruct (query_loop_effects env query_body max_retries token
                (Z.to_nat max_retries) 0 s)
      as (delays & final & (Ht & Hf & Hr & _ & Hc & _) & Hlen & _).
    eexists. split; [exact Ht|]. split; [|split; [exact Hc | lia]].
    apply Forall_app. split; [apply retried_own|].
    destruct Hf as [->| ->]; repeat constructor.
  - rewrite (bind_ok _ _ _ _ _ Hg).
    destruct (query_loop_effects env query_body max_retries token
                (Z.to_nat max_retries) 0 (after_fetch (Some token) s))
      as (delays & final & (Ht & Hf & Hr & _ & Hc & _) & Hlen & _).
    simpl in Ht, Hr, Hc.
    eexists. split; [rewrite Ht, <- app_assoc; reflexivity|].
    split; [|split; [exact Hc | lia]].
    constructor; [exact I|].
    apply Forall_app. split; [apply retried_own|].
    destruct Hf as [->| ->]; repeat constructor.
  - rewrite (bind_raise _ _ _ _ _ Hg). simpl.
    eexists. split; [reflexivity|].
    split; [repeat constructor | split; [reflexivity | lia]].
Qed.

(** X4. Whatever the billing API answers, one call of [_query_costs] does this
    and no more: it asks the credential at most once, and only when no token
    is stored; it sends at most [max_retries] requests, all to the query URL
    of the subscription, with the given body and the stored token as bearer;
    every sleep is followed by another request, so it sleeps fewer times
    than [max_retries]; and it neither touches the cache nor reads the
    clock. *)
Theorem query_effects (env : Env) (query_body : QueryBody) (max_retries : Z)
    (s : State) :
  let s' := snd (_query_costs env query_body max_retries s) in
  exists fetch bearer delays final,
    trace s'
    = trace s ++ fetch
      ++ retried (query_url env) query_body bearer delays ++ final
    /\ ((fetch = [] /\ _token s <> None /\ token_fetches s' = token_fetches s)
        \/ (fetch = [EvGetToken token_scope] /\ _token s = None
            /\ token_fetches s' = S (token_fetches s)))
    /\ ((final = [EvPost (query_url env) query_body bearer]
         /\ _token s' = Some bearer
         /\ Z.of_nat (length delays) < max_retries)
        \/ (final = [] /\ delays = []))
    /\ requests s' = (requests s + length delays + length final)%nat
    /\ (length delays + length final <= Z.to_nat max_retries)%nat
    /\ _cache s' = _cache s /\ clock_reads s' = clock_reads s.
Proof.
  cbv zeta. unfold _query_costs.
  destruct (_get_token_cases env s)
    as [(token & Et & Hg)|[(token & Et & Hc & Hg)|(Et & Hc & Hg)]].
  - rewrite (bind_ok _ _ _ _ _ Hg).
    destruct (query_loop_shape env query_body max_retries token
                (Z.to_nat max_retries) 0 s ltac:(f_equal; lia))
      as (delays & final & (Ht & Hf & Hr & Hk & Hcache & Hn & Hq) & Hshape).
    exists [], token, delays, final. simpl.
    split; [exact Ht|]. split; [left; repeat split; [congruence | exact Hq]|].
    split; [|split; [exact Hr|split; [|split; assumption]]].
    + destruct Hshape as [(_ & -> & ->)|[-> Hlen]]; [right; split; reflexivity|].
      left. split; [reflexivity|]. split; [congruence | lia].
    + destruct Hshape as [(_ & -> & ->)|[-> Hlen]]; simpl; lia.
  - rewrite (bind_ok _ _ _ _ _ Hg).
    destruct (query_loop_shape env query_body max_retries token
                (Z.to_nat max_retries) 0 (after_fetch (Some token) s) ltac:(f_equal; lia))
      as (delays & final & (Ht & Hf & Hr & Hk & Hcache & Hn & Hq) & Hshape).
    simpl in Ht, Hr, Hk, Hcache, Hn, Hq.
    exists [EvGetToken token_scope], token, delays, final.
    split; [rewrite Ht, <- !app_assoc; reflexivity|].
    split; [right; repeat split; assumption|].
    split; [|split; [exact Hr|split; [|split; assumption]]].
    + destruct Hshape as [(_ & -> & ->)|[-> Hlen]]; [right; split; reflexivity|].
      left. split; [reflexivity|]. split; [exact Hk | lia].
    + destruct Hshape as [(_ & -> & ->)|[-> Hlen]]; simpl; lia.
  - rewrite (bind_raise _ _ _ _ _ Hg).
    exists [EvGetToken token_scope], "", [], []. simpl.
    split; [reflexivity|]. split; [right; repeat split; assumption|].
    split; [right; split; reflexivity|].
    split; [lia|]. split; [lia|]. split; reflexivity.
Qed.


(** The answer that ended the loop: the one to the last request sent. *)
Lemma query_loop_ok (env : Env) (query_body : QueryBody) (max_retries : Z)
    (bearer : string) (remaining : nat) (attempt : Z) (s s' : State) (body : JsonBody) :
  max_retries - attempt <= Z.of_nat remaining ->
  query_loop env query_body max_retries bearer remaining attempt s = (Ok body, s') ->
  (remaining = 0%nat /\ body = empty_dict /\ s' = s)
  \/ (exists r n,
        s' = after_post env query_body bearer n
        /\ (requests s <= requests n)%nat
        /\ billing_api env (requests n) = Responded r
        /\ is_success r = true /\ json r = Some body).
Proof.
  revert attempt s. induction remaining as [|k IH]; intros attempt s Hinv H.
  - left. simpl in H. unfold ret in H. inversion H. repeat split; reflexivity.
  - right.
    destruct (billing_api env (requests s)) as [r|] eqn:Hr.
    + destruct (Z.eq_dec (status_code r) 429) as [H429|Hne].
      * destruct (retry_delay r) as [d|] eqn:Hd.
        -- destruct (Z.lt_ge_cases attempt (max_retries - 1)) as [Hlt|Hge].
           ++ rewrite (loop_retry _ _ _ _ _ _ _ r d Hr H429 Hd Hlt) in H.
              destruct (IH (attempt + 1) _ ltac:(lia) H)
                as [(-> & -> & ->)|(r' & n & -> & Hle & Hn & Hs & Hj)]; [lia|].
              exists r', n. simpl in Hle. repeat split; try assumption. lia.
           ++ rewrite (loop_last_429 _ _ _ _ _ _ _ r d Hr H429 Hd Hge) in H.
              discriminate H.
        -- rewrite (loop_bad_header _ _ _ _ _ _ _ r Hr H429 Hd) in H. discriminate H.
      * rewrite (loop_conclude _ _ _ _ _ _ _ r Hr Hne) in H.
        unfold conclude in H. destruct (is_success r) eqn:Hs; [|discriminate H].
        destruct (json r) as [b|] eqn:Hj; [|discriminate H].
        inversion H. subst. exists r, s. repeat split; try assumption. lia.
    + rewrite (loop_failed env query_body max_retries bearer k attempt s Hr) in H.
      discriminate H.
Qed.

(** X6. The executor returns a body only from a success: when [_query_costs]
    returns, either no attempt was allowed ([max_retries <= 0]; the body is
    the empty dict and no request was sent), or the last request it sent
    was answered with a 2xx status and the body is the decoded JSON of that
    answer. *)
Theorem body_only_from_success (env : Env) (query_body : QueryBody)
    (max_retries : Z) (s s' : State) (body : JsonBody) :
  _query_costs env query_body max_retries s = (Ok body, s') ->
  (max_retries <= 0 /\ body = empty_dict /\ requests s' = requests s)
  \/ (exists r,
        (requests s < requests s')%nat
        /\ billing_api env (Nat.pred (requests s')) = Responded r
        /\ 200 <= status_code r <= 299 /\ json r = Some body).
Proof.
  unfold _query_costs. intros H.
  apply bind_ok_inv in H. destruct H as (bearer & s0 & Hg & H).
  assert (requests s0 = requests s) as Hreq.
  { destruct (_get_token_cases env s)
      as [(token & _ & E)|[(token & _ & _ & E)|(_ & _ & E)]];
      rewrite E in Hg; inversion Hg; reflexivity. }
  apply query_loop_ok in H; [|lia].
  destruct H as [(Hz & -> & ->)|(r & n & -> & Hle & Hn & Hs & Hj)].
  - left. repeat split; [lia | exact Hreq].
  - right. exists r. simpl.
    split; [lia|]. split; [exact Hn|]. split; [|exact Hj].
    unfold is_success in Hs. apply andb_prop in Hs. destruct Hs as [H1 H2].
    apply Z.leb_le in H1, H2. lia.
Qed.

(** X7. A failure of the credential is not remembered. When no token is stored
    and the credential raises, [_query_costs] raises the authentication
    error without sending a request, the token slot stays empty, and the
    next call asks the credential again. *)
Theorem credential_failure_is_not_kept (env : Env) (query_body : QueryBody)
    (max_retries : Z) (s : State) :
  _token s = None -> credential env (token_fetches s) = None ->
  let s' := snd (_query_costs env query_body max_retries s) in
  fst (_query_costs env query_body max_retries s) = Raise ClientAuthenticationError
  /\ requests s' = requests s /\ _token s' = None
  /\ token_fetches s' = S (token_fetches s)
  /\ token_fetches (snd (_get_token env s')) = S (S (token_fetches s)).
Proof.
  intros Et Hc. cbv zeta. unfold _query_costs.
  destruct (_get_token_cases env s)
    as [(token & Et' & _)|[(token & _ & Hc' & _)|(_ & _ & Hg)]]; try congruence.
  rewrite (bind_raise _ _ _ _ _ Hg). simpl.
  split; [reflexivity|]. split; [reflexivity|]. split; [exact Et|].
  split; [reflexivity|].
  destruct (_get_token_cases env (after_fetch None s))
    as [(token & Et' & _)|[(token & _ & _ & ->)|(_ & _ & ->)]]; [|reflexivity..].
  simpl in Et'. congruence.
Qed.

End ExecutorFacts.

(** * Calls of the service *)
Module CallFacts.
Import AzureCostService ServiceFacts CacheKeyFacts AggregatorFacts ForecastFacts.
Import ExecutorFacts.
Local Open Scope service_scope.

(** ** The two computations behind the cache *)

(** [get_cost_summary] between the look-up and the store: lines 83 to 156. *)
Definition compute_summary (env : Env) (days : Z) : M CostSummary.t :=
  end_date <- today env ;;
  start_date <- lift (or_raise OverflowError (Calendar.sub_days end_date days)) ;;
  service_result <- _query_costs env (service_query start_date end_date) 3 ;;
  daily_result <- _query_costs env (daily_query start_date end_date) 3 ;;
  lift (build_summary env start_date end_date service_result daily_result).

(** [get_forecast] between the look-up and the store: lines 166 to 192. *)
Definition compute_forecast (env : Env) : M CostForecast.t :=
  today1 <- today env ;;
  end_of_month' <- lift (end_of_month today1) ;;
  result <- _query_costs env forecast_query 3 ;;
  current_cost' <- lift (current_cost (get_rows result)) ;;
  today2 <- today env ;;
  estimated_total <-
    lift (linear_forecast current_cost' (Calendar.day today2)
            (Calendar.day end_of_month')) ;;
  ret (CostForecast.mk (azure_subscription_id env) end_of_month'
         (Py.py_round2 estimated_total) "USD").

(** A call is a look-up, and on a miss the computation and the store. *)
Definition through_cache {A : Type} (env : Env) (key : string)
    (wrap : A -> CachedValue) (compute : M A) : M CachedValue :=
  cached <- cache_get env key ;;
  match cached with
  | Some value => ret value
  | None =>
      result <- compute ;;
      cache_set env key (wrap result) ;;;
      ret (wrap result)
  end.

Lemma get_cost_summary_through_cache (env : Env) (days : Z) (s : State) :
  get_cost_summary env days s
  = through_cache env (summary_key days) Summary (compute_summary env days) s.
Proof.
  unfold get_cost_summary, through_cache, compute_summary, bind, lift.
  destruct (cache_get env (summary_key days) s) as [[[v|]|e] s1]; try reflexivity.
  destruct (today env s1) as [[end_date|e] s2]; try reflexivity.
  destruct (or_raise OverflowError (Calendar.sub_days end_date days))
    as [start_date|e]; try reflexivity.
  destruct (_query_costs env (service_query start_date end_date) 3 s2)
    as [[service_result|e] s3]; try reflexivity.
  destruct (_query_costs env (daily_query start_date end_date) 3 s3)
    as [[daily_result|e] s4]; [|reflexivity].
  destruct (build_summary env start_date end_date service_result daily_result);
    try reflexivity.
Qed.

Lemma get_forecast_through_cache (env : Env) (s : State) :
  get_forecast env s
  = through_cache env forecast_key Forecast (compute_forecast env) s.
Proof.
  unfold get_forecast, through_cache, compute_forecast, bind, lift, ret.
  destruct (cache_get env forecast_key s) as [[[v|]|e] s1]; try reflexivity.
  destruct (today env s1) as [[today1|e] s2]; try reflexivity.
  destruct (end_of_month today1) as [eom|e]; try reflexivity.
  destruct (_query_costs env forecast_query 3 s2) as [[result|e] s3]; try reflexivity.
  destruct (current_cost (get_rows result)) as [c|e]; try reflexivity.
  destruct (today env s3) as [[today2|e] s4]; [|reflexivity].
  destruct (linear_forecast c (Calendar.day today2) (Calendar.day eom));
    reflexivity.
Qed.

(** ** What a computation uses *)

(** [m] leaves the cache alone and sends at most [n] requests. *)
Definition uses {A : Type} (n : nat) (m : M A) : Prop :=
  forall s,
    _cache (snd (m s)) = _cache s
    /\ (requests s <= requests (snd (m s)) <= requests s + n)%nat.

Lemma uses_ret {A : Type} (a : A) : uses 0 (ret a).
Proof. intros s. simpl. split; [reflexivity | lia]. Qed.

Lemma uses_lift {A : Type} (r : result A) : uses 0 (lift r).
Proof. intros s. simpl. split; [reflexivity | lia]. Qed.

Lemma uses_today (env : Env) : uses 0 (today env).
Proof. intros s. simpl. split; [reflexivity | lia]. Qed.

Lemma uses_bind {A B : Type} (n k : nat) (m : M A) (f : A -> M B) :
  uses n m -> (forall a, uses k (f a)) -> uses (n + k) (bind m f).
Proof.
  intros Hm Hf s. unfold bind. destruct (Hm s) as [Hc Hr].
  destruct (m s) as [[a|e] s1]; simpl in *.
  - destruct (Hf a s1) as [Hc' Hr']. split; [congruence | lia].
  - split; [exact Hc | lia].
Qed.

Lemma uses__query_costs (env : Env) (query_body : QueryBody) :
  uses 3 (_query_costs env query_body 3).
Proof.
  intros s.
  destruct (_query_costs_sends env query_body 3 s) as (new & _ & _ & Hc & Hr).
  change (Z.to_nat 3) with 3%nat in Hr.
  split; [exact Hc | exact Hr].
Qed.

Lemma uses_compute_summary (env : Env) (days : Z) : uses 6 (compute_summary env days).
Proof.
  unfold compute_summary.
  apply (uses_bind 0 6); [apply uses_today|]. intros end_date.
  apply (uses_bind 0 6); [apply uses_lift|]. intros start_date.
  apply (uses_bind 3 3); [apply uses__query_costs|]. intros service_result.
  apply (uses_bind 3 0); [apply uses__query_costs|]. intros daily_result.
  apply uses_lift.
Qed.

Lemma uses_compute_forecast (env : Env) : uses 3 (compute_forecast env).
Proof.
  unfold compute_forecast.
  apply (uses_bind 0 3); [apply uses_today|]. intros today1.
  apply (uses_bind 0 3); [apply uses_lift|]. intros eom.
  apply (uses_bind 3 0); [apply uses__query_costs|]. intros result.
  apply (uses_bind 0 0); [apply uses_lift|]. intros c.
  apply (uses_bind 0 0); [apply uses_today|]. intros today2.
  apply (uses_bind 0 0); [apply uses_lift|]. intros est.
  apply uses_ret.
Qed.

(** ** A call through the cache, case by case *)

(** The state after [value] was stored under [key]: one reading of the
    clock, which becomes the time stamp of the entry. *)
Definition stored (env : Env) (key : string) (value : CachedValue) (s : State) : State :=
  mkState (_token s)
    (CostCache.set (clock env (clock_reads s)) key value (_cache s))
    (S (clock_reads s)) (requests s) (token_fetches s) (trace s).

Lemma cache_set_run (env : Env) (key : string) (value : CachedValue) (s : State) :
  cache_set env key value s = (Ok tt, stored env key value s).
Proof. reflexivity. Qed.

Lemma cache_get_run (env : Env) (key : string) (s : State) :
  cache_get env key s
  = match CostCache._cache (_cache s) !! key with
    | None => (Ok None, s)
    | Some (ts, v) =>
        if CostCache.fresh (_cache s) (clock env (clock_reads s)) ts
        then (Ok (Some v), tick (_cache s) s)
        else (Ok None,
              tick (CostCache.mk (CostCache.ttl (_cache s))
                      (delete key (CostCache._cache (_cache s)))) s)
    end.
Proof.
  unfold cache_get.
  destruct (CostCache._cache (_cache s) !! key) as [[ts v]|] eqn:E; [|reflexivity].
  unfold bind, now, CostCache.get. simpl. rewrite E.
  destruct (CostCache.fresh (_cache s) (clock env (clock_reads s)) ts); reflexivity.
Qed.

(** A look-up that finds nothing leaves no entry under the key, sends
    nothing and keeps the time to live. *)
Lemma cache_get_miss (env : Env) (key : string) (s s1 : State) :
  cache_get env key s = (Ok None, s1) ->
  CostCache._cache (_cache s1) !! key = None
  /\ requests s1 = requests s
  /\ CostCache.ttl (_cache s1) = CostCache.ttl (_cache s).
Proof.
  rewrite cache_get_run.
  destruct (CostCache._cache (_cache s) !! key) as [[ts v]|] eqn:E.
  - destruct (CostCache.fresh _ _ ts); intros H; inversion H; subst. simpl.
    split; [apply lookup_delete_eq | split; reflexivity].
  - intros H. inversion H. subst. split; [exact E | split; reflexivity].
Qed.

Section ThroughCache.
Context {A : Type}.
Variables (env : Env) (key : string) (wrap : A -> CachedValue) (compute : M A).

Local Abbreviation call := (through_cache env key wrap compute).

(** The entry is there and fresh: the call returns it. *)
Lemma call_hit (s : State) (ts : Z) (v : CachedValue) :
  CostCache._cache (_cache s) !! key = Some (ts, v) ->
  clock env (clock_reads s) - ts < CostCache.ttl (_cache s) * 1000000 ->
  call s = (Ok v, tick (_cache s) s).
Proof.
  intros E Hf. unfold through_cache, bind. rewrite cache_get_run, E.
  unfold CostCache.fresh.
  destruct (Z.ltb_spec (clock env (clock_reads s) - ts)
              (CostCache.ttl (_cache s) * 1000000)); [reflexivity | lia].
Qed.

(** The three ways a call can go. *)
Lemma call_cases (s : State) :
  (exists ts v,
     CostCache._cache (_cache s) !! key = Some (ts, v)
     /\ cache_get env key s = (Ok (Some v), tick (_cache s) s)
     /\ call s = (Ok v, tick (_cache s) s))
  \/ (exists s1 e s2,
        cache_get env key s = (Ok None, s1)
        /\ compute s1 = (Raise e, s2) /\ call s = (Raise e, s2))
  \/ (exists s1 a s2,
        cache_get env key s = (Ok None, s1)
        /\ compute s1 = (Ok a, s2)
        /\ call s = (Ok (wrap a), stored env key (wrap a) s2)).
Proof.
  unfold through_cache, bind.
  destruct (cache_get_cases env key s)
    as [[_ E]|[(ts0 & v0 & El & E)|(ts0 & v0 & _ & E)]]; rewrite E.
  - right. destruct (compute s) as [[a|e] s2] eqn:Ec.
    + right. exists s, a, s2. split; [reflexivity | split; [exact Ec | reflexivity]].
    + left. exists s, e, s2. split; [reflexivity | split; [exact Ec | reflexivity]].
  - left. exists ts0, v0. split; [exact El | split; reflexivity].
  - right.
    match goal with |- context [compute ?s1] => set (sm := s1) end.
    destruct (compute sm) as [[a|e] s2] eqn:Ec.
    + right. exists sm, a, s2. split; [reflexivity | split; [exact Ec | reflexivity]].
    + left. exists sm, e, s2. split; [reflexivity | split; [exact Ec | reflexivity]].
Qed.

(** What a call returns is in the cache afterwards. *)
Lemma call_stores (s s' : State) (v : CachedValue) :
  call s = (Ok v, s') ->
  exists ts, CostCache._cache (_cache s') !! key = Some (ts, v).
Proof.
  intros H.
  destruct (call_cases s)
    as [(ts & v0 & El & _ & E)|[(s1 & e & s2 & _ & _ & E)|(s1 & a & s2 & _ & _ & E)]];
    rewrite E in H; inversion H; subst.
  - exists ts. exact El.
  - eexists. simpl. apply lookup_insert_eq.
Qed.

(** A call that raises leaves nothing under its key. *)
Lemma call_raise (n : nat) (s s' : State) (e : PyErr) :
  uses n compute -> call s = (Raise e, s') ->
  CostCache._cache (_cache s') !! key = None.
Proof.
  intros Hu H.
  destruct (call_cases s)
    as [(ts & v0 & El & _ & E)|[(s1 & e' & s2 & Hg & Hc & E)|(s1 & a & s2 & _ & _ & E)]];
    rewrite E in H; inversion H; subst.
  destruct (cache_get_miss env key s s1 Hg) as (Hnone & _).
  destruct (Hu s1) as [Hcache _]. rewrite Hc in Hcache. simpl in Hcache.
  rewrite Hcache. exact Hnone.
Qed.

(** A call sends what its computation sends, and keeps the time to live. *)
Lemma call_uses (n : nat) (s : State) :
  uses n compute ->
  (requests s <= requests (snd (call s)) <= requests s + n)%nat
  /\ CostCache.ttl (_cache (snd (call s))) = CostCache.ttl (_cache s).
Proof.
  intros Hu.
  destruct (call_cases s)
    as [(ts & v0 & El & _ & E)|[(s1 & e' & s2 & Hg & Hc & E)|(s1 & a & s2 & Hg & Hc & E)]];
    rewrite E; simpl.
  - split; [lia | reflexivity].
  - destruct (cache_get_miss env key s s1 Hg) as (_ & Hr & Ht).
    destruct (Hu s1) as [Hcache Hreq]. rewrite Hc in Hcache, Hreq. simpl in *.
    split; [lia | congruence].
  - destruct (cache_get_miss env key s s1 Hg) as (_ & Hr & Ht).
    destruct (Hu s1) as [Hcache Hreq]. rewrite Hc in Hcache, Hreq. simpl in *.
    split; [lia | congruence].
Qed.

End ThroughCache.

(** ** Served from the cache *)

Section Served.
Context {A : Type}.
Variables (env : Env) (key : string) (wrap : A -> CachedValue) (compute : M A).
Variable n : nat.
Hypothesis compute_uses : uses n compute.

(** After a call that returned [v]: the entry of [v] is in the cache;
    when the call computed [v], its time stamp is the reading of the clock
    at the store, the last reading of the call; and a second call that
    reads the clock less than 300 seconds after the time stamp returns [v]
    again, with one reading of the clock and nothing else. *)
Lemma call_served (s s1 : State) (v : CachedValue) :
  CostCache.ttl (_cache s) = 300 ->
  through_cache env key wrap compute s = (Ok v, s1) ->
  exists ts,
    CostCache._cache (_cache s1) !! key = Some (ts, v)
    /\ (fst (cache_get env key s) = Ok None ->
        ts = clock env (Nat.pred (clock_reads s1)))
    /\ (clock env (clock_reads s1) - ts < 300000000 ->
        exists s2,
          through_cache env key wrap compute s1 = (Ok v, s2)
          /\ clock_reads s2 = S (clock_reads s1)
          /\ requests s2 = requests s1 /\ token_fetches s2 = token_fetches s1
          /\ trace s2 = trace s1 /\ _token s2 = _token s1 /\ _cache s2 = _cache s1).
Proof.
  intros Httl H.
  assert (CostCache.ttl (_cache s1) = 300) as Httl1.
  { destruct (call_uses env key wrap compute n s compute_uses) as [_ E].
    rewrite H in E. simpl in E. congruence. }
  assert (forall ts,
            CostCache._cache (_cache s1) !! key = Some (ts, v) ->
            clock env (clock_reads s1) - ts < 300000000 ->
            exists s2,
              through_cache env key wrap compute s1 = (Ok v, s2)
              /\ clock_reads s2 = S (clock_reads s1)
              /\ requests s2 = requests s1 /\ token_fetches s2 = token_fetches s1
              /\ trace s2 = trace s1 /\ _token s2 = _token s1 /\ _cache s2 = _cache s1)
    as Hagain.
  { intros ts El Hf. exists (tick (_cache s1) s1).
    split; [|repeat split].
    apply (call_hit env key wrap compute s1 ts v El). rewrite Httl1. lia. }
  destruct (call_cases env key wrap compute s)
    as [(ts & v0 & El & Hg & E)|[(sa & e & sb & _ & _ & E)|(sa & a & sb & _ & _ & E)]];
    rewrite E in H; inversion H; subst.
  - exists ts. split; [exact El|]. split; [|apply Hagain; exact El].
    rewrite Hg. discriminate.
  - exists (clock env (clock_reads sb)).
    assert (CostCache._cache (_cache (stored env key (wrap a) sb)) !! key
            = Some (clock env (clock_reads sb), wrap a)) as El
      by (simpl; apply lookup_insert_eq).
    split; [exact El|]. split; [intros _; reflexivity|].
    apply Hagain. exact El.
Qed.

End Served.

(** X8. A summary is served from the cache for 300 seconds. After a call of
    [get_cost_summary] that returned [v], the entry of [v] is under the key
    of [days]; when the call computed [v], the time stamp is the reading of
    the clock at the store; and a second call for the same [days] that
    reads the clock less than 300 seconds after the time stamp returns [v]
    again: it reads the clock once, sends no request, asks for no token and
    leaves the cache as it is. *)
Theorem summary_served_from_cache (env : Env) (days : Z) (s s1 : State)
    (v : CachedValue) :
  CostCache.ttl (_cache s) = 300 ->
  get_cost_summary env days s = (Ok v, s1) ->
  exists ts,
    CostCache._cache (_cache s1) !! summary_key days = Some (ts, v)
    /\ (fst (cache_get env (summary_key days) s) = Ok None ->
        ts = clock env (Nat.pred (clock_reads s1)))
    /\ (clock env (clock_reads s1) - ts < 300000000 ->
        exists s2,
          get_cost_summary env days s1 = (Ok v, s2)
          /\ clock_reads s2 = S (clock_reads s1)
          /\ requests s2 = requests s1 /\ token_fetches s2 = token_fetches s1
          /\ trace s2 = trace s1 /\ _token s2 = _token s1 /\ _cache s2 = _cache s1).
Proof.
  intros Httl H. rewrite get_cost_summary_through_cache in H.
  destruct (call_served env (summary_key days) Summary (compute_summary env days) 6
              (uses_compute_summary env days) s s1 v Httl H)
    as (ts & El & Hts & Hagain).
  exists ts. split; [exact El|]. split; [exact Hts|].
  intros Hf. destruct (Hagain Hf) as (s2 & E & Hrest).
  exists s2. rewrite get_cost_summary_through_cache. split; [exact E | exact Hrest].
Qed.

(** X9. The forecast is served from the cache for 300 seconds, in the same
    way. *)
Theorem forecast_served_from_cache (env : Env) (s s1 : State) (v : CachedValue) :
  CostCache.ttl (_cache s) = 300 ->
  get_forecast env s = (Ok v, s1) ->
  exists ts,
    CostCache._cache (_cache s1) !! forecast_key = Some (ts, v)
    /\ (fst (cache_get env forecast_key s) = Ok None ->
        ts = clock env (Nat.pred (clock_reads s1)))
    /\ (clock env (clock_reads s1) - ts < 300000000 ->
        exists s2,
          get_forecast env s1 = (Ok v, s2)
          /\ clock_reads s2 = S (clock_reads s1)
          /\ requests s2 = requests s1 /\ token_fetches s2 = token_fetches s1
          /\ trace s2 = trace s1 /\ _token s2 = _token s1 /\ _cache s2 = _cache s1).
Proof.
  intros Httl H. rewrite get_forecast_through_cache in H.
  destruct (call_served env forecast_key Forecast (compute_forecast env) 3
              (uses_compute_forecast env) s s1 v Httl H)
    as (ts & El & Hts & Hagain).
  exists ts. split; [exact El|]. split; [exact Hts|].
  intros Hf. destruct (Hagain Hf) as (s2 & E & Hrest).
  exists s2. rewrite get_forecast_through_cache. split; [exact E | exact Hrest].
Qed.

(** X10. Failures are not cached. A call of [get_cost_summary] that raises
    leaves no entry under its key, so the next call finds nothing there and
    computes again. *)
Theorem failed_summary_leaves_no_entry (env : Env) (days : Z) (s s' : State)
    (e : PyErr) :
  get_cost_summary env days s = (Raise e, s') ->
  CostCache._cache (_cache s') !! summary_key days = None
  /\ cache_get env (summary_key days) s' = (Ok None, s').
Proof.
  intros H. rewrite get_cost_summary_through_cache in H.
  pose proof (call_raise env _ _ _ 6 s s' e (uses_compute_summary env days) H) as E.
  split; [exact E|]. rewrite cache_get_run, E. reflexivity.
Qed.

(** X11. The same for [get_forecast]: a call that raises leaves no forecast in
    the cache. *)
Theorem failed_forecast_leaves_no_entry (env : Env) (s s' : State) (e : PyErr) :
  get_forecast env s = (Raise e, s') ->
  CostCache._cache (_cache s') !! forecast_key = None
  /\ cache_get env forecast_key s' = (Ok None, s').
Proof.
  intros H. rewrite get_forecast_through_cache in H.
  pose proof (call_raise env _ _ _ 3 s s' e (uses_compute_forecast env) H) as E.
  split; [exact E|]. rewrite cache_get_run, E. reflexivity.
Qed.

(** X12. The requests of a call. Whatever the billing API answers,
    [get_cost_summary] sends at most six requests (two queries of at most
    three attempts) and [get_forecast] at most three. *)
Theorem calls_send_few_requests (env : Env) (s : State) :
  (forall days,
     (requests s <= requests (snd (get_cost_summary env days s))
      <= requests s + 6)%nat)
  /\ (requests s <= requests (snd (get_forecast env s)) <= requests s + 3)%nat.
Proof.
  split.
  - intros days. rewrite get_cost_summary_through_cache.
    apply (call_uses env _ _ _ 6 s (uses_compute_summary env days)).
  - rewrite get_forecast_through_cache.
    apply (call_uses env _ _ _ 3 s (uses_compute_forecast env)).
Qed.


(** ** The period of a summary *)

(** The clock shows a time of the calendar: microseconds since
    0001-01-01, before the end of the year 9999. *)
Definition clock_in_range (env : Env) : Prop :=
  forall n, 0 <= clock env n < Calendar._MAXORDINAL * Calendar.US_PER_DAY.

Lemma today_valid (env : Env) (x : Calendar.date) :
  clock_in_range env -> is_today env x -> Calendar.valid x = true.
Proof.
  intros Hc [n ->]. unfold Calendar.date_of_timestamp.
  apply OrdinalFacts._ord2ymd_valid. specialize (Hc n).
  unfold Calendar.US_PER_DAY, Calendar._MAXORDINAL in *.
  CalendarFacts.div_lia.
Qed.

Lemma sub_days_ordinal (x y : Calendar.date) (k : Z) :
  Calendar.sub_days x k = Some y ->
  Calendar.valid y = true /\ Calendar.toordinal y = Calendar.toordinal x - k.
Proof.
  unfold Calendar.sub_days.
  destruct (Z.abs k <=? 999999999); [|discriminate].
  destruct (Z.ltb_spec 0 (Calendar.toordinal x + - k)); [|discriminate].
  destruct (Z.leb_spec (Calendar.toordinal x + - k) Calendar._MAXORDINAL);
    [|discriminate].
  simpl. intros E0. inversion E0. subst y.
  split; [apply OrdinalFacts._ord2ymd_valid; lia|].
  destruct (OrdinalFacts._ord2ymd_spec (Calendar.toordinal x + - k) ltac:(lia))
    as (_ & _ & _ & E).
  cbv zeta in E. rewrite E. lia.
Qed.

Lemma bind_ok_run {A B : Type} (m : M A) (k : A -> M B) (s s' : State) (b : B) :
  bind m k s = (Ok b, s') ->
  exists a, m s = (Ok a, snd (m s)) /\ k a (snd (m s)) = (Ok b, s').
Proof.
  intros H. apply bind_ok_inv in H. destruct H as (a & s1 & Hm & Hk).
  exists a. rewrite Hm. split; [reflexivity | exact Hk].
Qed.

(** A computed summary, step by step. *)
Lemma compute_summary_ok (env : Env) (days : Z) (s s' : State)
    (summary : CostSummary.t) :
  compute_summary env days s = (Ok summary, s') ->
  exists start_date end_date service_result daily_result s2,
    end_date = Calendar.date_of_timestamp (clock env (clock_reads s))
    /\ Calendar.sub_days end_date days = Some start_date
    /\ _query_costs env (service_query start_date end_date) 3 (snd (today env s))
       = (Ok service_result, s2)
    /\ _query_costs env (daily_query start_date end_date) 3 s2 = (Ok daily_result, s')
    /\ build_summary env start_date end_date service_result daily_result = Ok summary.
Proof.
  unfold compute_summary. intros H.
  apply bind_ok_inv in H. destruct H as (end_date & s1 & Ht & H).
  apply bind_ok_inv in H. destruct H as (start_date & s1' & Hs & H).
  apply lift_ok_inv in Hs. destruct Hs as [Hs ->].
  apply bind_ok_inv in H. destruct H as (service_result & s2 & Hq1 & H).
  apply bind_ok_inv in H. destruct H as (daily_result & s3 & Hq2 & H).
  apply lift_ok_inv in H. destruct H as [Hb ->].
  exists start_date, end_date, service_result, daily_result, s2.
  split; [exact (today_reads_clock _ _ _ _ Ht)|].
  split; [destruct (Calendar.sub_days end_date days); [inversion Hs; reflexivity | discriminate]|].
  rewrite Ht. simpl. repeat split; assumption.
Qed.

(** The events of one query carry its body. *)
Definition carries (period : string * string) (ev : Event) : Prop :=
  match ev with
  | EvPost _ body _ => q_timePeriod body = Some period
  | _ => True
  end.

Lemma query_carries (env : Env) (query_body : QueryBody) (period : string * string)
    (s : State) :
  q_timePeriod query_body = Some period ->
  exists new,
    trace (snd (_query_costs env query_body 3 s)) = trace s ++ new
    /\ Forall (carries period) new.
Proof.
  intros Hp.
  destruct (_query_costs_sends env query_body 3 s) as (new & Ht & Hown & _).
  exists new. split; [exact Ht|].
  eapply Forall_impl; [exact Hown|].
  intros [scope|url body bearer|seconds]; simpl; try (intros; exact I).
  intros [_ ->]. exact Hp.
Qed.

(** A summary that [get_cost_summary] computes, with the states of the
    call: after the look-up, between the two queries, and before the
    store. *)
Lemma summary_computed (env : Env) (days : Z) (s s' : State) (v : CachedValue) :
  get_cost_summary env days s = (Ok v, s') ->
  fst (cache_get env (summary_key days) s) = Ok None ->
  exists summary s1 sq s2 service_result daily_result,
    v = Summary summary
    /\ cache_get env (summary_key days) s = (Ok None, s1)
    /\ CostSummary.period_end summary
       = Calendar.date_of_timestamp (clock env (clock_reads s1))
    /\ Calendar.sub_days (CostSummary.period_end summary) days
       = Some (CostSummary.period_start summary)
    /\ _query_costs env
         (service_query (CostSummary.period_start summary)
            (CostSummary.period_end summary)) 3 (snd (today env s1))
       = (Ok service_result, sq)
    /\ _query_costs env
         (daily_query (CostSummary.period_start summary)
            (CostSummary.period_end summary)) 3 sq
       = (Ok daily_result, s2)
    /\ s' = stored env (summary_key days) v s2.
Proof.
  intros H Hmiss. rewrite get_cost_summary_through_cache in H.
  destruct (call_cases env (summary_key days) Summary (compute_summary env days) s)
    as [(ts & v0 & _ & Hg & _)|[(s1 & e & s2 & _ & _ & E)|(s1 & summary & s2 & Hg & Hc & E)]].
  { rewrite Hg in Hmiss. discriminate Hmiss. }
  { rewrite E in H. discriminate H. }
  rewrite E in H. inversion H. subst v s'. clear H E.
  destruct (compute_summary_ok env days s1 s2 summary Hc)
    as (start_date & end_date & service_result & daily_result & sq
        & Hend & Hstart & Hq1 & Hq2 & Hb).
  destruct (build_summary_inv _ _ _ _ _ _ Hb) as (entries & dentries & _ & _ & ->).
  eexists. exists s1, sq, s2, service_result, daily_result.
  split; [reflexivity|].
  cbn [CostSummary.period_end CostSummary.period_start].
  split; [exact Hg|]. split; [exact Hend|]. split; [exact Hstart|].
  split; [exact Hq1|]. split; [exact Hq2 | reflexivity].
Qed.

Lemma cache_get_keeps_trace (env : Env) (key : string) (s s1 : State)
    (r : option CachedValue) :
  cache_get env key s = (Ok r, s1) -> trace s1 = trace s.
Proof.
  rewrite cache_get_run.
  destruct (CostCache._cache (_cache s) !! key) as [[ts0 v0]|].
  - destruct (CostCache.fresh _ _ ts0); intros H; inversion H; reflexivity.
  - intros H. inversion H. reflexivity.
Qed.

(** X13. The period of a summary that [get_cost_summary] computes: it ends
    today (the date at the reading of the clock after the look-up) and
    starts [days] days earlier, whatever the sign of [days]; both dates are
    dates of the calendar when the clock is in range; and every request of
    the call asks for exactly this period, from [period_start] to
    [period_end] in ISO form. *)
Theorem summary_period (env : Env) (days : Z) (s s' : State) (v : CachedValue) :
  clock_in_range env ->
  get_cost_summary env days s = (Ok v, s') ->
  fst (cache_get env (summary_key days) s) = Ok None ->
  exists summary new,
    v = Summary summary
    /\ is_today env (CostSummary.period_end summary)
    /\ Calendar.valid (CostSummary.period_end summary) = true
    /\ Calendar.valid (CostSummary.period_start summary) = true
    /\ Calendar.toordinal (CostSummary.period_end summary)
       - Calendar.toordinal (CostSummary.period_start summary) = days
    /\ trace s' = trace s ++ new
    /\ Forall (carries (Calendar.isoformat (CostSummary.period_start summary),
                        Calendar.isoformat (CostSummary.period_end summary))) new.
Proof.
  intros Hclock H Hmiss.
  destruct (summary_computed env days s s' v H Hmiss)
    as (summary & s1 & sq & s2 & service_result & daily_result
        & -> & Hg & Hend & Hstart & Hq1 & Hq2 & ->).
  assert (is_today env (CostSummary.period_end summary)) as Htoday
    by (eexists; exact Hend).
  destruct (sub_days_ordinal _ _ _ Hstart) as [Hv Ho].
  destruct (query_carries env _
              (Calendar.isoformat (CostSummary.period_start summary),
               Calendar.isoformat (CostSummary.period_end summary))
              (snd (today env s1)) (eq_refl : q_timePeriod (service_query _ _) = _))
    as (new1 & Ht1 & Hf1).
  destruct (query_carries env _
              (Calendar.isoformat (CostSummary.period_start summary),
               Calendar.isoformat (CostSummary.period_end summary))
              sq (eq_refl : q_timePeriod (daily_query _ _) = _))
    as (new2 & Ht2 & Hf2).
  rewrite Hq1 in Ht1. rewrite Hq2 in Ht2. simpl in Ht1, Ht2.
  pose proof (cache_get_keeps_trace env _ _ _ _ Hg) as Hs1.
  exists summary, (new1 ++ new2).
  split; [reflexivity|]. split; [exact Htoday|].
  split; [apply (today_valid env _ Hclock Htoday)|]. split; [exact Hv|].
  split; [lia|].
  split; [simpl; rewrite Ht2, Ht1, Hs1, <- app_assoc; reflexivity|].
  apply Forall_app. split; assumption.
Qed.


(** ** The cache holds each kind of result under its own keys *)

(** An entry fits its key: a summary is under the key of some day count, a
    forecast under the key of the forecast. *)
Definition typed_entry (key : string) (v : CachedValue) : Prop :=
  match v with
  | Summary _ => exists days, key = summary_key days
  | Forecast _ => key = forecast_key
  end.

Definition well_typed (s : State) : Prop :=
  forall key ts v,
    CostCache._cache (_cache s) !! key = Some (ts, v) -> typed_entry key v.

Lemma cache_get_keeps_entries (env : Env) (key : string) (s : State)
    (k : string) (entry : Z * CachedValue) :
  CostCache._cache (_cache (snd (cache_get env key s))) !! k = Some entry ->
  CostCache._cache (_cache s) !! k = Some entry.
Proof.
  rewrite cache_get_run.
  destruct (CostCache._cache (_cache s) !! key) as [[ts v]|]; [|exact id].
  destruct (CostCache.fresh _ _ ts); simpl; [exact id|].
  intros H. apply lookup_delete_Some in H. exact (proj2 H).
Qed.

Lemma call_well_typed {A : Type} (env : Env) (key : string) (wrap : A -> CachedValue)
    (compute : M A) (n : nat) (s : State) :
  uses n compute -> (forall a, typed_entry key (wrap a)) ->
  well_typed s -> well_typed (snd (through_cache env key wrap compute s)).
Proof.
  intros Hu Hw Hs.
  assert (forall s1 r, cache_get env key s = (r, s1) -> well_typed s1) as Hget.
  { intros s1 r E k ts v Hl. apply (Hs k ts v).
    apply (cache_get_keeps_entries env key s). rewrite E. exact Hl. }
  destruct (call_cases env key wrap compute s)
    as [(ts & v0 & El & _ & E)|[(s1 & e & s2 & Hg & Hc & E)|(s1 & a & s2 & Hg & Hc & E)]];
    rewrite E; simpl.
  - exact Hs.
  - destruct (Hu s1) as [Hcache _]. rewrite Hc in Hcache. simpl in Hcache.
    intros k ts v Hl. rewrite Hcache in Hl. exact (Hget s1 _ Hg k ts v Hl).
  - destruct (Hu s1) as [Hcache _]. rewrite Hc in Hcache. simpl in Hcache.
    intros k ts v Hl. simpl in Hl.
    destruct (decide (k = key)) as [->|Hne].
    + rewrite lookup_insert_eq in Hl. inversion Hl. apply Hw.
    + rewrite lookup_insert_ne in Hl by congruence.
      rewrite Hcache in Hl. exact (Hget s1 _ Hg k ts v Hl).
Qed.

Lemma call_result_typed {A : Type} (env : Env) (key : string) (wrap : A -> CachedValue)
    (compute : M A) (s s' : State) (v : CachedValue) :
  (forall a, typed_entry key (wrap a)) -> well_typed s ->
  through_cache env key wrap compute s = (Ok v, s') -> typed_entry key v.
Proof.
  intros Hw Hs H.
  destruct (call_cases env key wrap compute s)
    as [(ts & v0 & El & _ & E)|[(s1 & e & s2 & _ & _ & E)|(s1 & a & s2 & _ & _ & E)]];
    rewrite E in H; inversion H; subst.
  - exact (Hs key ts v El).
  - apply Hw.
Qed.

Lemma run_call_well_typed (env : Env) (c : Call) (s : State) :
  well_typed s /\ CostCache.ttl (_cache s) = 300 ->
  well_typed (run_call env c s) /\ CostCache.ttl (_cache (run_call env c s)) = 300.
Proof.
  intros [Hs Httl]. destruct c as [|query_body max_retries|days|]; simpl.
  - assert (_cache (snd (_get_token env s)) = _cache s) as E.
    { destruct (_get_token_cases env s)
        as [(token & _ & ->)|[(token & _ & _ & ->)|(_ & _ & ->)]]; reflexivity. }
    unfold well_typed. rewrite E. split; assumption.
  - destruct (_query_costs_sends env query_body max_retries s) as (new & _ & _ & E & _).
    unfold well_typed. rewrite E. split; assumption.
  - rewrite get_cost_summary_through_cache. split.
    + apply (call_well_typed env _ _ _ 6); [apply uses_compute_summary| |exact Hs].
      intros a. exists days. reflexivity.
    + rewrite <- Httl.
      apply (call_uses env _ _ _ 6 s (uses_compute_summary env days)).
  - rewrite get_forecast_through_cache. split.
    + apply (call_well_typed env _ _ _ 3); [apply uses_compute_forecast| |exact Hs].
      intros a. reflexivity.
    + rewrite <- Httl.
      apply (call_uses env _ _ _ 3 s (uses_compute_forecast env)).
Qed.

Lemma run_calls_well_typed (env : Env) (calls : list Call) :
  well_typed (run_calls env calls __init__)
  /\ CostCache.ttl (_cache (run_calls env calls __init__)) = 300.
Proof.
  unfold run_calls.
  assert (well_typed __init__ /\ CostCache.ttl (_cache __init__) = 300) as H0.
  { split; [|reflexivity]. intros key ts v H. simpl in H.
    rewrite lookup_empty in H. discriminate H. }
  revert H0. generalize __init__.
  induction calls as [|c rest IH]; intros s H; simpl; [exact H|].
  apply IH, run_call_well_typed, H.
Qed.

Lemma summary_result_typed (env : Env) (days : Z) (s s' : State) (v : CachedValue) :
  well_typed s -> get_cost_summary env days s = (Ok v, s') ->
  exists summary, v = Summary summary.
Proof.
  intros Hs H. rewrite get_cost_summary_through_cache in H.
  assert (typed_entry (summary_key days) v) as Ht.
  { apply (call_result_typed env _ Summary (compute_summary env days) s s' v);
      [|exact Hs|exact H].
    intros a. exists days. reflexivity. }
  destruct v as [summary|forecast]; [exists summary; reflexivity|].
  simpl in Ht. exfalso. exact (summary_key_not_forecast days Ht).
Qed.

Lemma forecast_result_typed (env : Env) (s s' : State) (v : CachedValue) :
  well_typed s -> get_forecast env s = (Ok v, s') ->
  exists forecast, v = Forecast forecast.
Proof.
  intros Hs H. rewrite get_forecast_through_cache in H.
  assert (typed_entry forecast_key v) as Ht.
  { apply (call_result_typed env _ Forecast (compute_forecast env) s s' v);
      [|exact Hs|exact H].
    intros a. reflexivity. }
  destruct v as [summary|forecast]; [|exists forecast; reflexivity].
  simpl in Ht. destruct Ht as [days Ht].
  exfalso. exact (summary_key_not_forecast days (eq_sym Ht)).
Qed.

(** X14. The cache slot is untyped, and the service uses it in a typed way:
    after any sequence of calls on a new instance, every summary in the
    cache is under the key of a day count and every forecast under the key
    of the forecast, the time to live is still 300 seconds, and therefore
    [get_cost_summary] returns a summary and [get_forecast] a forecast,
    never the other kind of object. *)
Theorem cache_holds_each_kind_under_its_key (env : Env) (calls : list Call) :
  let s := run_calls env calls __init__ in
  (forall key ts v,
     CostCache._cache (_cache s) !! key = Some (ts, v) ->
     match v with
     | Summary _ => exists days, key = summary_key days
     | Forecast _ => key = forecast_key
     end)
  /\ CostCache.ttl (_cache s) = 300
  /\ (forall days s' v,
        get_cost_summary env days s = (Ok v, s') -> exists summary, v = Summary summary)
  /\ (forall s' v,
        get_forecast env s = (Ok v, s') -> exists forecast, v = Forecast forecast).
Proof.
  cbv zeta. destruct (run_calls_well_typed env calls) as [Hs Httl].
  split; [exact Hs|]. split; [exact Httl|].
  split.
  - intros days s' v. apply summary_result_typed, Hs.
  - intros s' v. apply forecast_result_typed, Hs.
Qed.

End CallFacts.

(** * Rows and their entries *)
Module RowFacts.
Import AzureCostService ServiceFacts CacheKeyFacts AggregatorFacts.
Import Calendar DigitFacts CalendarFacts.

(** ** Service rows *)

(** The entry [e] is what the row says: the cost of its first cell (a
    number; an integer is converted to the nearest float), the name of its
    second cell, and the currency of its third cell, or USD when the row
    has only two cells. *)
Definition service_row_gives (row : Row) (e : CostByService.t) : Prop :=
  exists cost,
    row !! 0%nat = Some cost
    /\ (cost = CFloat (CostByService.cost e)
        \/ exists n, cost = CInt n /\ Py.py_float n = Some (CostByService.cost e))
    /\ row !! 1%nat = Some (CStr (CostByService.service_name e))
    /\ match row !! 2%nat with
       | Some cell => cell = CStr (CostByService.currency e)
       | None => CostByService.currency e = "USD"
       end.

Lemma row_get_ok (row : Row) (i : nat) (c : Cell) :
  row_get row i = Ok c -> row !! i = Some c.
Proof. unfold row_get. destruct (row !! i); simpl; congruence. Qed.

Lemma service_entry_gives (row : Row) (e : CostByService.t) :
  service_entry row = Ok e -> service_row_gives row e.
Proof.
  unfold service_entry. intros H.
  apply bind_result_ok_inv in H. destruct H as (cost & Hc & H).
  apply bind_result_ok_inv in H. destruct H as (name & Hn & H).
  apply bind_result_ok_inv in H. destruct H as (cur & Hcur & H).
  apply bind_result_ok_inv in H. destruct H as (cost' & Hc' & H).
  apply bind_result_ok_inv in H. destruct H as (name' & Hn' & H).
  apply bind_result_ok_inv in H. destruct H as (cur' & Hcur' & H).
  inversion H. subst e. clear H. cbn [CostByService.cost CostByService.service_name
                                       CostByService.currency].
  apply row_get_ok in Hc, Hn.
  destruct name as [| |name0]; try discriminate Hn'. inversion Hn'. subst name0.
  destruct cur as [| |cur0]; try discriminate Hcur'. inversion Hcur'. subst cur0.
  exists cost. split; [exact Hc|]. split; [|split; [exact Hn|]].
  - destruct cost as [n|x|str]; simpl in Hc'.
    + right. exists n. split; [reflexivity|].
      revert Hc'. destruct (Py.py_float n); simpl; intros Hc';
        [inversion Hc'; reflexivity | discriminate].
    + left. inversion Hc'. reflexivity.
    + discriminate.
  - destruct (Nat.ltb_spec 2 (length row)) as [Hlt|Hge].
    + apply row_get_ok in Hcur. rewrite Hcur. reflexivity.
    + inversion Hcur. subst cur'.
      assert (row !! 2%nat = None) as -> by (apply lookup_ge_None; lia).
      reflexivity.
Qed.

(** ** Daily rows *)

Definition daily_row_gives (env : Env) (row : Row) (e : DailyCost.t) : Prop :=
  exists cost date_val,
    row !! 0%nat = Some cost /\ row !! 1%nat = Some date_val
    /\ decode_date date_val = Ok (DailyCost.date e)
    /\ validate_float env cost = Ok (DailyCost.cost e)
    /\ DailyCost.currency e = "USD".

Lemma daily_entry_gives (env : Env) (row : Row) (e : DailyCost.t) :
  daily_entry env row = Ok e -> daily_row_gives env row e.
Proof.
  intros H. destruct (daily_entry_inv env row e H) as (cost & date_val & H0 & H1 & Hd & Hc).
  exists cost, date_val. repeat (split; [assumption|]).
  unfold daily_entry in H.
  repeat (apply bind_result_ok_inv in H; destruct H as (? & _ & H)).
  inversion H. reflexivity.
Qed.

(** X15. Every row becomes one entry. In a summary that [get_cost_summary]
    computes, [costs_by_service] holds, in sorted order, one entry for each
    service row, with the cost, the name and the currency of that row (USD
    for a row of two cells), and [daily_costs] one entry for each daily row,
    with its decoded date, its cost and the currency USD: no row is dropped
    or counted twice, and a row that cannot be read fails the call. *)
Theorem every_row_becomes_one_entry (env : Env) (days : Z) (s s' : State)
    (v : CachedValue) :
  get_cost_summary env days s = (Ok v, s') ->
  fst (cache_get env (summary_key days) s) = Ok None ->
  exists summary service_result daily_result entries dailies,
    v = Summary summary
    /\ fetched env service_result /\ fetched env daily_result
    /\ Forall2 service_row_gives (get_rows service_result) entries
    /\ Permutation (CostSummary.costs_by_service summary) entries
    /\ length (CostSummary.costs_by_service summary)
       = length (get_rows service_result)
    /\ Forall2 (daily_row_gives env) (get_rows daily_result) dailies
    /\ Permutation (CostSummary.daily_costs summary) dailies
    /\ length (CostSummary.daily_costs summary) = length (get_rows daily_result).
Proof.
  intros H Hmiss.
  destruct (get_cost_summary_computes env days s s' v H Hmiss)
    as (start_date & end_date & service_result & daily_result & summary
        & -> & Hf1 & Hf2 & Hb).
  destruct (build_summary_inv _ _ _ _ _ _ Hb) as (entries & dentries & He & Hd & ->).
  eexists. exists service_result, daily_result, entries, dentries.
  split; [reflexivity|].
  cbn [CostSummary.total_cost CostSummary.costs_by_service CostSummary.daily_costs].
  split; [exact Hf1|]. split; [exact Hf2|].
  split; [eapply Forall2_impl; [exact He | exact service_entry_gives]|].
  split; [apply SortFacts.sort_perm|].
  split.
  { rewrite (Permutation_length (SortFacts.sort_perm _ _ _ _)).
    symmetry. exact (Forall2_length _ _ _ He). }
  split; [eapply Forall2_impl; [exact Hd | exact (daily_entry_gives env)]|].
  split; [apply SortFacts.sort_perm|].
  rewrite (Permutation_length (SortFacts.sort_perm _ _ _ _)).
  symmetry. exact (Forall2_length _ _ _ Hd).
Qed.


(** The entries of one date. *)
Definition on_date (d : Calendar.date) (e : DailyCost.t) : bool :=
  (Calendar.year (DailyCost.date e) =? Calendar.year d)
  && (Calendar.month (DailyCost.date e) =? Calendar.month d)
  && (Calendar.day (DailyCost.date e) =? Calendar.day d).

Lemma on_date_flat (d : Calendar.date) (a b : DailyCost.t) :
  on_date d a = true -> on_date d b = true ->
  Calendar.ltb (DailyCost.date b) (DailyCost.date a) = false.
Proof.
  unfold on_date. intros Ha Hb.
  repeat (apply andb_prop in Ha; destruct Ha as [Ha ?]).
  repeat (apply andb_prop in Hb; destruct Hb as [Hb ?]).
  repeat match goal with
         | E : (_ =? _) = true |- _ => apply Z.eqb_eq in E
         end.
  apply not_true_is_false. intros Hlt. apply date_ltb_spec in Hlt. lia.
Qed.

(** X17. The sort of [daily_costs] is stable: when several daily rows have the
    same date (one row per currency, say), their entries stand in
    [daily_costs] in the order of their rows. *)
Theorem daily_costs_of_one_date_keep_row_order (env : Env) (days : Z) (s s' : State)
    (v : CachedValue) :
  get_cost_summary env days s = (Ok v, s') ->
  fst (cache_get env (summary_key days) s) = Ok None ->
  exists summary daily_result dailies,
    v = Summary summary
    /\ fetched env daily_result
    /\ Forall2 (daily_row_gives env) (get_rows daily_result) dailies
    /\ (forall d,
          List.filter (on_date d) (CostSummary.daily_costs summary)
          = List.filter (on_date d) dailies).
Proof.
  intros H Hmiss.
  destruct (get_cost_summary_computes env days s s' v H Hmiss)
    as (start_date & end_date & service_result & daily_result & summary
        & -> & _ & Hf2 & Hb).
  destruct (build_summary_inv _ _ _ _ _ _ Hb) as (entries & dentries & _ & Hd & ->).
  eexists. exists daily_result, dentries.
  split; [reflexivity|].
  cbn [CostSummary.daily_costs].
  split; [exact Hf2|].
  split; [eapply Forall2_impl; [exact Hd | exact (daily_entry_gives env)]|].
  intros d. apply SortFacts.sort_stable. apply on_date_flat.
Qed.

End RowFacts.

(** * Date cells that are integers *)
Module DateCellFacts.
Import AzureCostService.
Import Calendar DigitFacts CalendarFacts.

Lemma py_str_place_values (k : nat) (n : Z) :
  10 ^ Z.of_nat k <= n < 10 ^ Z.of_nat (S k) ->
  Py.py_str n = string_of_list_ascii (map Py.digit_char (place_values k n)).
Proof.
  intros Hn.
  assert (0 < 10 ^ Z.of_nat k) as Hpos by (apply Z.pow_pos_nonneg; lia).
  unfold Py.py_str. destruct (Z.ltb_spec n 0) as [Hneg|_]; [lia|].
  f_equal. apply decimal_digits_place_values; [exact Hn|].
  unfold Py.digits_fuel.
  assert (Z.of_nat k <= Z.log2 n).
  { apply Z.log2_le_pow2; [lia|].
    apply Z.le_trans with (10 ^ Z.of_nat k); [|lia].
    apply Z.pow_le_mono_l. lia. }
  lia.
Qed.

(** The digits [str] writes for a non-negative integer. *)
Lemma py_str_digits (n : Z) :
  0 <= n ->
  exists vs,
    Py.py_str n = string_of_list_ascii (map Py.digit_char vs)
    /\ vs <> [] /\ Forall is_digit_value vs /\ digits_value vs 0 = n.
Proof.
  intros Hn. unfold Py.py_str. destruct (Z.ltb_spec n 0) as [Hneg|_]; [lia|].
  destruct (decimal_digits_value _ n (digits_fuel_enough n Hn))
    as (vs & E & Hne & Hvs & Hval).
  exists vs. unfold Py.digits_fuel at 1. rewrite E. repeat split; assumption.
Qed.

Lemma digits_value_bounds (vs : list Z) (acc : Z) :
  Forall is_digit_value vs -> 0 <= acc ->
  acc * 10 ^ Z.of_nat (length vs) <= digits_value vs acc
  < (acc + 1) * 10 ^ Z.of_nat (length vs).
Proof.
  intros Hvs. revert acc. induction Hvs as [|v r Hv Hr IH]; intros acc Hacc.
  - simpl. lia.
  - change (digits_value (v :: r) acc) with (digits_value r (10 * acc + v)).
    unfold is_digit_value in Hv.
    specialize (IH (10 * acc + v) ltac:(lia)).
    simpl length. rewrite Nat2Z.inj_succ, Z.pow_succ_r by lia.
    assert (0 < 10 ^ Z.of_nat (length r)) by (apply Z.pow_pos_nonneg; lia).
    nia.
Qed.

Lemma Forall_take_drop (i j : nat) (vs : list Z) :
  Forall is_digit_value vs -> Forall is_digit_value (take j (drop i vs)).
Proof. intros H. apply Forall_take, Forall_drop, H. Qed.

(** The three fields of an integer date cell whose [str] has at least
    seven digits: the first four digits, the next two, and what there is of
    the two after them. *)
Lemma decode_date_fields (n : Z) (vs : list Z) :
  Py.py_str n = string_of_list_ascii (map Py.digit_char vs) ->
  Forall is_digit_value vs -> (7 <= length vs)%nat ->
  decode_date (CInt n)
  = or_raise ValueError
      (new_date (digits_value (take 4 vs) 0) (digits_value (take 2 (drop 4 vs)) 0)
         (digits_value (take 2 (drop 6 vs)) 0)).
Proof.
  intros E Hvs Hlen. unfold decode_date. rewrite E, !slice_digits.
  change (4 - 0)%nat with 4%nat. change (6 - 4)%nat with 2%nat.
  change (8 - 6)%nat with 2%nat. rewrite drop_0.
  rewrite !py_int_digits; try (apply Forall_take_drop; exact Hvs);
    try (apply Forall_take; exact Hvs).
  - reflexivity.
  - intros H. apply (f_equal length) in H.
    rewrite length_take, length_drop in H. cbn [length] in H. lia.
  - intros H. apply (f_equal length) in H.
    rewrite length_take, length_drop in H. cbn [length] in H. lia.
  - intros H. apply (f_equal length) in H.
    rewrite length_take in H. cbn [length] in H. lia.
Qed.

(** X18. An eight-digit integer is read as YYYYMMDD, and it is a date exactly
    when the constructor [date] accepts the three fields: an integer such as
    20240230 or 20241301 raises [ValueError]. *)
Theorem eight_digits_are_year_month_day (n : Z) :
  10000000 <= n < 100000000 ->
  decode_date (CInt n)
  = or_raise ValueError (new_date (n / 10000) (n / 100 mod 100) (n mod 100)).
Proof.
  intros Hn.
  rewrite (decode_date_fields n (place_values 7 n)).
  - simpl place_values. simpl take. unfold digits_value. simpl fold_left.
    f_equal. f_equal; CalendarFacts.div_lia.
  - apply (py_str_place_values 7). exact Hn.
  - apply place_values_digits.
  - rewrite length_place_values. lia.
Qed.

(** X19. A seven-digit integer is not refused: its last digit is taken as the
    day, so that YYYYMMD is read as the date YYYY-MM-0D. *)
Theorem seven_digits_have_a_one_digit_day (n : Z) :
  1000000 <= n < 10000000 ->
  decode_date (CInt n)
  = or_raise ValueError (new_date (n / 1000) (n / 10 mod 100) (n mod 10)).
Proof.
  intros Hn.
  rewrite (decode_date_fields n (place_values 6 n)).
  - simpl place_values. simpl take. unfold digits_value. simpl fold_left.
    f_equal. f_equal; CalendarFacts.div_lia.
  - apply (py_str_place_values 6). exact Hn.
  - apply place_values_digits.
  - rewrite length_place_values. lia.
Qed.

Lemma new_date_year_range (y m d : Z) : y <= 0 -> new_date y m d = None.
Proof.
  intros Hy. unfold new_date, valid_ymd, MINYEAR.
  destruct (Z.leb_spec 1 y); [lia | reflexivity].
Qed.

Lemma slice_minus (vs : list Z) :
  Py.slice 0 4 (String "-" (string_of_list_ascii (map Py.digit_char vs)))
  = String "-" (string_of_list_ascii (map Py.digit_char (take 3 vs))).
Proof.
  unfold Py.slice. simpl list_ascii_of_string.
  rewrite list_ascii_of_string_of_list_ascii. simpl.
  rewrite firstn_map. reflexivity.
Qed.

(** X20. An integer of fewer than seven digits, or a negative one, is never a
    date: decoding it raises [ValueError]. *)
Theorem short_or_negative_integers_are_refused (n : Z) :
  n < 1000000 -> decode_date (CInt n) = Raise ValueError.
Proof.
  intros Hn. unfold decode_date.
  destruct (Z.lt_ge_cases n 0) as [Hneg|Hpos].
  - destruct (py_str_digits (- n) ltac:(lia)) as (vs & E & Hne & Hvs & Hval).
    assert (Py.py_str n = String "-" (string_of_list_ascii (map Py.digit_char vs))) as En.
    { unfold Py.py_str in *. destruct (Z.ltb_spec n 0); [|lia].
      destruct (Z.ltb_spec (- n) 0); [lia|]. rewrite E. reflexivity. }
    rewrite En, slice_minus.
    rewrite py_int_minus_digits;
      [|apply Forall_take; exact Hvs|destruct vs; [congruence | discriminate]].
    simpl or_raise. cbn [bind_result].
    pose proof (digits_value_bounds (take 3 vs) 0 (Forall_take _ _ _ Hvs) ltac:(lia)) as B.
    match goal with
    | |- context [Py.py_int ?a] => destruct (Py.py_int a); [|reflexivity]
    end. simpl.
    match goal with
    | |- context [Py.py_int ?a] => destruct (Py.py_int a); [|reflexivity]
    end. simpl.
    rewrite new_date_year_range by lia. reflexivity.
  - assert (exists vs,
              Py.py_str n = string_of_list_ascii (map Py.digit_char vs)
              /\ (length vs <= 6)%nat) as (vs & E & Hlen).
    { assert (n = 0 \/ 10 ^ Z.of_nat 0 <= n < 10 ^ Z.of_nat 1
              \/ 10 ^ Z.of_nat 1 <= n < 10 ^ Z.of_nat 2
              \/ 10 ^ Z.of_nat 2 <= n < 10 ^ Z.of_nat 3
              \/ 10 ^ Z.of_nat 3 <= n < 10 ^ Z.of_nat 4
              \/ 10 ^ Z.of_nat 4 <= n < 10 ^ Z.of_nat 5
              \/ 10 ^ Z.of_nat 5 <= n < 10 ^ Z.of_nat 6) as Hk by (simpl; lia).
      destruct Hk as [->|[H|[H|[H|[H|[H|H]]]]]];
        [exists [0]; split; [reflexivity | simpl; lia]|..];
        eexists; (split; [apply py_str_place_values; exact H|]);
        rewrite length_place_values; lia. }
    rewrite E, !slice_digits.
    assert (drop 6 vs = []) as -> by (apply drop_ge; exact Hlen).
    rewrite take_nil.
    change (Py.py_int (string_of_list_ascii (map Py.digit_char []))) with (@None Z).
    repeat match goal with
           | |- context [or_raise ValueError (Py.py_int ?a)] =>
               destruct (Py.py_int a); simpl
           end; reflexivity.
Qed.

Lemma take_place_values (j k : nat) (n : Z) :
  take (S k) (place_values (k + j) n) = place_values k (n / 10 ^ Z.of_nat j).
Proof.
  revert n. induction j as [|j IH]; intros n.
  - rewrite Nat.add_0_r, Z.div_1_r.
    apply take_ge. rewrite length_place_values. lia.
  - rewrite Nat.add_succ_r. simpl place_values.
    rewrite take_app_le by (rewrite length_place_values; lia).
    rewrite IH, Z.div_div by (try apply Z.pow_pos_nonneg; lia).
    rewrite Nat2Z.inj_succ, Z.pow_succ_r by lia. reflexivity.
Qed.

(** X21. Of an integer of more than eight digits only the first eight are
    read: what follows YYYYMMDD is ignored. (The integer has [8 + j]
    digits, within the 4300 digits that [str] writes.) *)
Theorem digits_after_the_eighth_are_ignored (j : nat) (n : Z) :
  10 ^ Z.of_nat (7 + j) <= n < 10 ^ Z.of_nat (8 + j) -> (8 + j <= 4300)%nat ->
  decode_date (CInt n) = decode_date (CInt (n / 10 ^ Z.of_nat j)).
Proof.
  intros Hn _.
  assert (0 < 10 ^ Z.of_nat j) as Hpos by (apply Z.pow_pos_nonneg; lia).
  assert (10 ^ Z.of_nat 7 <= n / 10 ^ Z.of_nat j < 10 ^ Z.of_nat 8) as Hp.
  { rewrite !Nat2Z.inj_add, !Z.pow_add_r in Hn by lia.
    split; [apply Z.div_le_lower_bound; lia | apply Z.div_lt_upper_bound; lia]. }
  rewrite (decode_date_fields n (place_values (7 + j) n));
    [|apply (py_str_place_values (7 + j)); exact Hn
     |apply place_values_digits
     |rewrite length_place_values; lia].
  rewrite (decode_date_fields _ (place_values 7 (n / 10 ^ Z.of_nat j)));
    [|apply (py_str_place_values 7); exact Hp
     |apply place_values_digits
     |rewrite length_place_values; lia].
  rewrite <- (take_place_values j 7 n).
  set (vs := place_values (7 + j) n).
  rewrite take_take. change (4 `min` 8)%nat with 4%nat.
  replace (drop 4 (take 8 vs)) with (take 4 (drop 4 vs))
    by (rewrite (take_drop_commute vs 4 4); reflexivity).
  replace (drop 6 (take 8 vs)) with (take 2 (drop 6 vs))
    by (rewrite (take_drop_commute vs 2 6); reflexivity).
  rewrite !take_take. reflexivity.
Qed.

End DateCellFacts.

(** * The forecast at the edges *)
Module ForecastEdgeFacts.
Import AzureCostService ServiceFacts CacheKeyFacts AggregatorFacts ForecastFacts.
Import CallFacts.

(** In December 9999 there is no day four days after the 28th: the first
    step of [end_of_month] leaves the calendar. *)
Lemma end_of_month_december_9999 (today : Calendar.date) :
  Calendar.year today = 9999 -> Calendar.month today = 12 ->
  end_of_month today = Raise OverflowError.
Proof.
  destruct today as [y m d]. simpl. intros -> ->. reflexivity.
Qed.

(** The last day of the month, for every date of the calendar. *)
Lemma end_of_month_ok (today eom : Calendar.date) :
  Calendar.valid today = true -> end_of_month today = Ok eom ->
  eom = Calendar.mkdate (Calendar.year today) (Calendar.month today)
          (Calendar._days_in_month (Calendar.year today) (Calendar.month today))
  /\ 28 <= Calendar.day eom <= 31.
Proof.
  intros Hv H.
  destruct (Z.eq_dec (Calendar.year today) 9999) as [Hy|Hy];
    [destruct (Z.eq_dec (Calendar.month today) 12) as [Hm|Hm]|].
  - rewrite (end_of_month_december_9999 today Hy Hm) in H. discriminate H.
  - rewrite CalendarFacts.end_of_month_correct in H by (try assumption; lia).
    inversion H. split; [reflexivity|]. simpl.
    apply CalendarFacts._days_in_month_bounds.
    destruct (CalendarFacts.valid_bounds today Hv) as (_ & ? & _). assumption.
  - rewrite CalendarFacts.end_of_month_correct in H by (try assumption; lia).
    inversion H. split; [reflexivity|]. simpl.
    apply CalendarFacts._days_in_month_bounds.
    destruct (CalendarFacts.valid_bounds today Hv) as (_ & ? & _). assumption.
Qed.

Lemma valid_day_bounds (x : Calendar.date) :
  Calendar.valid x = true -> 1 <= Calendar.day x <= 31.
Proof.
  intros Hv. destruct (CalendarFacts.valid_bounds x Hv) as (_ & _ & ? & _).
  assumption.
Qed.

(** X22. The guard [days_elapsed > 0] of [get_forecast] always holds: the day
    of the month is between 1 and 31. A forecast that [get_forecast]
    computes is therefore always the cost divided by the day of the month,
    times the days of the month (28 to 31, the day of
    [forecast_period_end], the last day of the month of the first reading
    of the date), rounded to two decimals; the constant 0 of the other
    branch is never the result, and no division is by zero. *)
Theorem forecast_divides_by_the_day (env : Env) (s s' : State) (v : CachedValue) :
  clock_in_range env ->
  get_forecast env s = (Ok v, s') ->
  fst (cache_get env forecast_key s) = Ok None ->
  exists forecast today1 today2 result cost quotient,
    v = Forecast forecast
    /\ is_today env today1 /\ is_today env today2 /\ fetched env result
    /\ current_cost (get_rows result) = Ok cost
    /\ 1 <= Calendar.day today2 <= 31
    /\ CostForecast.forecast_period_end forecast
       = Calendar.mkdate (Calendar.year today1) (Calendar.month today1)
           (Calendar._days_in_month (Calendar.year today1) (Calendar.month today1))
    /\ 28 <= Calendar.day (CostForecast.forecast_period_end forecast) <= 31
    /\ truediv cost (Calendar.day today2) = Ok quotient
    /\ CostForecast.estimated_total forecast
       = Py.py_round2
           (quotient
            * float_of_int (Calendar.day (CostForecast.forecast_period_end forecast)))%float.
Proof.
  intros Hclock H Hmiss.
  destruct (get_forecast_computes env s s' v H Hmiss)
    as (today1 & today2 & result & cost & eom & est
        & Ht1 & Ht2 & Hf & He & Hc & Hl & ->).
  pose proof (today_valid env _ Hclock Ht1) as V1.
  pose proof (valid_day_bounds _ (today_valid env _ Hclock Ht2)) as D2.
  destruct (end_of_month_ok today1 eom V1 He) as [Heom Hdim].
  unfold linear_forecast in Hl.
  destruct (Z.ltb_spec 0 (Calendar.day today2)) as [_|Hle]; [|lia].
  apply bind_result_ok_inv in Hl. destruct Hl as (q & Hq & Hl). inversion Hl.
  eexists. exists today1, today2, result, cost, q.
  split; [reflexivity|].
  cbn [CostForecast.forecast_period_end CostForecast.estimated_total].
  repeat (split; [assumption|]). reflexivity.
Qed.

(** ** No cost so far *)







End ForecastEdgeFacts.

(** * Dates that leave the calendar *)
Module BoundsFacts.
Import AzureCostService ServiceFacts CacheKeyFacts ForecastFacts.
Import CallFacts ForecastEdgeFacts.
Local Open Scope service_scope.



(** X25. The forecast in December 9999. On any day of that month a call of
    [get_forecast] that finds nothing in the cache raises [OverflowError]:
    the 28th plus four days is after the last day of the calendar. No
    request is sent. *)
Theorem no_forecast_in_december_9999 (env : Env) (s s1 : State) :
  cache_get env forecast_key s = (Ok None, s1) ->
  let today' := Calendar.date_of_timestamp (clock env (clock_reads s1)) in
  Calendar.year today' = 9999 -> Calendar.month today' = 12 ->
  get_forecast env s = (Raise OverflowError, snd (today env s1))
  /\ requests (snd (today env s1)) = requests s.
Proof.
  intros Hget today' Hy Hm. unfold get_forecast.
  rewrite (bind_ok _ _ _ _ _ Hget).
  assert (today env s1 = (Ok today', snd (today env s1))) as Ht by reflexivity.
  rewrite (bind_ok _ _ _ _ _ Ht).
  rewrite (end_of_month_december_9999 today' Hy Hm).
  split; [reflexivity|].
  rewrite cache_get_run in Hget.
  destruct (CostCache._cache (_cache s) !! forecast_key) as [[ts v]|].
  - destruct (CostCache.fresh _ _ ts); inversion Hget. reflexivity.
  - inversion Hget. reflexivity.
Qed.

End BoundsFacts.

(** * The routes *)
Module RouteFacts.
Import AzureCostService ServiceFacts CacheKeyFacts AggregatorFacts ForecastFacts.
Import CallFacts.

(** ** Any sequence of requests *)
Inductive Request : Type :=
| GetHealth
| GetCosts (days : option Z)
| GetForecast
| GetCurrentMonthCosts.

Section Requests.
Variables (env : Env) (settings : Config.Settings) (str : PyErr -> string).

(** The state of the service after a request. *)
Definition serve (r : Request) (s : State) : State :=
  match r with
  | GetHealth => snd (Main.health_check settings s)
  | GetCosts days => snd (Main.get_costs env str days s)
  | GetForecast => snd (Main.get_forecast env str s)
  | GetCurrentMonthCosts => snd (Main.get_current_month_costs env str s)
  end.

Definition serve_all (requests : list Request) : State :=
  fold_left (fun s r => serve r s) requests Main.lifespan.

(** What a route makes of a call of the service. *)
Lemma try_call_run {A : Type} (call : M A) (s : State) :
  Main.try_call str call s
  = (match fst (call s) with
     | Ok a => Main.Returned a
     | Raise e => Main.HTTPException 500 (str e)
     end, snd (call s)).
Proof. unfold Main.try_call. destruct (call s) as [[a|e] s1]; reflexivity. Qed.

Definition typed (s : State) : Prop :=
  well_typed s /\ CostCache.ttl (_cache s) = 300.

Lemma typed_get_cost_summary (days : Z) (s : State) :
  typed s -> typed (snd (get_cost_summary env days s)).
Proof. exact (run_call_well_typed env (CallGetCostSummary days) s). Qed.

Lemma typed_get_forecast (s : State) : typed s -> typed (snd (get_forecast env s)).
Proof. exact (run_call_well_typed env CallGetForecast s). Qed.

Lemma typed_today (s : State) : typed s -> typed (snd (today env s)).
Proof. intros H. exact H. Qed.

Lemma serve_typed (r : Request) (s : State) : typed s -> typed (serve r s).
Proof.
  intros H. destruct r as [|days| |]; simpl.
  - exact H.
  - unfold Main.get_costs.
    destruct ((1 <=? _) && (_ <=? 365)); [|exact H].
    rewrite try_call_run. simpl. apply typed_get_cost_summary, H.
  - unfold Main.get_forecast. rewrite try_call_run. simpl.
    apply typed_get_forecast, H.
  - unfold Main.get_current_month_costs.
    change (today env s) with (Ok (Calendar.date_of_timestamp (clock env (clock_reads s))),
                               snd (today env s)).
    cbv iota. rewrite try_call_run. simpl.
    apply typed_get_cost_summary, typed_today, H.
Qed.

Lemma serve_all_typed (requests : list Request) : typed (serve_all requests).
Proof.
  unfold serve_all.
  assert (typed Main.lifespan) as H0.
  { split; [|reflexivity]. intros key ts v H. simpl in H.
    rewrite lookup_empty in H. discriminate H. }
  revert H0. generalize Main.lifespan.
  induction requests as [|r rest IH]; intros s H; simpl; [exact H|].
  apply IH, serve_typed, H.
Qed.

End Requests.

Lemma current_month_after_today (env : Env) (str : PyErr -> string) (s : State) :
  Main.get_current_month_costs env str s
  = (let (o, s2) :=
       Main.try_call str
         (get_cost_summary env
            (Calendar.day (Calendar.date_of_timestamp (clock env (clock_reads s)))))
         (snd (today env s)) in
     (Main.cost_summary_model o, s2)).
Proof. reflexivity. Qed.

(** X26. How the routes answer. After any sequence of requests to a new
    application: [GET /api/v1/costs] with [days] (30 when absent) outside 1
    to 365 is refused (422) without a call of the service; with [days] in
    range it answers with the summary that [get_cost_summary] returns, or,
    when the service raises [e], with status 500 and the text of [e] as
    detail. [GET /api/v1/costs/forecast] answers in the same way with the
    forecast of [get_forecast], and [GET /api/v1/costs/current-month] with
    the summary for the day of the month as [days]. What the service
    returns always fits the response model: no exception leaves a
    handler. *)
Theorem routes_answer_200_500_or_422 (env : Env) (settings : Config.Settings)
    (str : PyErr -> string) (requests : list Request) :
  let s := serve_all env settings str requests in
  (forall days,
     let d := match days with Some d => d | None => 30 end in
     (1 <= d <= 365 ->
      match get_cost_summary env d s with
      | (Ok v, s') =>
          exists summary,
            v = Summary summary
            /\ Main.get_costs env str days s = (Main.Returned summary, s')
      | (Raise e, s') =>
          Main.get_costs env str days s = (Main.HTTPException 500 (str e), s')
      end)
     /\ (~ 1 <= d <= 365 ->
         Main.get_costs env str days s = (Main.RequestValidationError, s)))
  /\ match get_forecast env s with
     | (Ok v, s') =>
         exists forecast,
           v = Forecast forecast
           /\ Main.get_forecast env str s = (Main.Returned forecast, s')
     | (Raise e, s') =>
         Main.get_forecast env str s = (Main.HTTPException 500 (str e), s')
     end
  /\ match get_cost_summary env
             (Calendar.day (Calendar.date_of_timestamp (clock env (clock_reads s))))
             (snd (today env s)) with
     | (Ok v, s') =>
         exists summary,
           v = Summary summary
           /\ Main.get_current_month_costs env str s = (Main.Returned summary, s')
     | (Raise e, s') =>
         Main.get_current_month_costs env str s
         = (Main.HTTPException 500 (str e), s')
     end.
Proof.
  cbv zeta. destruct (serve_all_typed env settings str requests) as [Hs _].
  set (s := serve_all env settings str requests) in *. clearbody s.
  split; [|split].
  - intros days. split.
    + intros Hd. unfold Main.get_costs.
      destruct (Z.leb_spec 1 (match days with Some d => d | None => 30 end)); [|lia].
      destruct (Z.leb_spec (match days with Some d => d | None => 30 end) 365); [|lia].
      simpl andb. cbv iota. unfold Main.try_call.
      destruct (get_cost_summary env _ s) as [[v|e] s'] eqn:E; [|reflexivity].
      destruct (summary_result_typed env _ s s' v Hs E) as [summary ->].
      exists summary. split; reflexivity.
    + intros Hd. unfold Main.get_costs.
      destruct (Z.leb_spec 1 (match days with Some d => d | None => 30 end));
        [|reflexivity].
      destruct (Z.leb_spec (match days with Some d => d | None => 30 end) 365);
        [lia | reflexivity].
  - unfold Main.get_forecast, Main.try_call.
    destruct (get_forecast env s) as [[v|e] s'] eqn:E; [|reflexivity].
    destruct (forecast_result_typed env s s' v Hs E) as [forecast ->].
    exists forecast. split; reflexivity.
  - rewrite current_month_after_today. unfold Main.try_call.
    assert (well_typed (snd (today env s))) as Hs' by exact Hs.
    generalize dependent (snd (today env s)). intros s1 Hs1.
    generalize (Calendar.day (Calendar.date_of_timestamp (clock env (clock_reads s)))).
    intros d.
    destruct (get_cost_summary env d s1) as [[v|e] s'] eqn:E; [|reflexivity].
    destruct (summary_result_typed env _ s1 s' v Hs1 E) as [summary ->].
    exists summary. split; reflexivity.
Qed.

(** X27. [GET /api/v1/costs/current-month] is [GET /api/v1/costs] with the day
    of the month as [days]: it reads the date, and from there on it is the
    other route with [days] between 1 and 31, which the check of [days]
    always lets through. Both routes use the cache entry of that day
    count. *)
Theorem current_month_is_costs_of_the_day (env : Env) (str : PyErr -> string)
    (s : State) :
  clock_in_range env ->
  let today' := Calendar.date_of_timestamp (clock env (clock_reads s)) in
  1 <= Calendar.day today' <= 31
  /\ Main.get_current_month_costs env str s
     = Main.get_costs env str (Some (Calendar.day today')) (snd (today env s)).
Proof.
  intros Hclock today'.
  assert (1 <= Calendar.day today' <= 31) as Hd.
  { apply ForecastEdgeFacts.valid_day_bounds, (today_valid env _ Hclock).
    eexists. reflexivity. }
  split; [exact Hd|].
  unfold Main.get_current_month_costs, Main.get_costs.
  change (today env s) with (Ok today', snd (today env s)). cbv iota.
  destruct (Z.leb_spec 1 (Calendar.day today')); [|lia].
  destruct (Z.leb_spec (Calendar.day today') 365); [|lia].
  reflexivity.
Qed.

(** The month before month [m] of year [y]. *)
Definition previous_month (y m : Z) : Z * Z :=
  if m =? 1 then (y - 1, 12) else (y, m - 1).

Lemma day_before_the_first (x : Calendar.date) (y m : Z) :
  Calendar.valid x = true -> 1 <= y -> 1 <= m <= 12 ->
  Calendar.toordinal x = Calendar._ymd2ord y m 1 - 1 ->
  x = Calendar.mkdate (fst (previous_month y m)) (snd (previous_month y m))
        (Calendar._days_in_month (fst (previous_month y m)) (snd (previous_month y m))).
Proof.
  intros Hv Hy Hm Ho.
  pose proof (OrdinalFacts.toordinal_bounds x Hv) as Hb.
  assert (~ (y = 1 /\ m = 1)) as Hfirst.
  { intros [-> ->]. rewrite Ho in Hb. change (Calendar._ymd2ord 1 1 1) with 1 in Hb. lia. }
  assert (1 <= fst (previous_month y m) /\ 1 <= snd (previous_month y m) <= 12
          /\ CalendarFacts.next_month (fst (previous_month y m)) (snd (previous_month y m))
             = (y, m)) as (Hpy & Hpm & Hnext).
  { unfold previous_month, CalendarFacts.next_month.
    destruct (Z.eqb_spec m 1) as [->|Hne]; simpl.
    - repeat split; try lia. f_equal. lia.
    - destruct (Z.eqb_spec (m - 1) 12); [lia|].
      repeat split; try lia. f_equal. lia. }
  destruct (CalendarFacts.steps_hold_always _ _ Hpy Hpm)
    as (y' & m' & En & _ & _ & H3 & H4 & H5).
  rewrite Hnext in En. inversion En. subst y' m'.
  rewrite <- (OrdinalFacts._ord2ymd_toordinal x Hv), Ho.
  generalize dependent (Calendar._ord2ymd (Calendar._ymd2ord y m 1 - 1)).
  intros last H3 H4 H5. destruct last as [ly lm ld]. simpl in *. congruence.
Qed.

Lemma current_month_period (env : Env) (str : PyErr -> string) (s s1 s' : State)
    (today' : Calendar.date) (summary : CostSummary.t) :
  clock_in_range env -> Calendar.valid today' = true ->
  today env s = (Ok today', s1) ->
  Main.get_current_month_costs env str s = (Main.Returned summary, s') ->
  fst (cache_get env (summary_key (Calendar.day today')) s1) = Ok None ->
  CostSummary.period_end summary = today' ->
  CostSummary.period_start summary
  = Calendar.mkdate
      (fst (previous_month (Calendar.year today') (Calendar.month today')))
      (snd (previous_month (Calendar.year today') (Calendar.month today')))
      (Calendar._days_in_month
         (fst (previous_month (Calendar.year today') (Calendar.month today')))
         (snd (previous_month (Calendar.year today') (Calendar.month today'))))
  /\ Calendar.toordinal (CostSummary.period_end summary)
     - Calendar.toordinal (CostSummary.period_start summary)
     = Calendar.day today'.
Proof.
  intros Hclock Hv Ht H Hmiss Hend.
  destruct (CalendarFacts.valid_bounds today' Hv) as (Hy & Hm & Hd & _).
  unfold Main.get_current_month_costs in H. rewrite Ht in H.
  unfold Main.try_call in H.
  destruct (get_cost_summary env (Calendar.day today') s1)
    as [[v|e] s2] eqn:E; [|discriminate H].
  destruct (summary_computed env _ _ _ _ E Hmiss)
    as (summary0 & sa & sq & sb & service_result & daily_result
        & -> & _ & _ & Hstart & _).
  simpl in H. inversion H. subst summary0 s2. clear H.
  destruct (sub_days_ordinal _ _ _ Hstart) as [Hvs Ho].
  assert (Calendar.toordinal (CostSummary.period_end summary)
          - Calendar.toordinal (CostSummary.period_start summary)
          = Calendar.day today') as Ho' by lia.
  clear Ho. rename Ho' into Ho.
  split; [|exact Ho].
  apply day_before_the_first; [exact Hvs | lia | exact Hm|].
  rewrite Hend in Ho. destruct today' as [y m d].
  unfold Calendar.toordinal in Ho at 1. cbn [Calendar.year Calendar.month Calendar.day] in *.
  unfold Calendar._ymd2ord in *. lia.
Qed.

(** X28. The period of "current month" starts a day early. A summary that
    [GET /api/v1/costs/current-month] computes on day [d] of a month asks
    for [d] days back from today, and today minus [d] days is the last day
    of the month before: when the service reads the same date as the
    route, [period_end] is today and [period_start] is the last day of the
    previous month, not the first day of this one. *)
Theorem current_month_starts_a_day_early (env : Env) (str : PyErr -> string)
    (s s' : State) (summary : CostSummary.t) :
  clock_in_range env ->
  let today' := Calendar.date_of_timestamp (clock env (clock_reads s)) in
  Main.get_current_month_costs env str s = (Main.Returned summary, s') ->
  fst (cache_get env (summary_key (Calendar.day today')) (snd (today env s))) = Ok None ->
  CostSummary.period_end summary = today' ->
  let previous := previous_month (Calendar.year today') (Calendar.month today') in
  CostSummary.period_start summary
  = Calendar.mkdate (fst previous) (snd previous)
      (Calendar._days_in_month (fst previous) (snd previous))
  /\ Calendar.toordinal (CostSummary.period_end summary)
     - Calendar.toordinal (CostSummary.period_start summary)
     = Calendar.day today'.
Proof.
  intros Hclock today' H Hmiss Hend previous.
  apply (current_month_period env str s (snd (today env s)) s' today' summary Hclock);
    try assumption; [|reflexivity].
  apply (today_valid env _ Hclock). eexists. reflexivity.
Qed.

End RouteFacts.

(** * The choice of the credential *)
Module CredentialFacts.
Import Config Credential.

(** A value is set: it is a string, and not the empty one. *)
Definition is_set (v : option string) : Prop := exists s, v = Some s /\ s <> "".

Lemma truthy_is_set (v : option string) : truthy v = true <-> is_set v.
Proof.
  destruct v as [[|c s]|]; simpl; split; try discriminate.
  - intros (s & E & Hne). inversion E. congruence.
  - intros _. eexists. split; [reflexivity | discriminate].
  - intros _. reflexivity.
  - intros (s & E & _). discriminate E.
Qed.

(** X29. The service logs in as a service principal exactly when the tenant,
    the client id and the client secret are all three set, and then with
    exactly these three values; when one of them is absent or empty, the
    other two are ignored and the credential is that of the Azure CLI. The
    constructor [ClientSecretCredential] is never given an absent or empty
    argument. *)
Theorem credential_follows_the_settings (settings : Settings) :
  (is_set (azure_tenant_id settings) /\ is_set (azure_client_id settings)
   /\ is_set (azure_client_secret settings)
   /\ of_settings settings
      = ClientSecretCredential (azure_tenant_id settings) (azure_client_id settings)
          (azure_client_secret settings))
  \/ (~ (is_set (azure_tenant_id settings) /\ is_set (azure_client_id settings)
         /\ is_set (azure_client_secret settings))
      /\ of_settings settings = AzureCliCredential).
Proof.
  unfold of_settings, use_service_principal. simpl forallb.
  rewrite andb_true_r.
  destruct (truthy (azure_tenant_id settings)) eqn:E1;
    destruct (truthy (azure_client_id settings)) eqn:E2;
    destruct (truthy (azure_client_secret settings)) eqn:E3; simpl;
    try (right; split; [|reflexivity]; intros (H1 & H2 & H3);
         apply truthy_is_set in H1, H2, H3; congruence).
  left. rewrite <- !truthy_is_set. repeat split; assumption.
Qed.

End CredentialFacts.

(** * Scenarios *)
Module Scenarios.
Import AzureCostService ServiceFacts CacheKeyFacts AggregatorFacts ForecastFacts.

Definition answer (status : Z) (header : option string) (rows : option (list Row))
    : Response :=
  {| status_code := status;
     retry_after := header;
     json := match rows with
             | Some rows => Some {| properties_rows := Some rows |}
             | None => None
             end |}.

(** Noon of 2024-01-15, in microseconds. *)
Definition noon_2024_01_15 : Z := (738900 - 1) * Calendar.US_PER_DAY + 43200000000.

Definition world (api : nat -> PostOutcome) : Env :=
  {| azure_subscription_id := "sub";
     clock := fun _ => noon_2024_01_15;
     billing_api := api;
     credential := fun _ => Some "token";
     float_of_str := fun _ => None |}.

(** The end-to-end scenario of the specification. *)
Definition service_rows : list Row :=
  [[CFloat 120.5; CStr "Compute"]; [CFloat 30; CStr "Storage"]].
Definition daily_rows : list Row :=
  [[CFloat 10; CInt 20240101]; [CFloat 5; CInt 20240102]].

Definition end_to_end : Env :=
  world (fun n =>
    match n with
    | O => Responded (answer 200 None (Some service_rows))
    | 1%nat => Responded (answer 200 None (Some daily_rows))
    | _ => Responded (answer 200 None (Some [[CFloat 150]]))
    end).

Definition end_to_end_summary : CostSummary.t :=
  CostSummary.mk "sub" "virtual-bpm-prod"
    (Calendar.mkdate 2023 12 16) (Calendar.mkdate 2024 1 15)
    150.5 "USD"
    [CostByService.mk "Compute" 120.5 "USD"; CostByService.mk "Storage" 30 "USD"]
    [DailyCost.mk (Calendar.mkdate 2024 1 1) 10 "USD";
     DailyCost.mk (Calendar.mkdate 2024 1 2) 5 "USD"].

Example end_to_end_result :
  fst (get_cost_summary end_to_end 30 __init__) = Ok (Summary end_to_end_summary).
Proof. vm_compute. reflexivity. Qed.

Lemma end_to_end_run :
  get_cost_summary end_to_end 30 __init__
  = (Ok (Summary end_to_end_summary), snd (get_cost_summary end_to_end 30 __init__)).
Proof. vm_compute. reflexivity. Defined.

Lemma total_cost_witness :
  exists summary service_result entries,
    Summary end_to_end_summary = Summary summary
    /\ fetched end_to_end service_result
    /\ Forall2 (fun row e => service_entry row = Ok e) (get_rows service_result) entries
    /\ CostSummary.total_cost summary
       = running_sum (map CostByService.cost entries) 0%float
    /\ Permutation (CostSummary.costs_by_service summary) entries.
Proof.
  apply (total_cost_is_running_sum end_to_end 30 __init__ _ _ end_to_end_run).
  vm_compute. reflexivity.
Defined.

(** ** Rate limiting *)

Definition throttled : Response := answer 429 None None.

(** A billing API that answers every request with 429. *)
Definition always_throttled : Env := world (fun _ => Responded throttled).

(** The state after the token was fetched. *)
Definition with_token (env : Env) : State := snd (_get_token env __init__).



(** The retry scenario of the specification: 429 with Retry-After: 5, then
    200 on the second of three attempts. *)
Definition month_rows : list Row := [[CFloat 150]].

Definition throttled_once : Env :=
  world (fun n =>
    match n with
    | O => Responded (answer 429 (Some "5") None)
    | _ => Responded (answer 200 None (Some month_rows))
    end).





(** ** The token *)
Lemma token_fetched_once_witness :
  let s1 := with_token end_to_end in
  let s2 := run_calls end_to_end
              [CallGetCostSummary 30; CallGetForecast; CallGetToken] s1 in
  _token s1 = Some "token"
  /\ _token s2 = Some "token"
  /\ _get_token end_to_end s2 = (Ok "token", s2)
  /\ token_fetches s2 = token_fetches s1.
Proof.
  apply (token_fetched_once end_to_end __init__ (with_token end_to_end) "token"
           [CallGetCostSummary 30; CallGetForecast; CallGetToken]).
  reflexivity.
Defined.


(** ** Sums of floats *)

(** The floats nearest to 0.1, 0.2 and 0.3. *)
Definition tenth : float := 0x1.999999999999ap-4.
Definition two_tenths : float := 0x1.999999999999ap-3.
Definition three_tenths : float := 0x1.3333333333333p-2.

Definition tenths : Env :=
  world (fun n =>
    match n with
    | O => Responded (answer 200 None
             (Some [[CFloat tenth; CStr "A"]; [CFloat two_tenths; CStr "B"];
                    [CFloat three_tenths; CStr "C"]]))
    | _ => Responded (answer 200 None (Some []))
    end).

(** C4 fails on the code: for the service rows 0.1, 0.2, 0.3 the
    [total_cost] is 0.1 + 0.2 + 0.3 = 0.6000000000000001, while the sum over
    [costs_by_service], sorted to 0.3, 0.2, 0.1, is 0.6. *)
Lemma total_cost_differs_from_sorted_sum :
  exists summary,
    fst (get_cost_summary tenths 30 __init__) = Ok (Summary summary)
    /\ CostSummary.total_cost summary = 0x1.3333333333334p-1%float
    /\ running_sum (map CostByService.cost (CostSummary.costs_by_service summary))
         0%float = 0x1.3333333333333p-1%float
    /\ PrimFloat.eqb (CostSummary.total_cost summary)
         (running_sum (map CostByService.cost (CostSummary.costs_by_service summary))
            0%float) = false.
Proof.
  eexists. split; [vm_compute; reflexivity|].
  split; [vm_compute; reflexivity|].
  split; vm_compute; reflexivity.
Qed.

(** ** Sorting *)

(** Service rows with a tie and a credit. *)
Definition mixed_rows : list Row :=
  [[CFloat 30; CStr "Storage"]; [CFloat 120.5; CStr "Compute"];
   [CFloat (-5); CStr "Credit"; CStr "EUR"]; [CFloat 30; CStr "Network"]].

(** Daily rows with both forms of date. *)
Definition mixed_dates : list Row :=
  [[CFloat 10; CStr "2024-01-15T00:00:00Z"]; [CFloat 5; CInt 20240102];
   [CFloat 7; CInt 20240115]].

Definition mixed : Env :=
  world (fun n =>
    match n with
    | O => Responded (answer 200 None (Some mixed_rows))
    | _ => Responded (answer 200 None (Some mixed_dates))
    end).

Definition mixed_summary : CostSummary.t :=
  CostSummary.mk "sub" "virtual-bpm-prod"
    (Calendar.mkdate 2023 12 16) (Calendar.mkdate 2024 1 15)
    175.5 "USD"
    [CostByService.mk "Compute" 120.5 "USD"; CostByService.mk "Storage" 30 "USD";
     CostByService.mk "Network" 30 "USD"; CostByService.mk "Credit" (-5) "EUR"]
    [DailyCost.mk (Calendar.mkdate 2024 1 2) 5 "USD";
     DailyCost.mk (Calendar.mkdate 2024 1 15) 10 "USD";
     DailyCost.mk (Calendar.mkdate 2024 1 15) 7 "USD"].

Lemma mixed_run :
  get_cost_summary mixed 30 __init__
  = (Ok (Summary mixed_summary), snd (get_cost_summary mixed 30 __init__)).
Proof. vm_compute. reflexivity. Defined.


Lemma daily_costs_witness :
  represents (CInt 20240115) (Calendar.mkdate 2024 1 15)
  /\ represents (CStr "2024-01-15T00:00:00Z") (Calendar.mkdate 2024 1 15)
  /\ decode_date (CInt 20240115) = Ok (Calendar.mkdate 2024 1 15)
  /\ decode_date (CStr "2024-01-15T00:00:00Z") = Ok (Calendar.mkdate 2024 1 15)
  /\ StronglySorted
       (fun a b => Calendar.ltb (DailyCost.date b) (DailyCost.date a) = false)
       (CostSummary.daily_costs mixed_summary).
Proof.
  assert (represents (CInt 20240115) (Calendar.mkdate 2024 1 15)) as R1.
  { split; [reflexivity|]. left. split; [simpl; lia | reflexivity]. }
  assert (represents (CStr "2024-01-15T00:00:00Z") (Calendar.mkdate 2024 1 15)) as R2.
  { split; [reflexivity|]. right. exists "T00:00:00Z". reflexivity. }
  destruct (daily_costs_normalized_sorted mixed 30 __init__ _ _ mixed_run)
    as (Hdecode & summary & daily_result & entries & E & _ & _ & _ & _ & Hsorted);
    [vm_compute; reflexivity|].
  inversion E. subst summary.
  split; [exact R1|]. split; [exact R2|].
  split; [exact (Hdecode _ _ R1)|]. split; [exact (Hdecode _ _ R2) | exact Hsorted].
Defined.

(** ** The forecast *)

(** On 2024-01-15 with 150.0 spent, the estimate for January is
    150 / 15 * 31. *)
Example forecast_mid_january :
  fst (get_forecast throttled_once __init__)
  = Ok (Forecast (CostForecast.mk "sub" (Calendar.mkdate 2024 1 31) 310 "USD")).
Proof. vm_compute. reflexivity. Qed.

End Scenarios.

(** * Further scenarios *)
Module FurtherScenarios.
Import AzureCostService ServiceFacts CacheKeyFacts AggregatorFacts ForecastFacts.
Import Scenarios.
Import CacheLifetime ExecutorFacts CallFacts RowFacts DateCellFacts.
Import ForecastEdgeFacts BoundsFacts RouteFacts.

(** ** The cache *)

Definition some_forecast : CachedValue :=
  Forecast (CostForecast.mk "sub" (Calendar.mkdate 2024 1 31) 310 "USD").


Definition expired : CostCache.t :=
  CostCache.set 0 "forecast" some_forecast (CostCache.mk 300 ∅).

(** The clock is set back after the entry was found expired. *)
Lemma miss_is_final_witness :
  CostCache._cache (snd (CostCache.get 300000000 "forecast" expired)) !! "forecast" = None
  /\ CostCache.get 5 "forecast" (snd (CostCache.get 300000000 "forecast" expired))
     = (None, snd (CostCache.get 300000000 "forecast" expired)).
Proof.
  apply (miss_is_final 300000000 5 "forecast" expired). reflexivity.
Defined.

(** ** The executor *)



Lemma throttled_once_query :
  _query_costs throttled_once forecast_query 3 __init__
  = (Ok {| properties_rows := Some month_rows |},
     snd (_query_costs throttled_once forecast_query 3 __init__)).
Proof. vm_compute. reflexivity. Defined.

Lemma body_only_from_success_witness :
  (3 <= 0 /\ {| properties_rows := Some month_rows |} = empty_dict
   /\ requests (snd (_query_costs throttled_once forecast_query 3 __init__))
      = requests __init__)
  \/ (exists r,
        (requests __init__
         < requests (snd (_query_costs throttled_once forecast_query 3 __init__)))%nat
        /\ billing_api throttled_once
             (Nat.pred (requests (snd (_query_costs throttled_once forecast_query 3
                                         __init__))))
           = Responded r
        /\ 200 <= status_code r <= 299
        /\ json r = Some {| properties_rows := Some month_rows |}).
Proof.
  apply (body_only_from_success throttled_once forecast_query 3 __init__ _ _
           throttled_once_query).
Defined.

(** A credential that raises. *)
Definition logged_out : Env :=
  {| azure_subscription_id := "sub";
     clock := fun _ => noon_2024_01_15;
     billing_api := fun _ => Responded (answer 200 None (Some month_rows));
     credential := fun _ => None;
     float_of_str := fun _ => None |}.

Lemma credential_failure_witness :
  let s' := snd (_query_costs logged_out forecast_query 3 __init__) in
  fst (_query_costs logged_out forecast_query 3 __init__)
  = Raise ClientAuthenticationError
  /\ requests s' = requests __init__ /\ _token s' = None
  /\ token_fetches s' = S (token_fetches __init__)
  /\ token_fetches (snd (_get_token logged_out s')) = S (S (token_fetches __init__)).
Proof.
  apply (credential_failure_is_not_kept logged_out forecast_query 3 __init__);
    reflexivity.
Defined.

(** ** Calls *)

Definition after_summary : State := snd (get_cost_summary end_to_end 30 __init__).

Lemma summary_served_witness :
  exists s2,
    get_cost_summary end_to_end 30 after_summary = (Ok (Summary end_to_end_summary), s2)
    /\ requests s2 = requests after_summary
    /\ trace s2 = trace after_summary.
Proof.
  destruct (summary_served_from_cache end_to_end 30 __init__ after_summary
              (Summary end_to_end_summary) eq_refl end_to_end_run)
    as (ts & _ & Hts & Hagain).
  rewrite (Hts eq_refl) in Hagain.
  destruct (Hagain ltac:(vm_compute; reflexivity))
    as (s2 & E & _ & Hr & _ & Ht & _).
  exists s2. split; [exact E | split; [exact Hr | exact Ht]].
Defined.

Definition january_forecast : CachedValue :=
  Forecast (CostForecast.mk "sub" (Calendar.mkdate 2024 1 31) 310 "USD").

Lemma throttled_once_forecast :
  get_forecast throttled_once __init__
  = (Ok january_forecast, snd (get_forecast throttled_once __init__)).
Proof. vm_compute. reflexivity. Defined.

Lemma forecast_served_witness :
  exists s2,
    get_forecast throttled_once (snd (get_forecast throttled_once __init__))
    = (Ok january_forecast, s2)
    /\ requests s2 = requests (snd (get_forecast throttled_once __init__)).
Proof.
  destruct (forecast_served_from_cache throttled_once __init__
              (snd (get_forecast throttled_once __init__))
              january_forecast eq_refl throttled_once_forecast)
    as (ts & _ & Hts & Hagain).
  rewrite (Hts eq_refl) in Hagain.
  destruct (Hagain ltac:(vm_compute; reflexivity)) as (s2 & E & _ & Hr & _).
  exists s2. split; [exact E | exact Hr].
Defined.

Lemma throttled_summary :
  get_cost_summary always_throttled 30 __init__
  = (Raise (HTTPStatusError throttled),
     snd (get_cost_summary always_throttled 30 __init__)).
Proof. vm_compute. reflexivity. Defined.

Lemma failed_summary_witness :
  CostCache._cache (_cache (snd (get_cost_summary always_throttled 30 __init__)))
    !! summary_key 30 = None
  /\ cache_get always_throttled (summary_key 30)
       (snd (get_cost_summary always_throttled 30 __init__))
     = (Ok None, snd (get_cost_summary always_throttled 30 __init__)).
Proof.
  apply (failed_summary_leaves_no_entry always_throttled 30 __init__ _ _
           throttled_summary).
Defined.

Lemma throttled_forecast :
  get_forecast always_throttled __init__
  = (Raise (HTTPStatusError throttled), snd (get_forecast always_throttled __init__)).
Proof. vm_compute. reflexivity. Defined.

Lemma failed_forecast_witness :
  CostCache._cache (_cache (snd (get_forecast always_throttled __init__)))
    !! forecast_key = None
  /\ cache_get always_throttled forecast_key (snd (get_forecast always_throttled __init__))
     = (Ok None, snd (get_forecast always_throttled __init__)).
Proof.
  apply (failed_forecast_leaves_no_entry always_throttled __init__ _ _
           throttled_forecast).
Defined.

Lemma world_clock_in_range (api : nat -> PostOutcome) : clock_in_range (world api).
Proof. intros n. vm_compute. split; [discriminate | reflexivity]. Defined.

Lemma summary_period_witness :
  exists summary new,
    Summary end_to_end_summary = Summary summary
    /\ is_today end_to_end (CostSummary.period_end summary)
    /\ Calendar.valid (CostSummary.period_end summary) = true
    /\ Calendar.valid (CostSummary.period_start summary) = true
    /\ Calendar.toordinal (CostSummary.period_end summary)
       - Calendar.toordinal (CostSummary.period_start summary) = 30
    /\ trace after_summary = trace __init__ ++ new
    /\ Forall (carries (Calendar.isoformat (CostSummary.period_start summary),
                        Calendar.isoformat (CostSummary.period_end summary))) new.
Proof.
  apply (summary_period end_to_end 30 __init__ after_summary
           (Summary end_to_end_summary) (world_clock_in_range _) end_to_end_run).
  reflexivity.
Defined.

(** ** Rows *)

Lemma every_row_witness :
  exists summary service_result daily_result entries dailies,
    Summary mixed_summary = Summary summary
    /\ fetched mixed service_result /\ fetched mixed daily_result
    /\ Forall2 service_row_gives (get_rows service_result) entries
    /\ Permutation (CostSummary.costs_by_service summary) entries
    /\ length (CostSummary.costs_by_service summary)
       = length (get_rows service_result)
    /\ Forall2 (daily_row_gives mixed) (get_rows daily_result) dailies
    /\ Permutation (CostSummary.daily_costs summary) dailies
    /\ length (CostSummary.daily_costs summary) = length (get_rows daily_result).
Proof.
  apply (every_row_becomes_one_entry mixed 30 __init__ _ _ mixed_run).
  reflexivity.
Defined.

(** Two entries of 2024-01-15, in the order of their rows. *)
Lemma one_date_witness :
  exists summary daily_result dailies,
    Summary mixed_summary = Summary summary
    /\ fetched mixed daily_result
    /\ Forall2 (daily_row_gives mixed) (get_rows daily_result) dailies
    /\ (forall d,
          List.filter (on_date d) (CostSummary.daily_costs summary)
          = List.filter (on_date d) dailies).
Proof.
  apply (daily_costs_of_one_date_keep_row_order mixed 30 __init__ _ _ mixed_run).
  reflexivity.
Defined.





(** ** Integer date cells *)

(** The 30th of February. *)
Lemma eight_digits_witness : decode_date (CInt 20240230) = Raise ValueError.
Proof. apply (eight_digits_are_year_month_day 20240230). lia. Defined.

Lemma seven_digits_witness :
  decode_date (CInt 2024011) = Ok (Calendar.mkdate 2024 1 1).
Proof. apply (seven_digits_have_a_one_digit_day 2024011). lia. Defined.

Lemma short_integer_witness : decode_date (CInt 202401) = Raise ValueError.
Proof. apply (short_or_negative_integers_are_refused 202401). lia. Defined.

(** A time stamp YYYYMMDDHH. *)
Lemma digits_after_the_eighth_witness :
  decode_date (CInt 2024011512) = decode_date (CInt (2024011512 / 10 ^ Z.of_nat 2)).
Proof.
  apply (digits_after_the_eighth_are_ignored 2 2024011512).
  - simpl. lia.
  - lia.
Defined.

(** ** The forecast *)

Lemma forecast_divides_witness :
  exists forecast today1 today2 result cost quotient,
    january_forecast = Forecast forecast
    /\ is_today throttled_once today1 /\ is_today throttled_once today2
    /\ fetched throttled_once result
    /\ current_cost (get_rows result) = Ok cost
    /\ 1 <= Calendar.day today2 <= 31
    /\ CostForecast.forecast_period_end forecast
       = Calendar.mkdate (Calendar.year today1) (Calendar.month today1)
           (Calendar._days_in_month (Calendar.year today1) (Calendar.month today1))
    /\ 28 <= Calendar.day (CostForecast.forecast_period_end forecast) <= 31
    /\ truediv cost (Calendar.day today2) = Ok quotient
    /\ CostForecast.estimated_total forecast
       = Py.py_round2
           (quotient
            * float_of_int (Calendar.day (CostForecast.forecast_period_end forecast)))%float.
Proof.
  apply (forecast_divides_by_the_day throttled_once __init__ _ january_forecast
           (world_clock_in_range _) throttled_once_forecast).
  reflexivity.
Defined.




(** ** The ends of the calendar *)


(** Noon of 9999-12-21. *)
Definition last_december : Env :=
  {| azure_subscription_id := "sub";
     clock := fun _ => (3652049 - 1) * Calendar.US_PER_DAY + 43200000000;
     billing_api := fun _ => Responded (answer 200 None (Some month_rows));
     credential := fun _ => Some "token";
     float_of_str := fun _ => None |}.

Lemma december_9999_witness :
  get_forecast last_december __init__
  = (Raise OverflowError, snd (today last_december __init__))
  /\ requests (snd (today last_december __init__)) = requests __init__.
Proof.
  apply (no_forecast_in_december_9999 last_december __init__ __init__);
    reflexivity.
Defined.

(** ** The routes *)

Definition exception_text (e : PyErr) : string :=
  match e with
  | ValueError => "ValueError"
  | OverflowError => "OverflowError"
  | _ => "error"
  end.

Lemma current_month_route_witness :
  1 <= Calendar.day (Calendar.date_of_timestamp (clock end_to_end (clock_reads __init__)))
  <= 31
  /\ Main.get_current_month_costs end_to_end exception_text __init__
     = Main.get_costs end_to_end exception_text
         (Some (Calendar.day
                  (Calendar.date_of_timestamp (clock end_to_end (clock_reads __init__)))))
         (snd (today end_to_end __init__)).
Proof.
  apply (current_month_is_costs_of_the_day end_to_end exception_text __init__
           (world_clock_in_range _)).
Defined.

Definition mid_january_summary : CostSummary.t :=
  CostSummary.mk "sub" "virtual-bpm-prod"
    (Calendar.mkdate 2023 12 31) (Calendar.mkdate 2024 1 15)
    150.5 "USD"
    [CostByService.mk "Compute" 120.5 "USD"; CostByService.mk "Storage" 30 "USD"]
    [DailyCost.mk (Calendar.mkdate 2024 1 1) 10 "USD";
     DailyCost.mk (Calendar.mkdate 2024 1 2) 5 "USD"].

Lemma current_month_run :
  Main.get_current_month_costs end_to_end exception_text __init__
  = (Main.Returned mid_january_summary,
     snd (Main.get_current_month_costs end_to_end exception_text __init__)).
Proof. vm_compute. reflexivity. Defined.

(** On 2024-01-15 the period of "current month" starts on 2023-12-31. *)
Lemma current_month_period_witness :
  CostSummary.period_start mid_january_summary = Calendar.mkdate 2023 12 31
  /\ Calendar.toordinal (CostSummary.period_end mid_january_summary)
     - Calendar.toordinal (CostSummary.period_start mid_january_summary) = 15.
Proof.
  apply (current_month_starts_a_day_early end_to_end exception_text __init__ _
           mid_january_summary (world_clock_in_range _) current_month_run);
    reflexivity.
Defined.

End FurtherScenarios.
